(** * Routinen-App: the time codec, the cascade recalculator, the list
    mutations and the countdown timer of [src/index.tsx]

    The development embeds the pure core of the React component [App], of
    the forms of its list and card components and of its helper functions.
    It proves the properties the specification states about them, and
    further properties of the code: the round trips of the codec, the fixed
    points and the closed form of the cascade, what each handler does to a
    settled schedule, and two invariants of the states the app reaches.

    Modelling conventions.
    - A JavaScript string is a [string]: a sequence of code units below 256.
    - A JavaScript number is a [Z].  This is exact for the integer-valued
      doubles of magnitude at most 2^53 ([MAX_EXACT]); theorems place their
      numeric inputs in that range.  Where the source turns a string into a
      number, or does arithmetic that can leave the range, the embedding
      returns a [tracked] value: [Untracked] marks a number the model does
      not follow (a fraction, an exponent or radix literal, [Infinity], a
      magnitude above 2^53, an invalid date).  [Untracked]
      is never the answer of the program; it is the edge of the model.
    - A [Date] is its time value: milliseconds since the epoch, in UTC.
      The time zone of the host is a parameter of every function that reads
      or sets local time ([setHours], [getHours] and what calls them), and
      what [new Date()] reads is a parameter of every function that calls
      it.  Local time is derived as ECMA-262 does it, from the offset the
      zone has in force at each instant; a theorem whose conclusion is a
      wall-clock sum assumes that this offset does not change around the
      clock readings ([quiet]).
    - React state is passed explicitly: a handler is a function from the
      state it closes over to the state after its updates, together with the
      sound and speech requests it makes, in call order.  An updater function
      is run once per update. *)

From Stdlib Require Import ZArith String Ascii Decimal DecimalString DecimalZ DecimalN Lia.
From stdpp Require Import base tactics option list strings.

#[local] Open Scope string_scope.
#[local] Open Scope list_scope.
#[local] Open Scope Z_scope.

#[local] Arguments String.append !_ _ / : simpl nomatch.

(** ** Values the model follows *)

Inductive tracked (A : Type) : Type :=
| Known (a : A)
| Untracked.
Arguments Known {A} a.
Arguments Untracked {A}.

#[global] Instance tracked_ret : MRet tracked := @Known.
#[global] Instance tracked_bind : MBind tracked :=
  λ A B f m, match m with Known a => f a | Untracked => Untracked end.
#[global] Instance tracked_fmap : FMap tracked :=
  λ A B f m, match m with Known a => Known (f a) | Untracked => Untracked end.

(** 2^53: every integer up to this magnitude is a double, and sums and
    products of integers that stay below it are computed without rounding. *)
Definition MAX_EXACT : Z := 9007199254740992.

Definition exact (z : Z) : tracked Z :=
  if Z.abs z <=? MAX_EXACT then Known z else Untracked.

(** ** The JavaScript primitives the program calls *)

Module JS.

(** The result of [Number(s)] and of the arithmetic on it. *)
Inductive number : Type :=
| NaN
| Num (z : Z).

Definition isNaN (x : number) : bool :=
  match x with NaN => true | Num _ => false end.

(** WhiteSpace and LineTerminator code units below 256: TAB, LF, VT, FF, CR,
    SP, NBSP. *)
Definition isStrWhiteSpaceChar (c : ascii) : bool :=
  let n := N_of_ascii c in
  ((9 <=? n) && (n <=? 13) || (n =? 32) || (n =? 160))%N.

Fixpoint trimStart (s : string) : string :=
  match s with
  | String c s' => if isStrWhiteSpaceChar c then trimStart s' else s
  | EmptyString => EmptyString
  end.

Fixpoint trimEnd (s : string) : string :=
  match s with
  | String c s' =>
      let t := trimEnd s' in
      if isStrWhiteSpaceChar c && String.eqb t "" then "" else String c t
  | EmptyString => EmptyString
  end.

(** [s.trim()] *)
Definition trim (s : string) : string := trimEnd (trimStart s).

(** [s.split(sep)] for a one-character separator: never the empty array. *)
Fixpoint split (sep : ascii) (s : string) : list string :=
  match s with
  | EmptyString => [""]
  | String c s' =>
      if Ascii.eqb c sep then "" :: split sep s'
      else match split sep s' with
           | p :: ps => String c p :: ps
           | [] => [String c ""]
           end
  end.

Definition isDigit (c : ascii) : bool :=
  let n := N_of_ascii c in ((48 <=? n) && (n <=? 57))%N.

Definition isHexDigit (c : ascii) : bool :=
  let n := N_of_ascii c in
  (isDigit c || (65 <=? n) && (n <=? 70) || (97 <=? n) && (n <=? 102))%N.

Definition isOctalDigit (c : ascii) : bool :=
  let n := N_of_ascii c in ((48 <=? n) && (n <=? 55))%N.

Definition isBinaryDigit (c : ascii) : bool :=
  let n := N_of_ascii c in ((48 <=? n) && (n <=? 49))%N.

Fixpoint allChars (p : ascii → bool) (s : string) : bool :=
  match s with
  | EmptyString => true
  | String c s' => p c && allChars p s'
  end.

(** One or more characters, all satisfying [p]. *)
Definition someChars (p : ascii → bool) (s : string) : bool :=
  negb (String.eqb s "") && allChars p s.

(** The longest prefix of decimal digits, and the rest. *)
Fixpoint spanDigits (s : string) : string * string :=
  match s with
  | String c s' =>
      if isDigit c then let '(d, r) := spanDigits s' in (String c d, r)
      else ("", s)
  | EmptyString => ("", "")
  end.

Definition dropSign (s : string) : string :=
  match s with
  | String c s' => if Ascii.eqb c "+" || Ascii.eqb c "-" then s' else s
  | EmptyString => s
  end.

(** ExponentPart, or nothing. *)
Definition isExponentPartOpt (s : string) : bool :=
  match s with
  | EmptyString => true
  | String c s' =>
      (Ascii.eqb c "e" || Ascii.eqb c "E") && someChars isDigit (dropSign s')
  end.

(** StrUnsignedDecimalLiteral. *)
Definition isStrUnsignedDecimalLiteral (u : string) : bool :=
  String.eqb u "Infinity" ||
  match spanDigits u with
  | (EmptyString, String c r) =>
      Ascii.eqb c "." &&
      (let '(f, e) := spanDigits r in
       negb (String.eqb f "") && isExponentPartOpt e)
  | (EmptyString, EmptyString) => false
  | (_, String c r) =>
      if Ascii.eqb c "." then isExponentPartOpt (snd (spanDigits r))
      else isExponentPartOpt (String c r)
  | (_, EmptyString) => true
  end.

(** NonDecimalIntegerLiteral: [0x], [0o] and [0b] forms, which take no sign. *)
Definition isNonDecimalIntegerLiteral (t : string) : bool :=
  match t with
  | String z (String k r) =>
      Ascii.eqb z "0" &&
      ((Ascii.eqb k "x" || Ascii.eqb k "X") && someChars isHexDigit r ||
       (Ascii.eqb k "o" || Ascii.eqb k "O") && someChars isOctalDigit r ||
       (Ascii.eqb k "b" || Ascii.eqb k "B") && someChars isBinaryDigit r)
  | _ => false
  end.

(** StrNumericLiteral: the strings, already trimmed and not empty, that
    [Number] turns into a number other than NaN. *)
Definition isStrNumericLiteral (t : string) : bool :=
  isStrUnsignedDecimalLiteral (dropSign t) || isNonDecimalIntegerLiteral t.

(** The value of a literal made of an optional sign and decimal digits only. *)
Definition decimalIntegerValue (t : string) : option Z :=
  match t with
  | String c u =>
      if Ascii.eqb c "+" then Z.of_uint <$> NilZero.uint_of_string u
      else if Ascii.eqb c "-" then
        (λ d, - Z.of_uint d) <$> NilZero.uint_of_string u
      else Z.of_uint <$> NilZero.uint_of_string t
  | EmptyString => None
  end.

(** [Number(s)] on a string (StringToNumber). *)
Definition Number (s : string) : tracked number :=
  let t := trim s in
  if String.eqb t "" then Known (Num 0)
  else match decimalIntegerValue t with
       | Some z => Num <$> exact z
       | None => if isStrNumericLiteral t then Untracked else Known NaN
       end.

(** [String(n)] and [n.toString()] on an integer below 10^21. *)
Definition toString (z : Z) : string := NilZero.string_of_int (Z.to_int z).

(** [String(x)] *)
Definition String_ (x : number) : string :=
  match x with NaN => "NaN" | Num z => toString z end.

Fixpoint repeatChar (n : nat) (c : ascii) : string :=
  match n with O => EmptyString | S n' => String c (repeatChar n' c) end.

(** [s.padStart(targetLength, c)] for a one-character filler. *)
Definition padStart (s : string) (targetLength : nat) (c : ascii) : string :=
  repeatChar (targetLength - String.length s)%nat c +:+ s.

End JS.

(** ** Duration codec *)

(** [parseDurationToSeconds(input)]; [None] is [null]. *)
Definition parseDurationToSeconds (input : string) : tracked (option Z) :=
  if String.eqb input "" || String.eqb (JS.trim input) "" then Known None
  else
    numberInput ← JS.Number input;
    if negb (JS.isNaN numberInput)
       && String.eqb (JS.String_ numberInput) (JS.trim input)
    then
      match numberInput with
      | JS.Num n => v ← exact (n * 60); Known (Some (Z.max 0 v))
      | JS.NaN => Known None
      end
    else
      parts ← mapM JS.Number (JS.split ":" input);
      if existsb JS.isNaN parts then Known None
      else match parts with
           | [JS.Num p0; JS.Num p1] =>
               a ← exact (p0 * 60);
               v ← exact (a + p1);
               Known (Some (Z.max 0 v))
           | [JS.Num p0; JS.Num p1; JS.Num p2] =>
               a ← exact (p0 * 3600);
               b ← exact (p1 * 60);
               ab ← exact (a + b);
               v ← exact (ab + p2);
               Known (Some (Z.max 0 v))
           | _ => Known None
           end.

Definition pad2 (n : Z) : string := JS.padStart (JS.toString n) 2 "0".

(** [formatDuration(totalSeconds)] *)
Definition formatDuration (totalSeconds : Z) : string :=
  let totalSeconds := if totalSeconds <? 0 then 0 else totalSeconds in
  let h := totalSeconds / 3600 in
  let m := (totalSeconds mod 3600) / 60 in
  let s := totalSeconds mod 60 in
  if 0 <? h then pad2 h +:+ ":" +:+ pad2 m +:+ ":" +:+ pad2 s
  else if 0 <? m then pad2 m +:+ ":" +:+ pad2 s
  else JS.toString s +:+ "s".

(** [formatTimeLeft(totalSeconds)] *)
Definition formatTimeLeft (totalSeconds : Z) : string :=
  let totalSeconds := if totalSeconds <? 0 then 0 else totalSeconds in
  let hours := totalSeconds / 3600 in
  let minutes := (totalSeconds mod 3600) / 60 in
  let seconds := totalSeconds mod 60 in
  if 0 <? hours then pad2 hours +:+ ":" +:+ pad2 minutes +:+ ":" +:+ pad2 seconds
  else pad2 minutes +:+ ":" +:+ pad2 seconds.


(** ** Dates *)

(** A [Date] holds its time value: milliseconds since the epoch, in UTC. *)
Definition Date : Type := Z.

(** The time zone of the host.  [LocalTZA zone t isUTC] is the offset of
    local time from UTC, in milliseconds: the one in force at the UTC time
    [t] when [isUTC] is true, and the one under which the local time [t] is
    read when it is false (ECMA-262, LocalTZA). *)
Record TimeZone : Type := mkZone { LocalTZA : Z → bool → Z }.

Definition msPerSecond : Z := 1000.
Definition msPerMinute : Z := 60000.
Definition msPerHour : Z := 3600000.
Definition msPerDay : Z := 86400000.

Definition LocalTime (zone : TimeZone) (t : Z) : Z := t + LocalTZA zone t true.
Definition UTC (zone : TimeZone) (t : Z) : Z := t - LocalTZA zone t false.

Definition Day (t : Z) : Z := t / msPerDay.
Definition HourFromTime (t : Z) : Z := (t / msPerHour) mod 24.
Definition MinFromTime (t : Z) : Z := (t / msPerMinute) mod 60.
Definition SecFromTime (t : Z) : Z := (t / msPerSecond) mod 60.

(** The largest magnitude of a time value: 8.64 * 10^15 ms. *)
Definition MAX_TIME : Z := 8640000000000000.

(** TimeClip: a time value beyond [MAX_TIME] makes the date invalid, which
    the model does not follow. *)
Definition TimeClip (t : Z) : tracked Date :=
  if Z.abs t <=? MAX_TIME then Known t else Untracked.

Definition MakeTime (hour min sec ms : Z) : tracked Z :=
  a ← exact (hour * msPerHour);
  b ← exact (min * msPerMinute);
  ab ← exact (a + b);
  c ← exact (sec * msPerSecond);
  abc ← exact (ab + c);
  exact (abc + ms).

Definition MakeDate (day time : Z) : tracked Z :=
  a ← exact (day * msPerDay);
  exact (a + time).

(** [x || 0] on an element of [parts]: a missing element, NaN and 0 give 0. *)
Definition orZero (x : option JS.number) : Z :=
  match x with
  | Some (JS.Num z) => z
  | Some JS.NaN | None => 0
  end.

(** [date.setHours(hours, minutes, seconds, ms)]: the time of day is set on
    the local day of [date], and the local time is turned back into a time
    value. *)
Definition setHours (zone : TimeZone) (date : Date)
    (hours minutes seconds ms : Z) : tracked Date :=
  let t := LocalTime zone date in
  time ← MakeTime hours minutes seconds ms;
  local ← MakeDate (Day t) time;
  TimeClip (UTC zone local).

Definition getHours (zone : TimeZone) (date : Date) : Z :=
  HourFromTime (LocalTime zone date).
Definition getMinutes (zone : TimeZone) (date : Date) : Z :=
  MinFromTime (LocalTime zone date).
Definition getSeconds (zone : TimeZone) (date : Date) : Z :=
  SecFromTime (LocalTime zone date).

(** [parseTimeToDate(timeStr)]; [now] is what [new Date()] reads. *)
Definition parseTimeToDate (zone : TimeZone) (now : Date) (timeStr : string)
    : tracked Date :=
  parts ← mapM JS.Number (JS.split ":" timeStr);
  let hours := orZero (parts !! 0%nat) in
  let minutes := orZero (parts !! 1%nat) in
  let seconds := orZero (parts !! 2%nat) in
  setHours zone now hours minutes seconds 0.

(** [formatTimeFromDate(date)] *)
Definition formatTimeFromDate (zone : TimeZone) (date : Date) : string :=
  let hours := pad2 (getHours zone date) in
  let minutes := pad2 (getMinutes zone date) in
  let seconds := pad2 (getSeconds zone date) in
  hours +:+ ":" +:+ minutes +:+ ":" +:+ seconds.

(** [addSecondsToDate(date, seconds)]: [new Date(date.getTime() + seconds *
    1000)]. *)
Definition addSecondsToDate (date : Date) (seconds : Z) : tracked Date :=
  ms ← exact (seconds * 1000);
  TimeClip (date + ms).

(** ** Data model *)

Module Routine.
Record t : Type := mk {
  id : string;
  name : string;
  startTime : string;
  durationSeconds : Z;
  endTime : string
}.
End Routine.

Module RoutineList.
Record t : Type := mk {
  id : string;
  title : string;
  routines : list Routine.t
}.
End RoutineList.

Module ActiveRoutineState.
Record t : Type := mk {
  listId : string;
  routineId : string;
  currentRoutineIndex : nat;
  timeLeftInSeconds : Z;
  routineName : string
}.
End ActiveRoutineState.

(** The two pieces of React state of [App] the core reads and writes. *)
Record AppState : Type := mkApp {
  lists : list RoutineList.t;
  activeRoutineState : option ActiveRoutineState.t
}.

(** The texts handed to [speakText]. *)
Inductive message : Type :=
| RoutineDone (routineName : string)
    (* `${routineName} ist fertig.` *)
| AllDone (title : string)
    (* `Alle Routinen in "${title}" abgeschlossen!` *)
| StoppedActiveOrOnlyDeleted
    (* "Timer gestoppt, da die aktive oder einzige Routine gelöscht wurde." *)
| StoppedByChanges.
    (* "Timer gestoppt aufgrund von Änderungen. Bitte neu starten." *)

(** A sound or speech request, as the handlers issue them. *)
Inductive request : Type :=
| BeepThenSpeak (m : message)   (* playBeepSound(() => speakText(m)) *)
| Speak (m : message).          (* speakText(m) *)

(** ** Cascade recalculator *)

(** A [for] loop over [indices], threading the array. *)
Fixpoint forEachIndex {A : Type} (body : A → nat → tracked A) (a : A)
    (indices : list nat) : tracked A :=
  match indices with
  | [] => Known a
  | i :: rest => a' ← body a i; forEachIndex body a' rest
  end.

(** The value [currentStartTimeDate] takes at index [i] of the loop of
    [recalculateTimesInList], on element [r]; [clock i] is what [new Date()]
    reads in that turn of the loop, in [parseTimeToDate] or in the loop
    itself. *)
Definition currentStartTimeDateAt (zone : TimeZone) (clock : nat → Date)
    (updatedRoutines : list Routine.t) (i : nat) (r : Routine.t)
    : tracked Date :=
  if Nat.eqb i 0 then parseTimeToDate zone (clock i) (Routine.startTime r)
  else match updatedRoutines !! (i - 1)%nat with
       | Some p =>
           if String.eqb (Routine.endTime p) "" then Known (clock i)
           else parseTimeToDate zone (clock i) (Routine.endTime p)
       | None => Known (clock i)
       end.

(** The body of that loop at index [i]. *)
Definition recalculateStep (zone : TimeZone) (clock : nat → Date)
    (updatedRoutines : list Routine.t) (i : nat) : tracked (list Routine.t) :=
  match updatedRoutines !! i with
  | None => Known updatedRoutines
  | Some r =>
      currentStartTimeDate ←
        currentStartTimeDateAt zone clock updatedRoutines i r;
      endTimeDate ←
        addSecondsToDate currentStartTimeDate (Routine.durationSeconds r);
      Known (<[i := Routine.mk (Routine.id r) (Routine.name r)
                      (formatTimeFromDate zone currentStartTimeDate)
                      (Routine.durationSeconds r)
                      (formatTimeFromDate zone endTimeDate)]> updatedRoutines)
  end.

(** [recalculateTimesInList(list, startIndex)].  The source rewrites the
    routine objects of its shallow copy in place; the function returns the
    rewritten array, which is what its callers keep. *)
Definition recalculateTimesInList (zone : TimeZone) (clock : nat → Date)
    (list : RoutineList.t) (startIndex : nat) : tracked RoutineList.t :=
  let updatedRoutines := RoutineList.routines list in
  if Nat.eqb (length updatedRoutines) 0
  then Known (RoutineList.mk (RoutineList.id list) (RoutineList.title list) [])
  else
    updatedRoutines ←
      forEachIndex (recalculateStep zone clock) updatedRoutines
        (seq startIndex (length updatedRoutines - startIndex));
    Known (RoutineList.mk (RoutineList.id list) (RoutineList.title list)
             updatedRoutines).

(** ** Adding a routine *)

(** The branches of [handleAddRoutineToList] taken when [startTimeStr] is
    falsy: the end of the last routine, or the fixed default. *)
Definition startTimeWithoutInput (rs : list Routine.t) : string :=
  match last rs with
  | Some l => Routine.endTime l
  | None => "08:00:00"
  end.

(** The value of [newRoutineStartTimeStr]; a start time that is [undefined]
    or the empty string is falsy. *)
Definition newRoutineStartTimeStr (list : RoutineList.t)
    (startTimeStr : option string) : string :=
  match startTimeStr with
  | Some s =>
      if negb (String.eqb s "") then s +:+ ":00"
      else startTimeWithoutInput (RoutineList.routines list)
  | None => startTimeWithoutInput (RoutineList.routines list)
  end.

(** What [handleAddRoutineToList] does to the list whose id matches;
    [newId] is the value [generateId()] returns and [now] what [new Date()]
    reads in [parseTimeToDate]. *)
Definition addRoutineToList (zone : TimeZone) (now : Date) (newId : string)
    (list : RoutineList.t)
    (name : string) (durationSeconds : Z) (startTimeStr : option string)
    : tracked RoutineList.t :=
  let start := newRoutineStartTimeStr list startTimeStr in
  startDate ← parseTimeToDate zone now start;
  endTimeDate ← addSecondsToDate startDate durationSeconds;
  let newRoutine :=
    Routine.mk newId name start durationSeconds
      (formatTimeFromDate zone endTimeDate) in
  Known (RoutineList.mk (RoutineList.id list) (RoutineList.title list)
           (RoutineList.routines list ++ [newRoutine])).

(** [handleAddRoutineToList(listId, name, durationSeconds, startTimeStr)] on
    the list collection; [generateId k] is the id generated for the list at
    position [k] and [clock k] what [new Date()] reads there. *)
Definition handleAddRoutineToList (zone : TimeZone) (clock : nat → Date)
    (generateId : nat → string)
    (listId name : string) (durationSeconds : Z)
    (startTimeStr : option string) (prevLists : list RoutineList.t)
    : tracked (list RoutineList.t) :=
  mapM (λ x, x)
    (imap (λ k list,
             if String.eqb (RoutineList.id list) listId
             then addRoutineToList zone (clock k) (generateId k) list name
                    durationSeconds
                    startTimeStr
             else Known list) prevLists).

(** The call [handleSubmitNewRoutine] makes to [onAddRoutine]: list id,
    name, duration and start time; [None] when it alerts and returns. *)
Definition handleSubmitNewRoutine (list : RoutineList.t)
    (newRoutineName newRoutineDurationInput newRoutineStartTime : string)
    : tracked (option (string * string * Z * option string)) :=
  durationSec ← parseDurationToSeconds newRoutineDurationInput;
  match durationSec with
  | None => Known None
  | Some d =>
      if String.eqb (JS.trim newRoutineName) "" || (d <=? 0) then Known None
      else
        let isFirstRoutine := Nat.eqb (length (RoutineList.routines list)) 0 in
        Known (Some (RoutineList.id list, newRoutineName, d,
                     if isFirstRoutine then Some newRoutineStartTime
                     else None))
  end.

(** ** Countdown timer *)

(** The state updater the interval runs every second, on the list
    collection the effect closed over. *)
Definition tick (lists : list RoutineList.t)
    (prev : option ActiveRoutineState.t)
    : option ActiveRoutineState.t * list request :=
  match prev with
  | None => (None, [])
  | Some prev =>
      if ActiveRoutineState.timeLeftInSeconds prev <=? 1 then
        let done :=
          BeepThenSpeak (RoutineDone (ActiveRoutineState.routineName prev)) in
        match List.find (λ l, String.eqb (RoutineList.id l)
                                (ActiveRoutineState.listId prev)) lists with
        | None => (None, [done])
        | Some currentList =>
            let nextRoutineIndex :=
              (ActiveRoutineState.currentRoutineIndex prev + 1)%nat in
            (* the lookup succeeds exactly when
               nextRoutineIndex < currentList.routines.length *)
            match RoutineList.routines currentList !! nextRoutineIndex with
            | Some nextRoutine =>
                (Some (ActiveRoutineState.mk
                         (ActiveRoutineState.listId prev)
                         (Routine.id nextRoutine)
                         nextRoutineIndex
                         (Routine.durationSeconds nextRoutine)
                         (Routine.name nextRoutine)),
                 [done])
            | None =>
                (None, [done; Speak (AllDone (RoutineList.title currentList))])
            end
        end
      else
        (Some (ActiveRoutineState.mk
                 (ActiveRoutineState.listId prev)
                 (ActiveRoutineState.routineId prev)
                 (ActiveRoutineState.currentRoutineIndex prev)
                 (ActiveRoutineState.timeLeftInSeconds prev - 1)
                 (ActiveRoutineState.routineName prev)),
         [])
  end.

(** ** Deleting a routine *)

(** [a.findIndex(p)]: -1 when no element satisfies [p]. *)
Fixpoint findIndex {A : Type} (p : A → bool) (l : list A) : Z :=
  match l with
  | [] => -1
  | x :: l' =>
      if p x then 0
      else let k := findIndex p l' in if k <? 0 then -1 else k + 1
  end.

(** The calls to [setActiveRoutineState] a handler queues. *)
Inductive timerUpdate : Type :=
| SetNull
    (* setActiveRoutineState(null) *)
| RefreshName (updatedRoutines : list Routine.t).
    (* setActiveRoutineState(prev => prev ? {...prev, routineName:
       updatedRoutines[prev.currentRoutineIndex].name} : null) *)

Definition applyTimerUpdate (s : option ActiveRoutineState.t)
    (u : timerUpdate) : option ActiveRoutineState.t :=
  match u, s with
  | SetNull, _ => None
  | RefreshName _, None => None
  | RefreshName updatedRoutines, Some prev =>
      match updatedRoutines !! ActiveRoutineState.currentRoutineIndex prev with
      | Some r =>
          Some (ActiveRoutineState.mk
                  (ActiveRoutineState.listId prev)
                  (ActiveRoutineState.routineId prev)
                  (ActiveRoutineState.currentRoutineIndex prev)
                  (ActiveRoutineState.timeLeftInSeconds prev)
                  (Routine.name r))
      | None => Some prev
          (* not reached: the update is queued only after the index was
             checked against this array, and no update moves the index *)
      end
  end.

(** The timer branch of [handleDeleteRoutine], on the routines left in the
    list whose id matches: the timer updates it queues and the requests it
    makes. *)
Definition timerEffectsOfDelete
    (activeRoutineState : option ActiveRoutineState.t)
    (listId routineId : string) (updatedRoutines : list Routine.t)
    : list timerUpdate * list request :=
  match activeRoutineState with
  | Some a =>
      if String.eqb (ActiveRoutineState.listId a) listId then
        if Nat.eqb (length updatedRoutines) 0
           || String.eqb (ActiveRoutineState.routineId a) routineId
        then ([SetNull], [BeepThenSpeak StoppedActiveOrOnlyDeleted])
        else
          let activeIndexStillValid :=
            (ActiveRoutineState.currentRoutineIndex a
             <? length updatedRoutines)%nat in
          if negb activeIndexStillValid
             || match updatedRoutines
                      !! ActiveRoutineState.currentRoutineIndex a with
                | Some r =>
                    negb (String.eqb (Routine.id r)
                            (ActiveRoutineState.routineId a))
                | None => true
                end
          then ([SetNull], [BeepThenSpeak StoppedByChanges])
          else ([RefreshName updatedRoutines], [])
      else ([], [])
  | None => ([], [])
  end.

(** What the updater of [handleDeleteRoutine] does with the list whose id
    matches: the new list, the timer updates it queues and the requests it
    makes.  [recalculateTimesInList] rewrites the times of the routine
    objects it is given; ids and names, which the timer branch reads, are
    not touched by it. *)
Definition deleteRoutineFromList (zone : TimeZone) (clock : nat → Date)
    (activeRoutineState : option ActiveRoutineState.t)
    (listId routineId : string) (list : RoutineList.t)
    : tracked (RoutineList.t * Datatypes.list timerUpdate
               * Datatypes.list request) :=
  let updatedRoutines :=
    List.filter (λ r, negb (String.eqb (Routine.id r) routineId))
      (RoutineList.routines list) in
  let routineIndex :=
    findIndex (λ r, String.eqb (Routine.id r) routineId)
      (RoutineList.routines list) in
  recalculatedList ←
    recalculateTimesInList zone clock
      (RoutineList.mk (RoutineList.id list) (RoutineList.title list)
         updatedRoutines)
      (Z.to_nat (Z.max 0 (routineIndex - 1)));
  let '(updates, requests) :=
    timerEffectsOfDelete activeRoutineState listId routineId updatedRoutines in
  Known (recalculatedList, updates, requests).

(** [handleDeleteRoutine(listId, routineId)]: the state after the updates
    it queues, and its requests; [clock k] is the clock the recalculation of
    the list at position [k] reads. *)
Definition handleDeleteRoutine (zone : TimeZone) (clock : nat → nat → Date)
    (listId routineId : string) (st : AppState)
    : tracked (AppState * list request) :=
  results ←
    mapM (λ x, x)
      (imap (λ k list,
               if String.eqb (RoutineList.id list) listId
               then deleteRoutineFromList zone (clock k) (activeRoutineState st)
                      listId routineId list
               else Known (list, [], [])) (lists st));
  let newLists := (λ x, x.1.1) <$> results in
  let updates := concat ((λ x, x.1.2) <$> results) in
  let requests := concat ((λ x, x.2) <$> results) in
  Known (mkApp newLists
           (foldl applyTimerUpdate (activeRoutineState st) updates),
         requests).

(** ** Moving a list *)

(** The index [a.splice(start, ...)] starts at: a negative [start] counts
    from the end, and the result is clamped to the array. *)
Definition spliceStart {A : Type} (a : list A) (start : Z) : nat :=
  let len := Z.of_nat (length a) in
  Z.to_nat (if start <? 0 then Z.max (len + start) 0 else Z.min start len).

(** [a.splice(start, deleteCount, ...items)]: the array afterwards and the
    removed elements. *)
Definition splice {A : Type} (a : list A) (start : Z) (deleteCount : nat)
    (items : list A) : list A * list A :=
  let k := spliceStart a start in
  (take k a ++ items ++ drop (k + deleteCount) a, take deleteCount (drop k a)).

(** [handleMoveList(sourceIndex, targetIndexInContainer)] *)
Definition handleMoveList (sourceIndex targetIndexInContainer : Z)
    (st : AppState) : AppState :=
  let '(newLists, removed) := splice (lists st) sourceIndex 1 [] in
  match removed with
  | movedList :: _ =>
      let actualTargetIndex :=
        if sourceIndex <? targetIndexInContainer
        then targetIndexInContainer - 1 else targetIndexInContainer in
      mkApp (splice newLists actualTargetIndex 0 [movedList]).1
        (activeRoutineState st)
  | [] => mkApp newLists (activeRoutineState st)
  end.

(** ** The other mutations of the list collection *)

(** The texts of the other handlers, each handed to
    [playBeepSound(() => speakText(...))]. *)
Inductive notice : Type :=
| StoppedByTimeChanges
    (* "Timer gestoppt wegen Zeitänderungen. Bitte Routinen neu starten." *)
| StoppedAllDeleted (title : string)
    (* `Timer gestoppt, da alle Routinen aus der aktiven Liste "${title}"
       gelöscht wurden.` *)
| StoppedByMove
    (* 'Timer gestoppt durch Verschieben von Routinen.' *)
| NothingToStart (title : string).
    (* `Liste "${title}" hat keine Routinen zum Starten.` *)

(** [activeRoutineState?.listId === listId] *)
Definition timerOnList (activeRoutineState : option ActiveRoutineState.t)
    (listId : string) : bool :=
  match activeRoutineState with
  | Some a => String.eqb (ActiveRoutineState.listId a) listId
  | None => false
  end.

(** [setLists(prevLists => prevLists.map(list => list.id === listId ? ... :
    list))] with an updater that may call [setActiveRoutineState] and
    announce: the state after the queued updates, and the announcements;
    [onList k list] is what the updater does with a list at position [k]
    whose id matches. *)
Definition updateMatchingLists {N : Type}
    (onList : nat → RoutineList.t →
              tracked (RoutineList.t * list timerUpdate * list N))
    (listId : string) (st : AppState) : tracked (AppState * list N) :=
  results ←
    mapM (λ x, x)
      (imap (λ k list,
               if String.eqb (RoutineList.id list) listId
               then onList k list
               else Known (list, [], [])) (lists st));
  Known (mkApp ((λ x, x.1.1) <$> results)
           (foldl applyTimerUpdate (activeRoutineState st)
              (concat ((λ x, x.1.2) <$> results))),
         concat ((λ x, x.2) <$> results)).

(** What the updater of [handleUpdateRoutineDurationInList] does with the
    list whose id matches. *)
Definition updateDurationInList (zone : TimeZone) (clock : nat → Date)
    (activeRoutineState : option ActiveRoutineState.t)
    (listId routineId : string) (newDurationSeconds : Z)
    (list : RoutineList.t)
    : tracked (RoutineList.t * Datatypes.list timerUpdate
               * Datatypes.list notice) :=
  let routineIndex :=
    findIndex (λ r, String.eqb (Routine.id r) routineId)
      (RoutineList.routines list) in
  if routineIndex =? -1 then Known (list, [], [])
  else
    let updatedRoutines :=
      imap (λ index routine,
              if Z.of_nat index =? routineIndex
              then Routine.mk (Routine.id routine) (Routine.name routine)
                     (Routine.startTime routine) newDurationSeconds
                     (Routine.endTime routine)
              else routine) (RoutineList.routines list) in
    recalculatedList ←
      recalculateTimesInList zone clock
        (RoutineList.mk (RoutineList.id list) (RoutineList.title list)
           updatedRoutines)
        (Z.to_nat routineIndex);
    if timerOnList activeRoutineState listId
    then Known (recalculatedList, [SetNull], [StoppedByTimeChanges])
    else Known (recalculatedList, [], []).

(** [handleUpdateRoutineDurationInList(listId, routineId,
    newDurationSeconds)] *)
Definition handleUpdateRoutineDurationInList (zone : TimeZone)
    (clock : nat → nat → Date)
    (listId routineId : string) (newDurationSeconds : Z) (st : AppState)
    : tracked (AppState * list notice) :=
  updateMatchingLists
    (λ k, updateDurationInList zone (clock k) (activeRoutineState st) listId
            routineId newDurationSeconds)
    listId st.

(** What the updater of [handleUpdateListStartTime] does with the list
    whose id matches. *)
Definition updateStartTimeInList (zone : TimeZone) (clock : nat → Date)
    (activeRoutineState : option ActiveRoutineState.t)
    (listId newStartTimeStrWithSeconds : string) (list : RoutineList.t)
    : tracked (RoutineList.t * Datatypes.list timerUpdate
               * Datatypes.list notice) :=
  if Nat.eqb (length (RoutineList.routines list)) 0
  then Known (list, [], [])
  else
    let updatedRoutines :=
      imap (λ index routine,
              if Nat.eqb index 0
              then Routine.mk (Routine.id routine) (Routine.name routine)
                     newStartTimeStrWithSeconds
                     (Routine.durationSeconds routine)
                     (Routine.endTime routine)
              else routine) (RoutineList.routines list) in
    recalculatedList ←
      recalculateTimesInList zone clock
        (RoutineList.mk (RoutineList.id list) (RoutineList.title list)
           updatedRoutines) 0;
    if timerOnList activeRoutineState listId
    then Known (recalculatedList, [SetNull], [StoppedByTimeChanges])
    else Known (recalculatedList, [], []).

(** [handleUpdateListStartTime(listId, newStartTimeStrWithSeconds)] *)
Definition handleUpdateListStartTime (zone : TimeZone)
    (clock : nat → nat → Date)
    (listId newStartTimeStrWithSeconds : string) (st : AppState)
    : tracked (AppState * list notice) :=
  updateMatchingLists
    (λ k, updateStartTimeInList zone (clock k) (activeRoutineState st) listId
            newStartTimeStrWithSeconds)
    listId st.

(** [/^\d{2}:\d{2}$/.test(s)] *)
Definition isHHMM (s : string) : bool :=
  match s with
  | String h1 (String h2 (String c (String m1 (String m2 EmptyString)))) =>
      JS.isDigit h1 && JS.isDigit h2 && Ascii.eqb c ":"
      && JS.isDigit m1 && JS.isDigit m2
  | _ => false
  end.

(** [initialStartTimeForEdit]: what the start-time editor of a list is
    filled with. *)
Definition initialStartTimeForEdit (list : RoutineList.t) : string :=
  match RoutineList.routines list with
  | r :: _ => String.substring 0 5 (Routine.startTime r)
      (* list.routines[0].startTime.substring(0,5) *)
  | [] => "08:00"
  end.

(** The call [handleSaveListStartTime] makes to [onUpdateListStartTime]:
    list id and start time; [None] when it alerts and returns. *)
Definition handleSaveListStartTime (list : RoutineList.t)
    (editListStartTime : string) : option (string * string) :=
  if Nat.eqb (length (RoutineList.routines list)) 0 then None
  else if negb (isHHMM editListStartTime) then None
  else Some (RoutineList.id list, editListStartTime +:+ ":00").

(** The call [handleSaveDuration] makes to [onUpdateRoutineDuration]: list
    id, routine id and duration; [None] when it alerts. *)
Definition handleSaveDuration (listId : string) (routine : Routine.t)
    (editDurationInput : string) : tracked (option (string * string * Z)) :=
  newDurationSec ← parseDurationToSeconds editDurationInput;
  match newDurationSec with
  | Some d =>
      if 0 <=? d then Known (Some (listId, Routine.id routine, d))
      else Known None
  | None => Known None
  end.

(** [handleDeleteAllRoutinesInList(listId)] *)
Definition handleDeleteAllRoutinesInList (listId : string) (st : AppState)
    : AppState * list notice :=
  let results :=
    (λ list,
       if String.eqb (RoutineList.id list) listId
       then
         (RoutineList.mk (RoutineList.id list) (RoutineList.title list) [],
          if timerOnList (activeRoutineState st) listId
          then ([SetNull], [StoppedAllDeleted (RoutineList.title list)])
          else ([], []))
       else (list, ([], []))) <$> lists st in
  (mkApp (fst <$> results)
     (foldl applyTimerUpdate (activeRoutineState st)
        (concat ((λ x, x.2.1) <$> results))),
   concat ((λ x, x.2.2) <$> results)).

(** [handleMoveRoutine(cardId, sourceListId, targetListId, targetIndex)].
    [JSON.parse(JSON.stringify(prevLists))] copies the collection; the
    copy's lists are rewritten by position. [clock 0] and [clock 1] are the
    clocks of the two recalculations. *)
Definition handleMoveRoutine (zone : TimeZone) (clock : nat → nat → Date)
    (cardId sourceListId targetListId : string) (targetIndex : Z)
    (st : AppState) : tracked (AppState * list notice) :=
  let prevLists := lists st in
  let sourceListIdx :=
    findIndex (λ l, String.eqb (RoutineList.id l) sourceListId) prevLists in
  if sourceListIdx =? -1 then Known (st, [])
  else
    match prevLists !! Z.to_nat sourceListIdx with
    | None => Known (st, [])
    | Some source =>
        let cardIndexInSource :=
          findIndex (λ r, String.eqb (Routine.id r) cardId)
            (RoutineList.routines source) in
        let '(remaining, removed) :=
          if -1 <? cardIndexInSource
          then splice (RoutineList.routines source) cardIndexInSource 1 []
          else (RoutineList.routines source, []) in
        match removed with
        | [] => Known (st, [])
        | cardToMove :: _ =>
            let newLists :=
              <[Z.to_nat sourceListIdx :=
                  RoutineList.mk (RoutineList.id source)
                    (RoutineList.title source) remaining]> prevLists in
            let targetListIdx :=
              findIndex (λ l, String.eqb (RoutineList.id l) targetListId)
                newLists in
            if targetListIdx =? -1 then Known (st, [])
            else
              match newLists !! Z.to_nat targetListIdx with
              | None => Known (st, [])
              | Some target =>
                  let newLists :=
                    <[Z.to_nat targetListIdx :=
                        RoutineList.mk (RoutineList.id target)
                          (RoutineList.title target)
                          (splice (RoutineList.routines target) targetIndex
                             0 [cardToMove]).1]> newLists in
                  newLists ←
                    match newLists !! Z.to_nat sourceListIdx with
                    | Some s =>
                        if (0 <? length (RoutineList.routines s))%nat
                        then
                          r ← recalculateTimesInList zone (clock 0%nat) s 0;
                          Known (<[Z.to_nat sourceListIdx := r]> newLists)
                        else Known newLists
                    | None => Known newLists
                    end;
                  newLists ←
                    match newLists !! Z.to_nat targetListIdx with
                    | Some t =>
                        r ← recalculateTimesInList zone (clock 1%nat) t 0;
                        Known (<[Z.to_nat targetListIdx := r]> newLists)
                    | None => Known newLists
                    end;
                  if timerOnList (activeRoutineState st) sourceListId
                     || timerOnList (activeRoutineState st) targetListId
                  then Known (mkApp newLists None, [StoppedByMove])
                  else Known (mkApp newLists (activeRoutineState st), [])
              end
        end
    end.

(** [handleToggleStartStopList(listId)] *)
Definition handleToggleStartStopList (listId : string) (st : AppState)
    : AppState * list notice :=
  if timerOnList (activeRoutineState st) listId
  then (mkApp (lists st) None, [])
  else
    match List.find (λ l, String.eqb (RoutineList.id l) listId) (lists st)
    with
    | Some targetList =>
        match RoutineList.routines targetList with
        | firstRoutine :: _ =>
            (mkApp (lists st)
               (Some (ActiveRoutineState.mk listId (Routine.id firstRoutine)
                        0 (Routine.durationSeconds firstRoutine)
                        (Routine.name firstRoutine))),
             [])
        | [] =>
            (mkApp (lists st) None,
             [NothingToStart (RoutineList.title targetList)])
        end
    | None => (mkApp (lists st) None, [])
    end.

(** [handleAddList]: [newId] is the value [generateId()] returns. *)
Definition handleAddList (newId newListName : string) (st : AppState)
    : AppState :=
  if String.eqb (JS.trim newListName) "" then st
  else mkApp (lists st ++ [RoutineList.mk newId newListName []])
         (activeRoutineState st).

(** [n] runs of the interval's updater on the same list collection: the
    timer afterwards and the requests made, in order. *)
Fixpoint ticks (n : nat) (lists : list RoutineList.t)
    (s : option ActiveRoutineState.t)
    : option ActiveRoutineState.t * list request :=
  match n with
  | O => (s, [])
  | S n' =>
      let '(s1, r1) := tick lists s in
      let '(s2, r2) := ticks n' lists s1 in
      (s2, r1 ++ r2)
  end.

(** ** The transitions of the app *)

(** One transition on a host in the time zone [zone]: a call of a handler,
    or a run of the interval's updater on the lists of the state.  For the
    handlers that compute times, a run the model follows; for
    [handleAddList], an id that no list has. *)
Inductive step (zone : TimeZone) (st : AppState) : AppState → Prop :=
| step_add_list (newId newListName : string) :
    forallb (λ l, negb (String.eqb (RoutineList.id l) newId)) (lists st)
    = true →
    step zone st (handleAddList newId newListName st)
| step_add_routine (clock : nat → Date) (generateId : nat → string)
    (listId name : string) (durationSeconds : Z)
    (startTimeStr : option string) (newLists : list RoutineList.t) :
    handleAddRoutineToList zone clock generateId listId name durationSeconds
      startTimeStr (lists st) = Known newLists →
    step zone st (mkApp newLists (activeRoutineState st))
| step_update_duration (clock : nat → nat → Date) (listId routineId : string)
    (newDurationSeconds : Z) (st' : AppState) (notices : list notice) :
    handleUpdateRoutineDurationInList zone clock listId routineId
      newDurationSeconds st = Known (st', notices) →
    step zone st st'
| step_update_start (clock : nat → nat → Date)
    (listId newStartTimeStrWithSeconds : string) (st' : AppState)
    (notices : list notice) :
    handleUpdateListStartTime zone clock listId newStartTimeStrWithSeconds st
    = Known (st', notices) →
    step zone st st'
| step_delete_routine (clock : nat → nat → Date) (listId routineId : string)
    (st' : AppState) (requests : list request) :
    handleDeleteRoutine zone clock listId routineId st
    = Known (st', requests) →
    step zone st st'
| step_delete_all (listId : string) :
    step zone st (handleDeleteAllRoutinesInList listId st).1
| step_move_routine (clock : nat → nat → Date)
    (cardId sourceListId targetListId : string) (targetIndex : Z)
    (st' : AppState) (notices : list notice) :
    handleMoveRoutine zone clock cardId sourceListId targetListId targetIndex
      st
    = Known (st', notices) →
    step zone st st'
| step_move_list (sourceIndex targetIndexInContainer : Z) :
    step zone st (handleMoveList sourceIndex targetIndexInContainer st)
| step_toggle (listId : string) :
    step zone st (handleToggleStartStopList listId st).1
| step_tick :
    step zone st
      (mkApp (lists st) (tick (lists st) (activeRoutineState st)).1).

(** The states the app reaches from its initial state, with no lists and
    no timer. *)
Inductive reachable (zone : TimeZone) : AppState → Prop :=
| reachable_initial : reachable zone (mkApp [] None)
| reachable_step (st st' : AppState) :
    reachable zone st → step zone st st' → reachable zone st'.

(** ** Vocabulary of the specification *)

(** The number a field of decimal digits denotes; [None] when the field is
    empty or holds another character. *)
Definition digitsValue (f : string) : option Z :=
  Z.of_uint <$> NilZero.uint_of_string f.

Definition digitChar (d : Z) : ascii := ascii_of_N (48 + Z.to_N d).

(** The two-digit field of a value below 100. *)
Definition twoDigit (v : Z) : string :=
  String (digitChar (v / 10)) (String (digitChar (v mod 10)) "").

(** A field that renders [v] in decimal, zero-padded to two digits. *)
Definition paddedField (v : Z) (f : string) : Prop :=
  digitsValue f = Some v
  ∧ (2 ≤ String.length f)%nat
  ∧ (f = JS.toString v ∨ String.length f = 2%nat).

Definition secondsPerDay : Z := 86400.

(** HH:MM:SS of a time of day given in seconds since midnight. *)
Definition wallClock (t : Z) : string :=
  twoDigit (t / 3600) +:+ ":" +:+ twoDigit (t mod 3600 / 60) +:+ ":"
  +:+ twoDigit (t mod 60).

(** Wall-clock addition within a day. *)
Definition wallClockAdd (t seconds : Z) : Z := (t + seconds) mod secondsPerDay.

(** A time zone that keeps one offset. *)
Definition fixedZone (off : Z) : TimeZone := mkZone (λ _ _, off).

Definition utc : TimeZone := fixedZone 0.

(** Europe/Berlin in 2026: one hour ahead of UTC, and two hours from
    29 March 01:00 UTC to 25 October 01:00 UTC.  A local time that a change
    skips or repeats is read under the offset before the change. *)
Definition europeBerlin2026 : TimeZone :=
  mkZone (λ t isUTC,
            if isUTC
            then if (1774746000000 <=? t) && (t <? 1792890000000)
                 then 7200000 else 3600000
            else if (1774753200000 <=? t) && (t <? 1792897200000)
                 then 7200000 else 3600000).

(** The longest duration followed: 8 * 10^12 seconds, whose milliseconds
    added to a current date stay a valid date. *)
Definition MAX_DURATION : Z := 8000000000000.

(** The current dates followed: within 6 * 10^14 ms of the epoch. *)
Definition CLOCK_WINDOW : Z := 600000000000000.

(** The host's clock is quiet around [now]: from five days and [horizon]
    seconds before [now] to five days and [horizon] seconds after it, local
    time is [off] milliseconds ahead of UTC, so no change of offset (no
    start or end of daylight-saving time) falls in between. *)
Definition quiet (zone : TimeZone) (off horizon : Z) (now : Date) : Prop :=
  Z.abs now ≤ CLOCK_WINDOW
  ∧ Z.abs off ≤ msPerDay
  ∧ 0 ≤ horizon ≤ MAX_DURATION
  ∧ ∀ t, Z.abs (t - now) ≤ 5 * msPerDay + 1000 * horizon →
         LocalTZA zone t true = off ∧ LocalTZA zone (t + off) false = off.

(** The host's clock is quiet around every reading of [clock]. *)
Definition quietClock (zone : TimeZone) (off horizon : Z)
    (clock : nat → Date) : Prop :=
  ∀ i, quiet zone off horizon (clock i).

(** Durations of at most [horizon] seconds, either way. *)
Definition durationInRange (horizon seconds : Z) : bool :=
  Z.abs seconds <=? horizon.

Definition durationsInRange (horizon : Z) (rs : list Routine.t) : bool :=
  forallb (λ r, durationInRange horizon (Routine.durationSeconds r)) rs.

(** A start date within five days of the current date. *)
Definition startDateInRange (now : Date) (d : tracked Date) : bool :=
  match d with
  | Known t => Z.abs (t - now) <=? 5 * msPerDay
  | Untracked => false
  end.

(** The start date of the first element the recalculation rewrites is in
    range (vacuous when [fromIndex] is past the end). *)
Definition anchorInRange (zone : TimeZone) (clock : nat → Date)
    (rs : list Routine.t) (fromIndex : nat) : bool :=
  match rs !! fromIndex with
  | Some r =>
      startDateInRange (clock fromIndex)
        (currentStartTimeDateAt zone clock rs fromIndex r)
  | None => true
  end.

(** The date at which the host's clock shows the time of day [t], in
    seconds since midnight, on the local day of [now]. *)
Definition dateAt (zone : TimeZone) (now : Date) (t : Z) : Date :=
  UTC zone (Day (LocalTime zone now) * msPerDay + t * 1000).

(** The characters of a formatted duration or time: digits and colons. *)
Definition isFieldChar (c : ascii) : bool := JS.isDigit c || Ascii.eqb c ":".

(** [formatDuration] as the specification words it: hours and minutes
    without forced zero-padding when they lead, two-digit fields after
    them, bare seconds under a minute. *)
Definition formatDuration_stated (n : Z) : string :=
  if 3600 <=? n then
    JS.toString (n / 3600) +:+ ":" +:+ twoDigit (n mod 3600 / 60) +:+ ":"
    +:+ twoDigit (n mod 60)
  else if 60 <=? n then
    JS.toString (n / 60) +:+ ":" +:+ twoDigit (n mod 60)
  else JS.toString n +:+ "s".

(** [parseDuration] as the specification words it: a bare numeric string
    is whole minutes, two or three numeric parts are MM:SS or H:MM:SS, and
    empty input, a part that is no number or another count of parts is
    invalid. *)
Definition parseDuration_stated (input : string) : tracked (option Z) :=
  if String.eqb input "" then Known None
  else
    parts ← mapM JS.Number (JS.split ":" input);
    match parts with
    | [JS.Num n] => Known (Some (Z.max 0 (n * 60)))
    | [JS.Num m; JS.Num s] => Known (Some (Z.max 0 (m * 60 + s)))
    | [JS.Num h; JS.Num m; JS.Num s] =>
        Known (Some (Z.max 0 (h * 3600 + m * 60 + s)))
    | _ => Known None
    end.

(** What [parseDurationToSeconds] makes of the numbers of a colon-separated
    input that is not a bare number in canonical form. *)
Definition secondsOfParts (parts : list JS.number) : option Z :=
  match parts with
  | [JS.Num m; JS.Num s] => Some (Z.max 0 (m * 60 + s))
  | [JS.Num h; JS.Num m; JS.Num s] => Some (Z.max 0 (h * 3600 + m * 60 + s))
  | _ => None
  end.

(** The products and partial sums [secondsOfParts] goes through are exact. *)
Definition partsExact (parts : list JS.number) : bool :=
  match parts with
  | [JS.Num m; JS.Num s] =>
      (Z.abs (m * 60) <=? MAX_EXACT) && (Z.abs (m * 60 + s) <=? MAX_EXACT)
  | [JS.Num h; JS.Num m; JS.Num s] =>
      (Z.abs (h * 3600) <=? MAX_EXACT) && (Z.abs (m * 60) <=? MAX_EXACT)
      && (Z.abs (h * 3600 + m * 60) <=? MAX_EXACT)
      && (Z.abs (h * 3600 + m * 60 + s) <=? MAX_EXACT)
  | _ => true
  end.

Definition isSignOrDigit (c : ascii) : bool :=
  JS.isDigit c || Ascii.eqb c "+" || Ascii.eqb c "-".


(** [addRoutineToList] appends a routine that starts at [start] and ends
    [durationSeconds] later on the wall clock, whenever the date [start]
    denotes and the duration are in range; the wall clock is the local time
    of the host. *)
Definition appendsRoutineAt (zone : TimeZone) (now : Date) (horizon : Z)
    (newId : string) (list : RoutineList.t)
    (name : string) (durationSeconds : Z) (startTimeStr : option string)
    (start : string) : Prop :=
  ∀ t0, parseTimeToDate zone now start = Known t0 →
    startDateInRange now (Known t0) = true →
    durationInRange horizon durationSeconds = true →
    addRoutineToList zone now newId list name durationSeconds startTimeStr
    = Known (RoutineList.mk (RoutineList.id list) (RoutineList.title list)
               (RoutineList.routines list
                ++ [Routine.mk newId name start durationSeconds
                      (wallClock (wallClockAdd (LocalTime zone t0 / 1000)
                                    durationSeconds))])).

(** [r] continues [p] on the wall clock: it starts when [p] ends, and it
    ends its duration later, within a day. *)
Definition follows (p r : Routine.t) : Prop :=
  ∃ t, 0 ≤ t < secondsPerDay
       ∧ Routine.endTime p = wallClock t
       ∧ Routine.startTime r = wallClock t
       ∧ Routine.endTime r
         = wallClock (wallClockAdd t (Routine.durationSeconds r)).

(** [r] is [r0] with, at most, other times. *)
Definition retimed (r0 r : Routine.t) : Prop :=
  Routine.id r = Routine.id r0
  ∧ Routine.name r = Routine.name r0
  ∧ Routine.durationSeconds r = Routine.durationSeconds r0.




(** The time of day, in seconds since midnight, of a text in the form
    [formatTimeFromDate] gives, read on a clock in UTC on the day of the
    epoch: [None] for any other text. *)
Definition timeOfDay (s : string) : option Z :=
  match parseTimeToDate utc 0 s with
  | Known d =>
      if (0 <=? d) && (d <? 86400000)
         && String.eqb (formatTimeFromDate utc d) s
      then Some (d / 1000) else None
  | Untracked => None
  end.

(** [r] ends at its start time plus its duration, on the wall clock within
    a day. *)
Definition endsAfterDuration (r : Routine.t) : Prop :=
  ∃ t, timeOfDay (Routine.startTime r) = Some t
       ∧ Routine.endTime r
         = wallClock (wallClockAdd t (Routine.durationSeconds r)).

(** A settled schedule: every routine starts at a time of day in
    HH:MM:SS, ends at its start plus its duration on the wall clock, and
    starts when the routine before it ends; [prevEnd] is the end of the
    routine before the first one, if any. *)
Fixpoint settledAfter (prevEnd : option string) (rs : list Routine.t) : bool :=
  match rs with
  | [] => true
  | r :: rest =>
      match timeOfDay (Routine.startTime r) with
      | Some t =>
          match prevEnd with
          | Some e => String.eqb e (Routine.startTime r)
          | None => true
          end
          && String.eqb (Routine.endTime r)
               (wallClock (wallClockAdd t (Routine.durationSeconds r)))
          && settledAfter (Some (Routine.endTime r)) rest
      | None => false
      end
  end.

Definition settled (rs : list Routine.t) : bool := settledAfter None rs.

(** The schedules of a state are settled, with durations in range. *)
Definition wellScheduled (horizon : Z) (ls : list RoutineList.t) : bool :=
  forallb (λ l, settled (RoutineList.routines l)
                && durationsInRange horizon (RoutineList.routines l)) ls.

(** What [settledAfter] asks of one routine, given the end time of the
    routine before it. *)
Definition settledAt (prevEnd : option string) (r : Routine.t) : Prop :=
  ∃ t, 0 ≤ t < secondsPerDay
       ∧ Routine.startTime r = wallClock t
       ∧ Routine.endTime r
         = wallClock (wallClockAdd t (Routine.durationSeconds r))
       ∧ (∀ e, prevEnd = Some e → e = wallClock t).

(** The end time of the routine before index [k]. *)
Definition endBefore (rs : list Routine.t) (k : nat) : option string :=
  match k with
  | O => None
  | S j => Routine.endTime <$> rs !! j
  end.

(** Every routine starts at a time of day in HH:MM:SS and has a duration
    in range, whatever its end time and its place in the schedule. *)
Definition timed (horizon : Z) (rs : list Routine.t) : bool :=
  forallb (λ r, match timeOfDay (Routine.startTime r) with
                | Some _ => true
                | None => false
                end
                && durationInRange horizon (Routine.durationSeconds r)) rs.

(** The timer [a] points at a routine of [ls]: the first list with its list
    id holds, at its index, a routine with its routine id and its name. *)
Definition pointsAt (ls : list RoutineList.t) (a : ActiveRoutineState.t)
    : bool :=
  match List.find (λ l, String.eqb (RoutineList.id l)
                          (ActiveRoutineState.listId a)) ls with
  | Some l =>
      match RoutineList.routines l
              !! ActiveRoutineState.currentRoutineIndex a with
      | Some r =>
          String.eqb (Routine.id r) (ActiveRoutineState.routineId a)
          && String.eqb (Routine.name r) (ActiveRoutineState.routineName a)
      | None => false
      end
  | None => false
  end.

(** A running timer points at a routine of the state. *)
Definition timerConsistent (st : AppState) : bool :=
  match activeRoutineState st with
  | Some a => pointsAt (lists st) a
  | None => true
  end.

(** No two lists have the same id. *)
Definition distinctIds (ls : list RoutineList.t) : bool :=
  bool_decide (NoDup (RoutineList.id <$> ls)).

(** The invariant of the timer: list ids are distinct, and a running timer
    points at a routine. *)
Definition coherent (st : AppState) : bool :=
  distinctIds (lists st) && timerConsistent st.

(** The sum of the durations of a schedule. *)
Definition totalSeconds (rs : list Routine.t) : Z :=
  foldr (λ r acc, Routine.durationSeconds r + acc) 0 rs.

(** The seconds the timer spends on a schedule: a routine takes its
    duration, and one second when its duration is below one. *)
Definition ticksToFinish (rs : list Routine.t) : nat :=
  sum_list_with (λ r, Z.to_nat (Z.max 1 (Routine.durationSeconds r))) rs.

(** What is announced while a list runs through: each routine when it is
    done, in order, and the list after the last one. *)
Definition runAnnouncements (title : string) (rs : list Routine.t)
    : list request :=
  ((λ r, BeepThenSpeak (RoutineDone (Routine.name r))) <$> rs)
  ++ [Speak (AllDone title)].

(** ** The transitions the components make *)

(** One transition of the app as its components make it, at a time when
    the host's clock is quiet: the forms check their fields before they call
    a handler.  [list] is the list the form belongs to, at its place [k] in
    the state; the start field of the form for new routines is a time input,
    empty or a time of day in HH:MM; a duration is at most [horizon]. *)
Inductive uiStep (zone : TimeZone) (off horizon : Z) (st : AppState)
    : AppState → Prop :=
| ui_add_list (newId newListName : string) :
    forallb (λ l, negb (String.eqb (RoutineList.id l) newId)) (lists st)
    = true →
    uiStep zone off horizon st (handleAddList newId newListName st)
| ui_submit_new_routine (clock : nat → Date) (generateId : nat → string)
    (k : nat) (list : RoutineList.t)
    (newRoutineName newRoutineDurationInput newRoutineStartTime : string)
    (listId name : string) (durationSeconds : Z)
    (startTimeStr : option string) (t : Z)
    (newLists : Datatypes.list RoutineList.t) :
    (∀ j, quiet zone off horizon (clock j)) →
    lists st !! k = Some list →
    handleSubmitNewRoutine list newRoutineName newRoutineDurationInput
      newRoutineStartTime
    = Known (Some (listId, name, durationSeconds, startTimeStr)) →
    durationInRange horizon durationSeconds = true →
    newRoutineStartTime = ""
    ∨ timeOfDay (newRoutineStartTime +:+ ":00") = Some t →
    handleAddRoutineToList zone clock generateId listId name durationSeconds
      startTimeStr (lists st) = Known newLists →
    uiStep zone off horizon st (mkApp newLists (activeRoutineState st))
| ui_save_duration (clock : nat → nat → Date) (listId : string)
    (routine : Routine.t) (editDurationInput : string)
    (lid rid : string) (newDurationSeconds : Z) (st' : AppState)
    (notices : Datatypes.list notice) :
    (∀ j i, quiet zone off horizon (clock j i)) →
    handleSaveDuration listId routine editDurationInput
    = Known (Some (lid, rid, newDurationSeconds)) →
    durationInRange horizon newDurationSeconds = true →
    handleUpdateRoutineDurationInList zone clock lid rid newDurationSeconds
      st
    = Known (st', notices) →
    uiStep zone off horizon st st'
| ui_save_list_start_time (clock : nat → nat → Date) (list : RoutineList.t)
    (editListStartTime lid newStartTimeStrWithSeconds : string)
    (st' : AppState) (notices : Datatypes.list notice) :
    (∀ j i, quiet zone off horizon (clock j i)) →
    handleSaveListStartTime list editListStartTime
    = Some (lid, newStartTimeStrWithSeconds) →
    handleUpdateListStartTime zone clock lid newStartTimeStrWithSeconds st
    = Known (st', notices) →
    uiStep zone off horizon st st'
| ui_delete_routine (clock : nat → nat → Date) (listId routineId : string)
    (st' : AppState) (requests : Datatypes.list request) :
    (∀ j i, quiet zone off horizon (clock j i)) →
    handleDeleteRoutine zone clock listId routineId st
    = Known (st', requests) →
    uiStep zone off horizon st st'
| ui_delete_all (listId : string) :
    uiStep zone off horizon st (handleDeleteAllRoutinesInList listId st).1
| ui_move_routine (clock : nat → nat → Date)
    (cardId sourceListId targetListId : string) (targetIndex : Z)
    (st' : AppState) (notices : Datatypes.list notice) :
    (∀ j i, quiet zone off horizon (clock j i)) →
    handleMoveRoutine zone clock cardId sourceListId targetListId targetIndex
      st
    = Known (st', notices) →
    uiStep zone off horizon st st'
| ui_move_list (sourceIndex targetIndexInContainer : Z) :
    uiStep zone off horizon st
      (handleMoveList sourceIndex targetIndexInContainer st)
| ui_toggle (listId : string) :
    uiStep zone off horizon st (handleToggleStartStopList listId st).1
| ui_tick :
    uiStep zone off horizon st
      (mkApp (lists st) (tick (lists st) (activeRoutineState st)).1).

(** The states the app reaches from its initial state through its
    components, at times when the host's clock is quiet. *)
Inductive uiReachable (zone : TimeZone) (off horizon : Z) : AppState → Prop :=
| uiReachable_initial : uiReachable zone off horizon (mkApp [] None)
| uiReachable_step (st st' : AppState) :
    uiReachable zone off horizon st → uiStep zone off horizon st st' →
    uiReachable zone off horizon st'.

(** * Strings and decimal fields *)

Lemma string_app_assoc (a b c : string) : (a +:+ b) +:+ c = a +:+ (b +:+ c).
Proof. induction a as [|x a IH]; simpl; [reflexivity | by f_equal]. Qed.

Lemma string_app_nil_r (a : string) : a +:+ "" = a.
Proof. induction a as [|x a IH]; simpl; [reflexivity | by f_equal]. Qed.

Lemma string_length_app (a b : string) :
  String.length (a +:+ b) = (String.length a + String.length b)%nat.
Proof. induction a as [|x a IH]; simpl; [reflexivity | by f_equal]. Qed.

Lemma allChars_app p (a b : string) :
  JS.allChars p (a +:+ b) = JS.allChars p a && JS.allChars p b.
Proof.
  induction a as [|x a IH]; simpl; [reflexivity |].
  rewrite IH. by destruct (p x).
Qed.

Lemma allChars_impl (p q : ascii → bool) (s : string) :
  (∀ c, p c = true → q c = true) →
  JS.allChars p s = true → JS.allChars q s = true.
Proof.
  intros Hpq. induction s as [|x s IH]; simpl; [done |].
  intros [Hx Hs]%andb_prop. rewrite (Hpq _ Hx). simpl. auto.
Qed.

Lemma repeatChar_length n c : String.length (JS.repeatChar n c) = n.
Proof. induction n as [|n IH]; simpl; [reflexivity | by rewrite IH]. Qed.

Lemma string_of_uint_digits d :
  JS.allChars JS.isDigit (NilEmpty.string_of_uint d) = true.
Proof. induction d; simpl; auto. Qed.

Lemma string_of_uint_nonempty d :
  d ≠ Nil → NilEmpty.string_of_uint d ≠ "".
Proof. destruct d; simpl; congruence. Qed.

Lemma nilzero_uint_of_string s d :
  NilZero.uint_of_string s = Some d →
  s = NilEmpty.string_of_uint d ∧ s ≠ "" ∧ d ≠ Nil.
Proof.
  intros H. assert (s ≠ "") as Hs by (intros ->; discriminate).
  assert (NilEmpty.uint_of_string s = Some d) as H'
    by (destruct s; [done | exact H]).
  apply NilEmpty.sus in H'. split; [done |]. split; [done |].
  intros ->. simpl in H'. congruence.
Qed.

Lemma nilzero_usu d :
  d ≠ Nil → NilZero.uint_of_string (NilEmpty.string_of_uint d) = Some d.
Proof.
  intros Hd. pose proof (NilEmpty.usu d) as H.
  destruct (NilEmpty.string_of_uint d) eqn:E; [| exact H].
  by apply string_of_uint_nonempty in E.
Qed.

Lemma digitsValue_digits f v :
  digitsValue f = Some v →
  JS.allChars JS.isDigit f = true ∧ f ≠ "" ∧ 0 ≤ v.
Proof.
  unfold digitsValue. intros H.
  destruct (NilZero.uint_of_string f) as [d|] eqn:E; [| discriminate].
  apply nilzero_uint_of_string in E as (-> & Hne & _).
  injection H as <-. split; [apply string_of_uint_digits |].
  split; [done |]. unfold Z.of_uint. lia.
Qed.

Lemma toString_nonneg v :
  0 ≤ v →
  ∃ d, JS.toString v = NilEmpty.string_of_uint d ∧ d ≠ Nil ∧ Z.of_uint d = v.
Proof.
  intros Hv. destruct v as [|p|p]; [| | lia].
  - exists (D0 Nil). by repeat split.
  - exists (Pos.to_uint p). unfold JS.toString. simpl.
    pose proof (DecimalPos.Unsigned.to_uint_nonnil p) as Hn.
    split; [by destruct (Pos.to_uint p) |]. split; [done |].
    unfold Z.of_uint. by rewrite DecimalPos.Unsigned.of_to.
Qed.

Lemma digitsValue_toString v : 0 ≤ v → digitsValue (JS.toString v) = Some v.
Proof.
  intros (d & -> & Hd & <-)%toString_nonneg.
  unfold digitsValue. by rewrite nilzero_usu.
Qed.

Lemma digitsValue_zero_prefix f v :
  digitsValue f = Some v → digitsValue (String "0" f) = Some v.
Proof.
  unfold digitsValue. intros H.
  destruct (NilZero.uint_of_string f) as [d|] eqn:E; [| discriminate].
  apply nilzero_uint_of_string in E as (-> & _ & _).
  injection H as <-. simpl. by rewrite NilEmpty.usu.
Qed.

Lemma digitsValue_zeros_prefix n f v :
  digitsValue f = Some v → digitsValue (JS.repeatChar n "0" +:+ f) = Some v.
Proof.
  intros H. induction n as [|n IH]; simpl; [done |].
  by apply digitsValue_zero_prefix.
Qed.

(** [pad2] renders a number that is not negative as a zero-padded field. *)
Lemma pad2_padded v : 0 ≤ v → paddedField v (pad2 v).
Proof.
  intros Hv. unfold paddedField, pad2, JS.padStart.
  split; [by apply digitsValue_zeros_prefix, digitsValue_toString |].
  rewrite string_length_app, repeatChar_length.
  split; [lia |].
  destruct (decide (2 ≤ String.length (JS.toString v))%nat) as [Hl|Hl].
  - left. by replace (2 - String.length (JS.toString v))%nat with 0%nat by lia.
  - right. lia.
Qed.

Lemma pad2_twoDigit v : 0 ≤ v < 100 → pad2 v = twoDigit v.
Proof.
  intros Hv. replace v with (Z.of_nat (Z.to_nat v)) by lia.
  assert (Z.to_nat v < 100)%nat as Hk by lia.
  generalize dependent (Z.to_nat v). clear. intros k Hk.
  do 100 (destruct k as [|k]; [vm_compute; reflexivity |]). lia.
Qed.

Lemma twoDigit_padded v : 0 ≤ v < 100 → paddedField v (twoDigit v).
Proof. intros Hv. rewrite <- pad2_twoDigit by done. apply pad2_padded. lia. Qed.

(** * What [Number] and [split] do with digit fields *)

Lemma fieldChar_plain c :
  isFieldChar c = true →
  JS.isStrWhiteSpaceChar c = false
  ∧ Ascii.eqb c "+" = false ∧ Ascii.eqb c "-" = false
  ∧ Ascii.eqb c "." = false ∧ Ascii.eqb c "I" = false
  ∧ Ascii.eqb c "e" = false ∧ Ascii.eqb c "E" = false
  ∧ Ascii.eqb c "x" = false ∧ Ascii.eqb c "X" = false
  ∧ Ascii.eqb c "o" = false ∧ Ascii.eqb c "O" = false
  ∧ Ascii.eqb c "b" = false ∧ Ascii.eqb c "B" = false.
Proof.
  destruct c as [[|] [|] [|] [|] [|] [|] [|] [|]]; vm_compute;
    intros H; first [discriminate H | repeat split].
Qed.

Lemma digit_fieldChar c : JS.isDigit c = true → isFieldChar c = true.
Proof. unfold isFieldChar. by intros ->. Qed.

Lemma digit_not_colon c : JS.isDigit c = true → Ascii.eqb c ":" = false.
Proof.
  destruct c as [[|] [|] [|] [|] [|] [|] [|] [|]]; vm_compute;
    intros H; first [discriminate H | reflexivity].
Qed.

Lemma trimEnd_fieldChars s :
  JS.allChars isFieldChar s = true → JS.trimEnd s = s.
Proof.
  induction s as [|c s IH]; simpl; [done |].
  intros [Hc Hs]%andb_prop. apply fieldChar_plain in Hc as (-> & _).
  simpl. by rewrite IH.
Qed.

Lemma trim_fieldChars s : JS.allChars isFieldChar s = true → JS.trim s = s.
Proof.
  intros H. unfold JS.trim.
  assert (JS.trimStart s = s) as ->; [| by apply trimEnd_fieldChars].
  destruct s as [|c s]; simpl in *; [done |].
  apply andb_prop in H as [Hc _].
  by apply fieldChar_plain in Hc as (-> & _).
Qed.

(** A field of digits that denotes a number in the exact range is read back
    by [Number] as that number. *)
Lemma Number_field f v :
  digitsValue f = Some v → v ≤ MAX_EXACT → JS.Number f = Known (JS.Num v).
Proof.
  intros Hf Hv. destruct (digitsValue_digits _ _ Hf) as (Hd & Hne & H0).
  unfold JS.Number.
  rewrite trim_fieldChars
    by (eapply allChars_impl; [apply digit_fieldChar | done]).
  destruct f as [|c u]; [done |].
  change (String.eqb (String c u) "") with false. cbv iota.
  unfold JS.decimalIntegerValue.
  simpl in Hd. apply andb_prop in Hd as [Hc _].
  apply digit_fieldChar, fieldChar_plain in Hc as (_ & -> & -> & _).
  unfold digitsValue in Hf. rewrite Hf. simpl.
  unfold exact. rewrite (proj2 (Z.leb_le _ _)) by lia. reflexivity.
Qed.

Lemma split_field_sep (a b : string) :
  JS.allChars JS.isDigit a = true →
  JS.split ":" (a +:+ String ":" b) = a :: JS.split ":" b.
Proof.
  induction a as [|c a IH]; simpl; [done |].
  intros [Hc Ha]%andb_prop. rewrite (digit_not_colon _ Hc), IH by done.
  reflexivity.
Qed.

Lemma split_field (a : string) :
  JS.allChars JS.isDigit a = true → JS.split ":" a = [a].
Proof.
  induction a as [|c a IH]; simpl; [done |].
  intros [Hc Ha]%andb_prop. rewrite (digit_not_colon _ Hc), IH by done.
  reflexivity.
Qed.

Lemma uint_of_string_colon (a b : string) :
  NilEmpty.uint_of_string (a +:+ String ":" b) = None.
Proof.
  induction a as [|c a IH]; simpl.
  - by destruct (NilEmpty.uint_of_string b).
  - by rewrite IH.
Qed.

Lemma spanDigits_field (a b : string) :
  JS.allChars JS.isDigit a = true →
  JS.spanDigits (a +:+ String ":" b) = (a, String ":" b).
Proof.
  induction a as [|c a IH]; simpl; [done |].
  intros [Hc Ha]%andb_prop. by rewrite Hc, IH.
Qed.

(** A digit field followed by a colon is not a numeric literal. *)
Lemma Number_colon (a b : string) :
  JS.allChars JS.isDigit a = true → a ≠ "" →
  JS.allChars isFieldChar b = true →
  JS.Number (a +:+ String ":" b) = Known JS.NaN.
Proof.
  intros Ha Hne Hb. unfold JS.Number.
  rewrite trim_fieldChars.
  2:{ rewrite allChars_app. simpl. rewrite Hb.
      rewrite (allChars_impl _ _ _ digit_fieldChar Ha). reflexivity. }
  destruct a as [|c a]; [done |]. simpl in Ha.
  apply andb_prop in Ha as [Hc Ha].
  pose proof (fieldChar_plain _ (digit_fieldChar _ Hc)) as
    (_ & Hp & Hm & _ & HI & _).
  assert (String.eqb (String c a +:+ String ":" b) "" = false) as ->
    by reflexivity.
  assert (JS.decimalIntegerValue (String c a +:+ String ":" b) = None) as ->.
  { unfold JS.decimalIntegerValue. simpl. rewrite Hp, Hm.
    change (Z.of_uint <$>
              NilEmpty.uint_of_string (String c a +:+ String ":" b) = None).
    by rewrite uint_of_string_colon. }
  assert (JS.isStrNumericLiteral (String c a +:+ String ":" b) = false) as ->;
    [| reflexivity].
  unfold JS.isStrNumericLiteral. apply orb_false_intro.
  - assert (JS.dropSign (String c a +:+ String ":" b)
            = String c a +:+ String ":" b) as ->
      by (simpl; by rewrite Hp, Hm).
    unfold JS.isStrUnsignedDecimalLiteral.
    rewrite (spanDigits_field (String c a) b) by (simpl; by rewrite Hc, Ha).
    apply orb_false_intro; [| reflexivity].
    simpl. by rewrite HI.
  - simpl. destruct a as [|k a]; simpl.
    + by rewrite andb_false_r.
    + simpl in Ha. apply andb_prop in Ha as [Hk _].
      apply digit_fieldChar, fieldChar_plain in Hk
        as (_ & _ & _ & _ & _ & _ & _ & -> & -> & -> & -> & -> & ->).
      by rewrite andb_false_r.
Qed.

(** * Formatting durations *)

Lemma formatTimeLeft_unfold n :
  formatTimeLeft n =
    let t := Z.max 0 n in
    if 0 <? t / 3600
    then pad2 (t / 3600) +:+ ":" +:+ pad2 (t mod 3600 / 60) +:+ ":"
         +:+ pad2 (t mod 60)
    else pad2 (t mod 3600 / 60) +:+ ":" +:+ pad2 (t mod 60).
Proof.
  unfold formatTimeLeft. destruct (Z.ltb_spec n 0).
  - by replace (Z.max 0 n) with 0 by lia.
  - by replace (Z.max 0 n) with n by lia.
Qed.

Lemma formatDuration_unfold n :
  formatDuration n =
    let t := Z.max 0 n in
    if 0 <? t / 3600
    then pad2 (t / 3600) +:+ ":" +:+ pad2 (t mod 3600 / 60) +:+ ":"
         +:+ pad2 (t mod 60)
    else if 0 <? t mod 3600 / 60
    then pad2 (t mod 3600 / 60) +:+ ":" +:+ pad2 (t mod 60)
    else JS.toString (t mod 60) +:+ "s".
Proof.
  unfold formatDuration. destruct (Z.ltb_spec n 0).
  - by replace (Z.max 0 n) with 0 by lia.
  - by replace (Z.max 0 n) with n by lia.
Qed.

Lemma minutes_field_bounds t : 0 ≤ t mod 3600 / 60 < 60.
Proof.
  pose proof (Z.mod_pos_bound t 3600 ltac:(lia)).
  split; [apply Z.div_pos; lia | apply Z.div_lt_upper_bound; lia].
Qed.

Lemma seconds_field_bounds t : 0 ≤ t mod 60 < 60.
Proof. apply Z.mod_pos_bound. lia. Qed.

Lemma pad2_minutes t : pad2 (t mod 3600 / 60) = twoDigit (t mod 3600 / 60).
Proof. apply pad2_twoDigit. pose proof (minutes_field_bounds t). lia. Qed.

Lemma pad2_seconds t : pad2 (t mod 60) = twoDigit (t mod 60).
Proof. apply pad2_twoDigit. pose proof (seconds_field_bounds t). lia. Qed.

(** C6. On a number in the exact range, [formatTimeLeft] (the
    specification's formatCountdown) renders H:MM:SS from one hour on and
    MM:SS below, every field in decimal and zero-padded to two digits, with
    no bare-seconds form: in particular 0 gives "00:00" and 3661 gives
    "01:01:01". *)
Theorem formatTimeLeft_zero_padded (n : Z) :
  n ≤ MAX_EXACT →
  (3600 ≤ n →
     ∃ hours,
       paddedField (n / 3600) hours
       ∧ formatTimeLeft n
         = hours +:+ ":" +:+ twoDigit (n mod 3600 / 60) +:+ ":"
           +:+ twoDigit (n mod 60))
  ∧ (n < 3600 →
       formatTimeLeft n
       = twoDigit (Z.max 0 n / 60) +:+ ":" +:+ twoDigit (Z.max 0 n mod 60))
  ∧ formatTimeLeft 0 = "00:00"
  ∧ formatTimeLeft 3661 = "01:01:01".
Proof.
  intros _. rewrite formatTimeLeft_unfold. cbv zeta.
  split; [| split; [| split; reflexivity]].
  - intros Hn. replace (Z.max 0 n) with n by lia.
    assert (0 < n / 3600) as Hh by (apply Z.div_str_pos; lia).
    rewrite (proj2 (Z.ltb_lt _ _) Hh), pad2_minutes, pad2_seconds.
    exists (pad2 (n / 3600)). split; [apply pad2_padded; lia | reflexivity].
  - intros Hn. set (t := Z.max 0 n).
    assert (t / 3600 = 0) as Hh by (apply Z.div_small; lia).
    rewrite Hh. simpl (0 <? 0). cbv iota.
    rewrite pad2_minutes, pad2_seconds.
    by rewrite (Z.mod_small t 3600) by lia.
Qed.

Lemma formatTimeLeft_zero_padded_witness :
  3661 ≤ MAX_EXACT
  ∧ ∃ hours,
      paddedField (3661 / 3600) hours
      ∧ formatTimeLeft 3661
        = hours +:+ ":" +:+ twoDigit (3661 mod 3600 / 60) +:+ ":"
          +:+ twoDigit (3661 mod 60).
Proof.
  assert (3661 ≤ MAX_EXACT) as H by (unfold MAX_EXACT; lia).
  split; [exact H |].
  apply (proj1 (formatTimeLeft_zero_padded 3661 H)). lia.
Defined.

(** C7, as stated, fails at one hour: the hour field is zero-padded. *)
Lemma formatDuration_stated_fails :
  formatDuration 3600 ≠ formatDuration_stated 3600.
Proof. vm_compute. discriminate. Qed.

(** C7, amended. For [n] that is not negative, [formatDuration] renders
    H:MM:SS from one hour on and M:SS from one minute on, in both the
    leading field zero-padded to two digits like the fields after it, and
    the decimal digits of [n] followed by the letter s under a minute. *)
Theorem formatDuration_forms (n : Z) :
  0 ≤ n ≤ MAX_EXACT →
  (3600 ≤ n →
     ∃ hours,
       paddedField (n / 3600) hours
       ∧ formatDuration n
         = hours +:+ ":" +:+ twoDigit (n mod 3600 / 60) +:+ ":"
           +:+ twoDigit (n mod 60))
  ∧ (60 ≤ n < 3600 →
       formatDuration n = twoDigit (n / 60) +:+ ":" +:+ twoDigit (n mod 60))
  ∧ (n < 60 → formatDuration n = JS.toString n +:+ "s").
Proof.
  intros [H0 _]. rewrite formatDuration_unfold. cbv zeta.
  replace (Z.max 0 n) with n by lia.
  split; [| split].
  - intros Hn.
    assert (0 < n / 3600) as Hh by (apply Z.div_str_pos; lia).
    rewrite (proj2 (Z.ltb_lt _ _) Hh), pad2_minutes, pad2_seconds.
    exists (pad2 (n / 3600)). split; [apply pad2_padded; lia | reflexivity].
  - intros Hn.
    assert (n / 3600 = 0) as Hh by (apply Z.div_small; lia).
    rewrite Hh. simpl (0 <? 0). cbv iota.
    rewrite (Z.mod_small n 3600) by lia.
    assert (0 < n / 60) as Hm by (apply Z.div_str_pos; lia).
    rewrite (proj2 (Z.ltb_lt _ _) Hm), pad2_seconds.
    rewrite (pad2_twoDigit (n / 60)); [reflexivity |].
    split; [lia | apply Z.div_lt_upper_bound; lia].
  - intros Hn.
    assert (n / 3600 = 0) as Hh by (apply Z.div_small; lia).
    rewrite Hh. simpl (0 <? 0). cbv iota.
    rewrite (Z.mod_small n 3600) by lia.
    assert (n / 60 = 0) as Hm by (apply Z.div_small; lia).
    rewrite Hm. simpl (0 <? 0). cbv iota.
    by rewrite (Z.mod_small n 60) by lia.
Qed.

Lemma formatDuration_forms_witness :
  0 ≤ 3600 ≤ MAX_EXACT
  ∧ ∃ hours,
      paddedField (3600 / 3600) hours
      ∧ formatDuration 3600
        = hours +:+ ":" +:+ twoDigit (3600 mod 3600 / 60) +:+ ":"
          +:+ twoDigit (3600 mod 60).
Proof.
  assert (0 ≤ 3600 ≤ MAX_EXACT) as H by (unfold MAX_EXACT; lia).
  split; [exact H |].
  apply (proj1 (formatDuration_forms 3600 H)). lia.
Defined.

(** * Parsing durations *)

Lemma exact_known z : Z.abs z ≤ MAX_EXACT → exact z = Known z.
Proof. intros H. unfold exact. by rewrite (proj2 (Z.leb_le _ _)). Qed.

(** Discharge the exactness checks whose bound [lia] proves. *)
Ltac known_exact :=
  repeat (rewrite exact_known by first [lia | unfold MAX_EXACT; lia];
          cbn [mbind tracked_bind]).

Lemma allChars_digits_field f v :
  digitsValue f = Some v → JS.allChars isFieldChar f = true.
Proof.
  intros (H & _)%digitsValue_digits.
  eapply allChars_impl; [apply digit_fieldChar | done].
Qed.

Lemma parse_not_blank (a b : string) :
  JS.allChars JS.isDigit a = true → a ≠ "" →
  JS.allChars isFieldChar b = true →
  String.eqb (a +:+ String ":" b) ""
  || String.eqb (JS.trim (a +:+ String ":" b)) "" = false.
Proof.
  intros Ha Hne Hb. rewrite trim_fieldChars.
  2:{ rewrite allChars_app. simpl. rewrite Hb.
      by rewrite (allChars_impl _ _ _ digit_fieldChar Ha). }
  by destruct a.
Qed.

Lemma parse_two_fields (A B : string) (a b : Z) :
  digitsValue A = Some a → digitsValue B = Some b →
  a * 60 + b ≤ MAX_EXACT →
  parseDurationToSeconds (A +:+ ":" +:+ B) = Known (Some (a * 60 + b)).
Proof.
  intros HA HB Hmax.
  destruct (digitsValue_digits _ _ HA) as (HdA & HneA & Ha0).
  destruct (digitsValue_digits _ _ HB) as (HdB & HneB & Hb0).
  pose proof (allChars_digits_field _ _ HB) as HfB.
  unfold parseDurationToSeconds. simpl (":" +:+ B).
  rewrite parse_not_blank, Number_colon by done.
  rewrite split_field_sep, split_field by done.
  cbn [mapM mbind tracked_bind mret tracked_ret negb JS.isNaN andb].
  rewrite (Number_field A a), (Number_field B b) by (done || lia).
  cbn [mapM mbind tracked_bind mret tracked_ret existsb JS.isNaN orb].
  known_exact. f_equal. f_equal. lia.
Qed.

Lemma parse_three_fields (A B C : string) (a b c : Z) :
  digitsValue A = Some a → digitsValue B = Some b → digitsValue C = Some c →
  a * 3600 + b * 60 + c ≤ MAX_EXACT →
  parseDurationToSeconds (A +:+ ":" +:+ B +:+ ":" +:+ C)
  = Known (Some (a * 3600 + b * 60 + c)).
Proof.
  intros HA HB HC Hmax.
  destruct (digitsValue_digits _ _ HA) as (HdA & HneA & Ha0).
  destruct (digitsValue_digits _ _ HB) as (HdB & HneB & Hb0).
  destruct (digitsValue_digits _ _ HC) as (HdC & HneC & Hc0).
  assert (JS.allChars isFieldChar (B +:+ String ":" C) = true) as HfBC.
  { rewrite allChars_app. simpl.
    rewrite (allChars_digits_field _ _ HB), (allChars_digits_field _ _ HC).
    reflexivity. }
  unfold parseDurationToSeconds. simpl (":" +:+ _).
  rewrite parse_not_blank, Number_colon by done.
  rewrite !split_field_sep, split_field by done.
  cbn [mapM mbind tracked_bind mret tracked_ret negb JS.isNaN andb].
  rewrite (Number_field A a), (Number_field B b), (Number_field C c)
    by (done || lia).
  cbn [mapM mbind tracked_bind mret tracked_ret existsb JS.isNaN orb].
  known_exact. f_equal. f_equal. lia.
Qed.

(** C5. Formatting a whole number of seconds from one minute on and
    parsing the text back returns the number. *)
Theorem parseDuration_formatDuration (n : Z) :
  60 ≤ n ≤ MAX_EXACT →
  parseDurationToSeconds (formatDuration n) = Known (Some n).
Proof.
  intros Hn. rewrite formatDuration_unfold. cbv zeta.
  replace (Z.max 0 n) with n by lia.
  pose proof (minutes_field_bounds n) as Hm.
  pose proof (seconds_field_bounds n) as Hs.
  pose proof (Z.div_mod n 3600 ltac:(lia)) as E1.
  pose proof (Z.div_mod (n mod 3600) 60 ltac:(lia)) as E2.
  rewrite Z.mod_mod_divide in E2 by (exists 60; lia).
  assert (0 ≤ n / 3600) as Hh by (apply Z.div_pos; lia).
  destruct (Z.ltb_spec 0 (n / 3600)) as [Hpos|Hzero].
  - rewrite (parse_three_fields _ _ _ (n / 3600) (n mod 3600 / 60) (n mod 60)).
    + f_equal. f_equal. lia.
    + apply pad2_padded. lia.
    + apply pad2_padded. lia.
    + apply pad2_padded. lia.
    + lia.
  - assert (0 < n mod 3600 / 60) as Hmin.
    { assert (n / 3600 = 0) as Hz by lia. rewrite Hz in E1.
      destruct (Z.eq_dec (n mod 3600 / 60) 0) as [Hm0|]; lia. }
    rewrite (proj2 (Z.ltb_lt _ _) Hmin).
    rewrite (parse_two_fields _ _ (n mod 3600 / 60) (n mod 60)).
    + f_equal. f_equal. lia.
    + apply pad2_padded. lia.
    + apply pad2_padded. lia.
    + lia.
Qed.

Lemma parseDuration_formatDuration_witness :
  60 ≤ 3725 ≤ MAX_EXACT
  ∧ parseDurationToSeconds (formatDuration 3725) = Known (Some 3725).
Proof.
  assert (60 ≤ 3725 ≤ MAX_EXACT) as H by (unfold MAX_EXACT; lia).
  split; [exact H | exact (parseDuration_formatDuration 3725 H)].
Defined.

(** ** The cases of [parseDurationToSeconds] *)

Lemma trimStart_chars (p : ascii → bool) (s : string) :
  JS.allChars p (JS.trimStart s) = true →
  JS.allChars (λ c, JS.isStrWhiteSpaceChar c || p c) s = true.
Proof.
  induction s as [|c s IH]; simpl; [done |].
  destruct (JS.isStrWhiteSpaceChar c) eqn:Hc; simpl.
  - exact IH.
  - intros [-> Hs]%andb_prop. simpl.
    eapply allChars_impl; [| exact Hs]. intros x ->. apply orb_true_r.
Qed.

Lemma trimEnd_chars (p : ascii → bool) (s : string) :
  JS.allChars p (JS.trimEnd s) = true →
  JS.allChars (λ c, JS.isStrWhiteSpaceChar c || p c) s = true.
Proof.
  induction s as [|c s IH]; simpl; [done |].
  destruct (JS.isStrWhiteSpaceChar c) eqn:Hc; simpl.
  - destruct (String.eqb (JS.trimEnd s) "") eqn:He; simpl.
    + intros _. apply IH. apply String.eqb_eq in He. by rewrite He.
    + intros [_ Hs]%andb_prop. by apply IH.
  - intros [-> Hs]%andb_prop. simpl. by apply IH.
Qed.

Lemma decimalIntegerValue_chars t z :
  JS.decimalIntegerValue t = Some z → JS.allChars isSignOrDigit t = true.
Proof.
  assert (∀ u d, NilZero.uint_of_string u = Some d →
                 JS.allChars isSignOrDigit u = true) as Hu.
  { intros u d (-> & _)%nilzero_uint_of_string.
    eapply allChars_impl; [| apply string_of_uint_digits].
    intros c Hc. unfold isSignOrDigit. by rewrite Hc. }
  destruct t as [|c u]; simpl; [done |].
  destruct (Ascii.eqb c "+") eqn:Hp; [| destruct (Ascii.eqb c "-") eqn:Hm].
  - destruct (NilZero.uint_of_string u) eqn:E; [| done]. intros _.
    unfold isSignOrDigit at 1. rewrite Hp, orb_true_r. simpl. eauto.
  - destruct (NilZero.uint_of_string u) eqn:E; [| done]. intros _.
    unfold isSignOrDigit at 1. rewrite Hm, orb_true_r. simpl. eauto.
  - destruct (uint_of_char c (NilEmpty.uint_of_string u)) as [d|] eqn:E;
      [| done].
    intros _. apply (Hu (String c u) d). exact E.
Qed.

Lemma no_colon_split (s : string) :
  JS.allChars (λ c, negb (Ascii.eqb c ":")) s = true → JS.split ":" s = [s].
Proof.
  induction s as [|c s IH]; simpl; [done |].
  intros [Hc Hs]%andb_prop. apply negb_true_iff in Hc.
  by rewrite Hc, IH.
Qed.

Lemma space_or_sign_or_digit_not_colon c :
  JS.isStrWhiteSpaceChar c || isSignOrDigit c = true →
  negb (Ascii.eqb c ":") = true.
Proof.
  destruct c as [[|] [|] [|] [|] [|] [|] [|] [|]]; vm_compute;
    intros H; first [discriminate H | reflexivity].
Qed.

(** A string [Number] reads as an integer holds no colon. *)
Lemma Number_Num_split input n :
  JS.Number input = Known (JS.Num n) → JS.split ":" input = [input].
Proof.
  unfold JS.Number. intros H. apply no_colon_split.
  assert (JS.allChars isSignOrDigit (JS.trim input) = true) as Ht.
  { destruct (String.eqb (JS.trim input) "") eqn:He.
    - apply String.eqb_eq in He. by rewrite He.
    - destruct (JS.decimalIntegerValue (JS.trim input)) eqn:E.
      + by eapply decimalIntegerValue_chars.
      + by destruct (JS.isStrNumericLiteral (JS.trim input)). }
  unfold JS.trim in Ht. apply trimEnd_chars, trimStart_chars in Ht.
  eapply allChars_impl; [| exact Ht]. intros c Hc. simpl in Hc.
  apply space_or_sign_or_digit_not_colon.
  destruct (JS.isStrWhiteSpaceChar c); [done |]. by rewrite !orb_false_l in Hc.
Qed.

Lemma parts_result (parts : list JS.number) :
  partsExact parts = true →
  (if existsb JS.isNaN parts then Known None
   else match parts with
        | [JS.Num p0; JS.Num p1] =>
            a ← exact (p0 * 60);
            v ← exact (a + p1);
            Known (Some (Z.max 0 v))
        | [JS.Num p0; JS.Num p1; JS.Num p2] =>
            a ← exact (p0 * 3600);
            b ← exact (p1 * 60);
            ab ← exact (a + b);
            v ← exact (ab + p2);
            Known (Some (Z.max 0 v))
        | _ => Known None
        end) = Known (secondsOfParts parts).
Proof.
  intros Hex.
  destruct parts as [|[|a] [|[|b] [|[|c] [|d parts]]]]; simpl;
    try reflexivity; try (by destruct (existsb JS.isNaN _)).
  - simpl in Hex. apply andb_prop in Hex as [H1 H2].
    apply Z.leb_le in H1, H2. known_exact. reflexivity.
  - simpl in Hex.
    apply andb_prop in Hex as [[[H1 H2]%andb_prop H3]%andb_prop H4].
    apply Z.leb_le in H1, H2, H3, H4. known_exact. reflexivity.
  - destruct d; simpl; [reflexivity | by destruct (existsb JS.isNaN _)].
Qed.

(** C4, as stated, fails on a bare number with a leading zero: the stated
    parser reads five minutes, the program rejects the input. *)
Lemma parseDuration_stated_fails :
  parseDurationToSeconds "05" = Known None
  ∧ parseDuration_stated "05" = Known (Some 300).
Proof. split; reflexivity. Qed.

(** C4, amended. [parseDurationToSeconds] returns: null for input that is
    empty or blank; [max 0 (n * 60)] for a bare number written in the
    canonical decimal form [String] gives it; null for a bare number written
    otherwise; for colon-separated input, [max 0 (m * 60 + s)] for two
    numeric parts and [max 0 (h * 3600 + m * 60 + s)] for three, where an
    empty or blank part counts as 0, and null when a part is no number or
    the count of parts is another. A result is never negative. *)
Theorem parseDurationToSeconds_cases (input : string) :
  (JS.trim input = "" → parseDurationToSeconds input = Known None)
  ∧ (∀ n, JS.trim input ≠ "" →
       JS.Number input = Known (JS.Num n) →
       JS.toString n = JS.trim input →
       Z.abs (n * 60) ≤ MAX_EXACT →
       parseDurationToSeconds input = Known (Some (Z.max 0 (n * 60))))
  ∧ (∀ n, JS.trim input ≠ "" →
       JS.Number input = Known (JS.Num n) →
       JS.toString n ≠ JS.trim input →
       parseDurationToSeconds input = Known None)
  ∧ (∀ parts, JS.trim input ≠ "" →
       JS.Number input = Known JS.NaN →
       mapM JS.Number (JS.split ":" input) = Known parts →
       partsExact parts = true →
       parseDurationToSeconds input = Known (secondsOfParts parts))
  ∧ (∀ v, parseDurationToSeconds input = Known (Some v) → 0 ≤ v).
Proof.
  assert (JS.trim input ≠ "" →
          String.eqb input "" || String.eqb (JS.trim input) "" = false)
    as Hblank.
  { intros Ht. apply orb_false_intro; apply String.eqb_neq; [| done].
    intros ->. by apply Ht. }
  split; [| split; [| split; [| split]]].
  - intros Ht. unfold parseDurationToSeconds.
    rewrite Ht. simpl. by rewrite orb_true_r.
  - intros n Ht HN Hcanon Hex. unfold parseDurationToSeconds.
    rewrite (Hblank Ht), HN. cbn [mbind tracked_bind JS.isNaN negb andb].
    unfold JS.String_. rewrite Hcanon, String.eqb_refl.
    by rewrite exact_known.
  - intros n Ht HN Hcanon. unfold parseDurationToSeconds.
    rewrite (Hblank Ht), HN. cbn [mbind tracked_bind JS.isNaN negb andb].
    unfold JS.String_. rewrite (proj2 (String.eqb_neq _ _) Hcanon).
    rewrite (Number_Num_split _ _ HN).
    cbn [mapM mbind tracked_bind mret tracked_ret]. rewrite HN. reflexivity.
  - intros parts Ht HN Hparts Hex. unfold parseDurationToSeconds.
    rewrite (Hblank Ht), HN. cbn [mbind tracked_bind JS.isNaN negb andb].
    rewrite Hparts. cbn [mbind tracked_bind]. by apply parts_result.
  - intros v. unfold parseDurationToSeconds.
    destruct (_ || _); [done |].
    destruct (JS.Number input) as [[|n]|]; cbn [mbind tracked_bind];
      [| | done].
    + cbn [JS.isNaN negb andb].
      destruct (mapM JS.Number (JS.split ":" input)) as [parts|];
        cbn [mbind tracked_bind]; [| done].
      destruct (existsb JS.isNaN parts); [done |].
      destruct parts as [|[|a] [|[|b] [|[|c] [|d parts]]]]; try done.
      * destruct (exact (a * 60)); cbn [mbind tracked_bind]; [| done].
        destruct (exact (_ + b)); cbn [mbind tracked_bind]; [| done].
        intros [= <-]. lia.
      * destruct (exact (a * 3600)); cbn [mbind tracked_bind]; [| done].
        destruct (exact (b * 60)); cbn [mbind tracked_bind]; [| done].
        destruct (exact (_ + _)); cbn [mbind tracked_bind]; [| done].
        destruct (exact (_ + c)); cbn [mbind tracked_bind]; [| done].
        intros [= <-]. lia.
    + cbn [JS.isNaN negb andb].
      destruct (String.eqb _ _).
      * destruct (exact (n * 60)); cbn [mbind tracked_bind]; [| done].
        intros [= <-]. lia.
      * destruct (mapM JS.Number (JS.split ":" input)) as [parts|];
          cbn [mbind tracked_bind]; [| done].
        destruct (existsb JS.isNaN parts); [done |].
        destruct parts as [|[|a] [|[|b] [|[|c] [|d parts]]]]; try done.
        -- destruct (exact (a * 60)); cbn [mbind tracked_bind]; [| done].
           destruct (exact (_ + b)); cbn [mbind tracked_bind]; [| done].
           intros [= <-]. lia.
        -- destruct (exact (a * 3600)); cbn [mbind tracked_bind]; [| done].
           destruct (exact (b * 60)); cbn [mbind tracked_bind]; [| done].
           destruct (exact (_ + _)); cbn [mbind tracked_bind]; [| done].
           destruct (exact (_ + c)); cbn [mbind tracked_bind]; [| done].
           intros [= <-]. lia.
Qed.

Lemma parseDurationToSeconds_cases_witness :
  JS.trim "1:02:03" ≠ ""
  ∧ JS.Number "1:02:03" = Known JS.NaN
  ∧ mapM JS.Number (JS.split ":" "1:02:03")
    = Known [JS.Num 1; JS.Num 2; JS.Num 3]
  ∧ partsExact [JS.Num 1; JS.Num 2; JS.Num 3] = true
  ∧ parseDurationToSeconds "1:02:03" = Known (Some 3723).
Proof.
  assert (JS.trim "1:02:03" ≠ "") as H1 by (vm_compute; discriminate).
  assert (JS.Number "1:02:03" = Known JS.NaN) as H2 by reflexivity.
  assert (mapM JS.Number (JS.split ":" "1:02:03")
          = Known [JS.Num 1; JS.Num 2; JS.Num 3]) as H3 by reflexivity.
  assert (partsExact [JS.Num 1; JS.Num 2; JS.Num 3] = true) as H4
    by reflexivity.
  split; [exact H1 |]. split; [exact H2 |]. split; [exact H3 |].
  split; [exact H4 |].
  exact (proj1 (proj2 (proj2 (proj2
           (parseDurationToSeconds_cases "1:02:03")))) _ H1 H2 H3 H4).
Defined.

(** * Wall-clock arithmetic *)

Lemma TimeClip_known t : Z.abs t ≤ MAX_TIME → TimeClip t = Known t.
Proof. intros H. unfold TimeClip. by rewrite (proj2 (Z.leb_le _ _)). Qed.

(** What [formatTimeFromDate] shows is the time of day of the local time,
    in every zone. *)
Lemma formatTimeFromDate_wallClock (zone : TimeZone) (date : Date) :
  formatTimeFromDate zone date
  = wallClock ((LocalTime zone date / 1000) mod secondsPerDay).
Proof.
  unfold formatTimeFromDate, wallClock, getHours, getMinutes, getSeconds,
    HourFromTime, MinFromTime, SecFromTime,
    msPerHour, msPerMinute, msPerSecond, secondsPerDay.
  set (q := LocalTime zone date / 1000).
  assert (LocalTime zone date / 3600000 = q / 3600) as ->
    by (unfold q; Z.div_mod_to_equations; lia).
  assert (LocalTime zone date / 60000 = q / 60) as ->
    by (unfold q; Z.div_mod_to_equations; lia).
  assert ((q / 3600) mod 24 = q mod 86400 / 3600) as ->
    by (Z.div_mod_to_equations; lia).
  assert ((q / 60) mod 60 = (q mod 86400) mod 3600 / 60) as ->
    by (Z.div_mod_to_equations; lia).
  assert (q mod 60 = (q mod 86400) mod 60) as ->
    by (Z.div_mod_to_equations; lia).
  set (t := q mod 86400).
  assert (0 ≤ t < 86400) as Ht by (apply Z.mod_pos_bound; lia).
  rewrite (pad2_twoDigit (t / 3600)), pad2_minutes, pad2_seconds;
    [reflexivity |].
  split; [apply Z.div_pos; lia | apply Z.div_lt_upper_bound; lia].
Qed.

Lemma wallClock_nonempty t : wallClock t ≠ "".
Proof. unfold wallClock, twoDigit. simpl. discriminate. Qed.

Lemma wallClock_fields t :
  wallClock t
  = twoDigit (t / 3600)
    +:+ String ":" (twoDigit (t mod 3600 / 60)
                    +:+ String ":" (twoDigit (t mod 60))).
Proof. reflexivity. Qed.

Lemma wallClockAdd_bounds t seconds :
  0 ≤ wallClockAdd t seconds < secondsPerDay.
Proof. apply Z.mod_pos_bound. unfold secondsPerDay. lia. Qed.

Lemma wallClockAdd_mod (t seconds : Z) :
  wallClockAdd (t mod secondsPerDay) seconds = wallClockAdd t seconds.
Proof. unfold wallClockAdd, secondsPerDay. by rewrite Zplus_mod_idemp_l. Qed.

(** ** Where the clock is quiet *)

(** A zone that keeps one offset is quiet around every current date
    followed. *)
Lemma quiet_fixedZone (off horizon : Z) (now : Date) :
  (Z.abs now <=? CLOCK_WINDOW) && (Z.abs off <=? msPerDay)
  && (0 <=? horizon) && (horizon <=? MAX_DURATION) = true →
  quiet (fixedZone off) off horizon now.
Proof.
  intros [[[H1%Z.leb_le H2%Z.leb_le]%andb_prop H3%Z.leb_le]%andb_prop
            H4%Z.leb_le]%andb_prop.
  split; [done |]. split; [done |]. split; [done |]. by intros t _.
Qed.

(** Europe/Berlin is quiet around the dates that lie five days and the
    horizon behind the end of daylight-saving time in 2026. *)
Lemma quiet_europeBerlin2026 (horizon : Z) (now : Date) :
  (now <=? CLOCK_WINDOW) && (0 <=? horizon) && (horizon <=? MAX_DURATION)
  && (1792897200000 + 5 * msPerDay + 1000 * horizon <=? now) = true →
  quiet europeBerlin2026 3600000 horizon now.
Proof.
  intros [[[H1%Z.leb_le H2%Z.leb_le]%andb_prop H3%Z.leb_le]%andb_prop
            H4%Z.leb_le]%andb_prop.
  unfold msPerDay in H4.
  split; [unfold MAX_DURATION in *; lia |].
  split; [unfold msPerDay; lia |]. split; [done |].
  intros t Ht. unfold msPerDay in Ht. cbn [europeBerlin2026 LocalTZA].
  rewrite (proj2 (Z.ltb_ge t 1792890000000)) by lia.
  rewrite (proj2 (Z.ltb_ge (t + 3600000) 1792897200000)) by lia.
  by rewrite !andb_false_r.
Qed.

Lemma quiet_LocalTime zone off horizon now t :
  quiet zone off horizon now →
  Z.abs (t - now) ≤ 5 * msPerDay + 1000 * horizon →
  LocalTime zone t = t + off.
Proof.
  intros (_ & _ & _ & Hq) Ht. unfold LocalTime.
  by rewrite (proj1 (Hq t Ht)).
Qed.

Lemma quiet_LocalTime_now zone off horizon now :
  quiet zone off horizon now → LocalTime zone now = now + off.
Proof.
  intros Hq. apply (quiet_LocalTime zone off horizon now now Hq).
  destruct Hq as (_ & _ & Hh & _). unfold msPerDay. lia.
Qed.

Lemma quiet_UTC zone off horizon now t :
  quiet zone off horizon now →
  Z.abs (t - off - now) ≤ 5 * msPerDay + 1000 * horizon →
  UTC zone t = t - off.
Proof.
  intros (_ & _ & _ & Hq) Ht. unfold UTC.
  replace t with ((t - off) + off) at 2 by lia.
  by rewrite (proj2 (Hq (t - off) Ht)).
Qed.

(** The date of a time of day of the current local day, up to five days
    ahead. *)
Lemma dateAt_quiet zone off horizon now t :
  quiet zone off horizon now → 0 ≤ t ≤ 5 * secondsPerDay →
  dateAt zone now t = (now + off) / msPerDay * msPerDay + t * 1000 - off
  ∧ - msPerDay < dateAt zone now t - now ≤ t * 1000.
Proof.
  intros Hq Ht. unfold dateAt, Day.
  rewrite (quiet_LocalTime_now zone off horizon now Hq).
  pose proof Hq as (Hnow & Hoff & Hh & _).
  assert (- msPerDay < (now + off) / msPerDay * msPerDay - off - now ≤ 0)
    as Hday by (unfold msPerDay; Z.div_mod_to_equations; lia).
  rewrite (quiet_UTC zone off horizon now _ Hq);
    unfold msPerDay, secondsPerDay in *; lia.
Qed.

Lemma dateAt_near zone off horizon now t :
  quiet zone off horizon now → 0 ≤ t ≤ 5 * secondsPerDay →
  Z.abs (dateAt zone now t - now) ≤ 5 * msPerDay.
Proof.
  intros Hq Ht. destruct (dateAt_quiet zone off horizon now t Hq Ht) as [_ H].
  unfold msPerDay, secondsPerDay in *. lia.
Qed.

Lemma LocalTime_dateAt zone off horizon now t :
  quiet zone off horizon now → 0 ≤ t ≤ 5 * secondsPerDay →
  LocalTime zone (dateAt zone now t)
  = (now + off) / msPerDay * msPerDay + t * 1000.
Proof.
  intros Hq Ht.
  rewrite (quiet_LocalTime zone off horizon now _ Hq).
  - destruct (dateAt_quiet zone off horizon now t Hq Ht) as [-> _]. lia.
  - pose proof (dateAt_near zone off horizon now t Hq Ht).
    destruct Hq as (_ & _ & Hh & _). lia.
Qed.

(** The time of day of that date. *)
Lemma localSeconds_dateAt zone off horizon now t :
  quiet zone off horizon now → 0 ≤ t ≤ 5 * secondsPerDay →
  (LocalTime zone (dateAt zone now t) / 1000) mod secondsPerDay
  = t mod secondsPerDay.
Proof.
  intros Hq Ht. rewrite (LocalTime_dateAt zone off horizon now t Hq Ht).
  unfold msPerDay, secondsPerDay. Z.div_mod_to_equations. lia.
Qed.

Lemma formatTimeFromDate_seconds zone off horizon now t :
  quiet zone off horizon now → 0 ≤ t ≤ 5 * secondsPerDay →
  formatTimeFromDate zone (dateAt zone now t) = wallClock (t mod secondsPerDay).
Proof.
  intros Hq Ht. rewrite formatTimeFromDate_wallClock.
  by rewrite (localSeconds_dateAt zone off horizon now t Hq Ht).
Qed.

Lemma formatTimeFromDate_timeOfDay zone off horizon now t :
  quiet zone off horizon now → 0 ≤ t < secondsPerDay →
  formatTimeFromDate zone (dateAt zone now t) = wallClock t.
Proof.
  intros Hq Ht.
  rewrite (formatTimeFromDate_seconds zone off horizon now t Hq)
    by (unfold secondsPerDay in *; lia).
  by rewrite Z.mod_small.
Qed.

Lemma wallClockAdd_dateAt zone off horizon now t seconds :
  quiet zone off horizon now → 0 ≤ t ≤ 5 * secondsPerDay →
  wallClockAdd (LocalTime zone (dateAt zone now t) / 1000) seconds
  = wallClockAdd t seconds.
Proof.
  intros Hq Ht. rewrite <- wallClockAdd_mod.
  rewrite (localSeconds_dateAt zone off horizon now t Hq Ht).
  apply wallClockAdd_mod.
Qed.

(** [setHours] on the current date, with a time of day up to five days
    long. *)
Lemma setHours_quiet zone off horizon now hours minutes seconds t :
  quiet zone off horizon now → 0 ≤ t ≤ 5 * secondsPerDay →
  MakeTime hours minutes seconds 0 = Known (t * 1000) →
  setHours zone now hours minutes seconds 0 = Known (dateAt zone now t).
Proof.
  intros Hq Ht Htime. unfold setHours. rewrite Htime.
  cbn [mbind tracked_bind].
  pose proof (dateAt_quiet zone off horizon now t Hq Ht) as [Hd Hnear].
  pose proof (quiet_LocalTime_now zone off horizon now Hq) as Hlt.
  unfold dateAt in *. rewrite Hlt in *. unfold MakeDate, Day in *.
  destruct Hq as (Hnow & Hoff & Hh & _).
  unfold msPerDay, secondsPerDay, CLOCK_WINDOW, MAX_DURATION in *.
  assert (-86400000 < (now + off) / 86400000 * 86400000 - off - now ≤ 0)
    as Hday by (Z.div_mod_to_equations; lia).
  rewrite exact_known by (unfold MAX_EXACT; lia). cbn [mbind tracked_bind].
  rewrite exact_known by (unfold MAX_EXACT; lia).
  cbn [mbind tracked_bind].
  apply TimeClip_known. unfold MAX_TIME. lia.
Qed.

Lemma MakeTime_fields (a b c : Z) :
  0 ≤ a ≤ 1000000000 → 0 ≤ b ≤ 1000000000 → 0 ≤ c ≤ 1000000000 →
  MakeTime a b c 0 = Known ((a * 3600 + b * 60 + c) * 1000).
Proof.
  intros Ha Hb Hc. unfold MakeTime, msPerHour, msPerMinute, msPerSecond.
  known_exact. f_equal. lia.
Qed.

Lemma parseTimeToDate_fields zone off horizon now (A B C : string)
    (a b c : Z) :
  quiet zone off horizon now →
  digitsValue A = Some a → digitsValue B = Some b → digitsValue C = Some c →
  a * 3600 + b * 60 + c ≤ 5 * secondsPerDay →
  parseTimeToDate zone now (A +:+ String ":" (B +:+ String ":" C))
  = Known (dateAt zone now (a * 3600 + b * 60 + c)).
Proof.
  intros Hq HA HB HC Hsum.
  destruct (digitsValue_digits _ _ HA) as (HdA & _ & Ha0).
  destruct (digitsValue_digits _ _ HB) as (HdB & _ & Hb0).
  destruct (digitsValue_digits _ _ HC) as (HdC & _ & Hc0).
  unfold secondsPerDay in Hsum.
  unfold parseTimeToDate.
  rewrite !split_field_sep, split_field by done.
  cbn [mapM mbind tracked_bind mret tracked_ret].
  rewrite (Number_field _ _ HA), (Number_field _ _ HB),
    (Number_field _ _ HC) by (unfold MAX_EXACT; lia).
  cbn [mbind tracked_bind mret tracked_ret lookup list_lookup orZero].
  apply (setHours_quiet zone off horizon now); [done | |].
  - unfold secondsPerDay. lia.
  - apply MakeTime_fields; lia.
Qed.

Lemma parseTimeToDate_wallClock zone off horizon now t :
  quiet zone off horizon now → 0 ≤ t < secondsPerDay →
  parseTimeToDate zone now (wallClock t) = Known (dateAt zone now t).
Proof.
  intros Hq Ht. unfold secondsPerDay in Ht.
  assert (0 ≤ t / 3600 < 100) as Hh
    by (split; [apply Z.div_pos; lia | apply Z.div_lt_upper_bound; lia]).
  pose proof (minutes_field_bounds t) as Hm.
  pose proof (seconds_field_bounds t) as Hs.
  destruct (twoDigit_padded (t / 3600) Hh) as (Hvh & _).
  destruct (twoDigit_padded (t mod 3600 / 60) ltac:(lia)) as (Hvm & _).
  destruct (twoDigit_padded (t mod 60) ltac:(lia)) as (Hvs & _).
  rewrite wallClock_fields.
  rewrite (parseTimeToDate_fields zone off horizon now _ _ _ _ _ _ Hq
             Hvh Hvm Hvs).
  - f_equal. f_equal. Z.div_mod_to_equations. lia.
  - unfold secondsPerDay. Z.div_mod_to_equations. lia.
Qed.

(** Adding a duration in range to a start date in range gives a valid date,
    whose time of day is the wall-clock sum. *)
Lemma addSecondsToDate_wallClock zone off horizon now (date : Date)
    (seconds : Z) :
  quiet zone off horizon now →
  startDateInRange now (Known date) = true →
  durationInRange horizon seconds = true →
  ∃ e, addSecondsToDate date seconds = Known e
       ∧ formatTimeFromDate zone e
         = wallClock (wallClockAdd (LocalTime zone date / 1000) seconds).
Proof.
  unfold startDateInRange, durationInRange.
  intros Hq Hd%Z.leb_le Hs%Z.leb_le.
  exists (date + seconds * 1000). unfold addSecondsToDate.
  pose proof Hq as (Hnow & Hoff & Hh & _).
  unfold msPerDay, CLOCK_WINDOW, MAX_DURATION in *.
  rewrite exact_known by (unfold MAX_EXACT; lia). cbn [mbind tracked_bind].
  rewrite TimeClip_known by (unfold MAX_TIME; lia).
  split; [reflexivity |].
  rewrite formatTimeFromDate_wallClock. unfold wallClockAdd.
  rewrite (quiet_LocalTime zone off horizon now (date + seconds * 1000) Hq)
    by (unfold msPerDay; lia).
  rewrite (quiet_LocalTime zone off horizon now date Hq)
    by (unfold msPerDay; lia).
  replace (date + seconds * 1000 + off) with (date + off + seconds * 1000)
    by lia.
  by rewrite Z.div_add by lia.
Qed.

Lemma timeOfDay_in_range zone off horizon now t :
  quiet zone off horizon now → 0 ≤ t < secondsPerDay →
  startDateInRange now (Known (dateAt zone now t)) = true.
Proof.
  intros Hq Ht. unfold startDateInRange. apply Z.leb_le.
  apply (dateAt_near zone off horizon now t Hq).
  unfold secondsPerDay in *. lia.
Qed.

(** From the date of a time of day, the wall-clock sum. *)
Lemma addSecondsToDate_dateAt zone off horizon now t seconds :
  quiet zone off horizon now → 0 ≤ t < secondsPerDay →
  durationInRange horizon seconds = true →
  ∃ e, addSecondsToDate (dateAt zone now t) seconds = Known e
       ∧ formatTimeFromDate zone e = wallClock (wallClockAdd t seconds).
Proof.
  intros Hq Ht Hdur.
  destruct (addSecondsToDate_wallClock zone off horizon now _ seconds Hq
              (timeOfDay_in_range zone off horizon now t Hq Ht) Hdur)
    as (e & He & Hf).
  exists e. split; [done |]. rewrite Hf.
  by rewrite (wallClockAdd_dateAt zone off horizon now t seconds Hq)
    by (unfold secondsPerDay in *; lia).
Qed.

(** The clock in UTC on the day of the epoch, on which [timeOfDay] reads a
    text. *)
Lemma quiet_utc : quiet utc 0 0 0.
Proof. by apply quiet_fixedZone. Qed.

Lemma dateAt_utc t : dateAt utc 0 t = t * 1000.
Proof.
  unfold dateAt, utc, UTC, LocalTime, Day, fixedZone, msPerDay.
  cbn [LocalTZA]. change ((0 + 0) / 86400000) with 0. lia.
Qed.

Lemma LocalTime_utc t : LocalTime utc t = t.
Proof. unfold LocalTime, utc. cbn. lia. Qed.

(** * The list collection *)

(** The updater maps over the collection; only the list at its position is
    worked on when no other list has its id. *)
Lemma collect_single {X : Type} (dflt : RoutineList.t → X)
    (pre post : list RoutineList.t) (target : RoutineList.t) (x : X) :
  ∀ g : nat → RoutineList.t → tracked X,
    (∀ k l, l ∈ pre ++ post → g k l = Known (dflt l)) →
    g (length pre) target = Known x →
    mapM (λ y, y) (imap g (pre ++ target :: post))
    = Known ((dflt <$> pre) ++ x :: (dflt <$> post)).
Proof.
  assert (∀ (g : nat → RoutineList.t → tracked X) (l : list RoutineList.t),
            (∀ k y, y ∈ l → g k y = Known (dflt y)) →
            mapM (λ y, y) (imap g l) = Known (dflt <$> l)) as Hrest.
  { intros g l. revert g. induction l as [|y l IH]; intros g Hg; [done |].
    cbn [imap mapM fmap list_fmap].
    rewrite (Hg 0%nat y) by apply list_elem_of_here.
    cbn [mbind tracked_bind].
    rewrite (IH (g ∘ S))
      by (intros; apply Hg; by apply list_elem_of_further).
    reflexivity. }
  induction pre as [|y pre IH]; intros g Hdflt Hx.
  - cbn [app imap mapM fmap list_fmap length] in *. rewrite Hx.
    cbn [mbind tracked_bind].
    rewrite (Hrest (g ∘ S)) by (intros; by apply Hdflt).
    reflexivity.
  - cbn [app imap mapM fmap list_fmap length] in *.
    rewrite (Hdflt 0%nat y) by apply list_elem_of_here.
    cbn [mbind tracked_bind].
    rewrite (IH (g ∘ S)).
    + reflexivity.
    + intros. apply Hdflt. by apply list_elem_of_further.
    + exact Hx.
Qed.

(** [handleAddRoutineToList] on a collection in which one list has the
    given id: that list is replaced by what [addRoutineToList] makes of it. *)
Lemma handleAddRoutineToList_single zone (clock : nat → Date)
    (generateId : nat → string)
    (listId name : string) (durationSeconds : Z)
    (startTimeStr : option string) (pre post : list RoutineList.t)
    (list list' : RoutineList.t) :
  RoutineList.id list = listId →
  forallb (λ l, negb (String.eqb (RoutineList.id l) listId)) (pre ++ post)
  = true →
  addRoutineToList zone (clock (length pre)) (generateId (length pre)) list
    name durationSeconds startTimeStr = Known list' →
  handleAddRoutineToList zone clock generateId listId name durationSeconds
    startTimeStr (pre ++ list :: post)
  = Known (pre ++ list' :: post).
Proof.
  intros Hid Hothers Hadd. unfold handleAddRoutineToList.
  rewrite (collect_single (λ y, y) pre post list list').
  - by rewrite !list_fmap_id.
  - intros k l Hl. rewrite forallb_forall in Hothers.
    apply list_elem_of_In, Hothers in Hl.
    by apply negb_true_iff in Hl as ->.
  - by rewrite (proj2 (String.eqb_eq _ _) Hid).
Qed.

(** * Adding a routine *)

Lemma addRoutineToList_appends zone off horizon now newId list name
    durationSeconds startTimeStr :
  quiet zone off horizon now →
  appendsRoutineAt zone now horizon newId list name durationSeconds
    startTimeStr (newRoutineStartTimeStr list startTimeStr).
Proof.
  intros Hq t0 Hparse Hstart Hdur. unfold addRoutineToList.
  rewrite Hparse. cbn [mbind tracked_bind].
  destruct (addSecondsToDate_wallClock zone off horizon now t0
              durationSeconds Hq Hstart Hdur) as (e & He & Hf).
  rewrite He. cbn [mbind tracked_bind]. by rewrite Hf.
Qed.




(** C10, as stated, fails in its end time where the host's clock is put
    forward before the routine ends: in Europe/Berlin on Saturday 28 March
    2026 a routine of twenty hours added to an empty list without a start
    time starts at 08:00:00 and ends at 05:00:00, the time the clock shows
    when the duration has passed; 08:00:00 plus twenty hours is 04:00:00. *)
Lemma addRoutine_default_end_fails :
  addRoutineToList europeBerlin2026 1774684800000 "r1"
    (RoutineList.mk "l1" "Day" []) "A" 72000 None
  = Known (RoutineList.mk "l1" "Day"
             [Routine.mk "r1" "A" "08:00:00" 72000 "05:00:00"])
  ∧ wallClock (wallClockAdd 28800 72000) = "04:00:00"
  ∧ ¬ endsAfterDuration (Routine.mk "r1" "A" "08:00:00" 72000 "05:00:00").
Proof.
  split; [reflexivity |]. split; [reflexivity |].
  intros (t & Ht & Hend). vm_compute in Ht. injection Ht as <-.
  vm_compute in Hend. discriminate.
Qed.

(** C10, amended. A routine added to an empty list without a start time
    starts at "08:00:00", on every host and at every time; where the host's
    clock is quiet it ends at that time plus its duration on the wall
    clock. *)
Theorem addRoutine_default_start (zone : TimeZone) (off horizon : Z)
    (now : Date) (newId : string) (list : RoutineList.t)
    (name : string) (durationSeconds : Z) (startTimeStr : option string) :
  RoutineList.routines list = [] →
  startTimeStr = None ∨ startTimeStr = Some "" →
  (∀ list',
     addRoutineToList zone now newId list name durationSeconds startTimeStr
     = Known list' →
     ∃ e, list'
          = RoutineList.mk (RoutineList.id list) (RoutineList.title list)
              [Routine.mk newId name "08:00:00" durationSeconds e])
  ∧ (quiet zone off horizon now →
     durationInRange horizon durationSeconds = true →
     addRoutineToList zone now newId list name durationSeconds startTimeStr
     = Known (RoutineList.mk (RoutineList.id list) (RoutineList.title list)
                [Routine.mk newId name "08:00:00" durationSeconds
                   (wallClock (wallClockAdd 28800 durationSeconds))])).
Proof.
  intros Hempty Hnone.
  assert (newRoutineStartTimeStr list startTimeStr = "08:00:00") as E.
  { unfold newRoutineStartTimeStr, startTimeWithoutInput.
    rewrite Hempty. by destruct Hnone as [-> | ->]. }
  split.
  - intros list'. unfold addRoutineToList. rewrite E, Hempty.
    destruct (parseTimeToDate zone now "08:00:00") as [d|];
      cbn [mbind tracked_bind]; [| done].
    destruct (addSecondsToDate d durationSeconds) as [e|];
      cbn [mbind tracked_bind]; [| done].
    intros [= <-]. by eexists.
  - intros Hq Hdur.
    pose proof (addRoutineToList_appends zone off horizon now newId list name
                  durationSeconds startTimeStr Hq) as H.
    unfold appendsRoutineAt in H. rewrite E, Hempty in H.
    assert (0 ≤ 28800 < secondsPerDay) as Ht by (unfold secondsPerDay; lia).
    specialize (H (dateAt zone now 28800)
                  (parseTimeToDate_wallClock zone off horizon now 28800 Hq Ht)
                  (timeOfDay_in_range zone off horizon now 28800 Hq Ht)
                  Hdur).
    rewrite H. do 4 f_equal.
    rewrite (wallClockAdd_dateAt zone off horizon now 28800 _ Hq)
      by (unfold secondsPerDay; lia).
    reflexivity.
Qed.

Lemma addRoutine_default_start_witness :
  addRoutineToList europeBerlin2026 1793610000000 "r1"
    (RoutineList.mk "l1" "Morning" []) "A" 1500 None
  = Known (RoutineList.mk "l1" "Morning"
             [Routine.mk "r1" "A" "08:00:00" 1500 "08:25:00"]).
Proof.
  exact (proj2 (addRoutine_default_start europeBerlin2026 3600000 86400
                  1793610000000 "r1" (RoutineList.mk "l1" "Morning" []) "A"
                  1500 None eq_refl (or_introl eq_refl))
           (quiet_europeBerlin2026 86400 1793610000000 eq_refl) eq_refl).
Defined.

(** * The countdown timer *)

(** C3. On the list the timer runs on, a tick with more than one second
    left takes one second off and changes nothing else; a tick with one
    second or less left requests the routine-complete announcement with the
    name the timer carries and then moves to the next routine, with its
    duration as the time left, when there is one, and otherwise requests the
    all-complete announcement once and stops the timer. No routine-complete
    announcement is requested for a routine past the end. *)
Theorem tick_transitions (lists : list RoutineList.t)
    (prev : ActiveRoutineState.t) (currentList : RoutineList.t) :
  List.find (λ l, String.eqb (RoutineList.id l)
                    (ActiveRoutineState.listId prev)) lists
  = Some currentList →
  ActiveRoutineState.timeLeftInSeconds prev ≤ MAX_EXACT →
  (1 < ActiveRoutineState.timeLeftInSeconds prev →
     tick lists (Some prev)
     = (Some (ActiveRoutineState.mk
                (ActiveRoutineState.listId prev)
                (ActiveRoutineState.routineId prev)
                (ActiveRoutineState.currentRoutineIndex prev)
                (ActiveRoutineState.timeLeftInSeconds prev - 1)
                (ActiveRoutineState.routineName prev)),
        []))
  ∧ (ActiveRoutineState.timeLeftInSeconds prev ≤ 1 →
       ∀ nextRoutine,
         RoutineList.routines currentList
           !! (ActiveRoutineState.currentRoutineIndex prev + 1)%nat
         = Some nextRoutine →
         tick lists (Some prev)
         = (Some (ActiveRoutineState.mk
                    (ActiveRoutineState.listId prev)
                    (Routine.id nextRoutine)
                    (ActiveRoutineState.currentRoutineIndex prev + 1)%nat
                    (Routine.durationSeconds nextRoutine)
                    (Routine.name nextRoutine)),
            [BeepThenSpeak
               (RoutineDone (ActiveRoutineState.routineName prev))]))
  ∧ (ActiveRoutineState.timeLeftInSeconds prev ≤ 1 →
       (length (RoutineList.routines currentList)
        ≤ ActiveRoutineState.currentRoutineIndex prev + 1)%nat →
       tick lists (Some prev)
       = (None,
          [BeepThenSpeak (RoutineDone (ActiveRoutineState.routineName prev));
           Speak (AllDone (RoutineList.title currentList))])).
Proof.
  intros Hfind _. unfold tick. split; [| split].
  - intros Hr. by rewrite (proj2 (Z.leb_gt _ _) Hr).
  - intros Hr nextRoutine Hnext.
    by rewrite (proj2 (Z.leb_le _ _) Hr), Hfind, Hnext.
  - intros Hr Hlast.
    rewrite (proj2 (Z.leb_le _ _) Hr), Hfind.
    by rewrite (lookup_ge_None_2 _ _ Hlast).
Qed.

Lemma tick_transitions_witness :
  tick [RoutineList.mk "l1" "Morning"
          [Routine.mk "r1" "A" "08:00:00" 1500 "08:25:00"]]
    (Some (ActiveRoutineState.mk "l1" "r1" 0 1 "A"))
  = (None, [BeepThenSpeak (RoutineDone "A"); Speak (AllDone "Morning")]).
Proof.
  apply (proj2 (proj2 (tick_transitions
           [RoutineList.mk "l1" "Morning"
              [Routine.mk "r1" "A" "08:00:00" 1500 "08:25:00"]]
           (ActiveRoutineState.mk "l1" "r1" 0 1 "A")
           (RoutineList.mk "l1" "Morning"
              [Routine.mk "r1" "A" "08:00:00" 1500 "08:25:00"])
           eq_refl ltac:(unfold MAX_EXACT; simpl; lia))));
    simpl; lia.
Defined.

(** * Moving a list *)

Lemma spliceStart_in_range {A : Type} (a : list A) (start : Z) :
  0 ≤ start ≤ Z.of_nat (length a) → spliceStart a start = Z.to_nat start.
Proof.
  intros H. unfold spliceStart.
  rewrite (proj2 (Z.ltb_ge _ _)) by lia. f_equal. lia.
Qed.

Lemma splice_insert_perm {A : Type} (a : list A) (start : Z) (x : A) :
  (splice a start 0 [x]).1 ≡ₚ x :: a.
Proof.
  unfold splice. cbn [fst app]. rewrite Nat.add_0_r.
  rewrite <- Permutation_middle. by rewrite take_drop.
Qed.

Lemma splice_remove_perm {A : Type} (a : list A) (start : Z) :
  match (splice a start 1 []).2 with
  | x :: _ => a ≡ₚ x :: (splice a start 1 []).1
  | [] => (splice a start 1 []).1 = a
  end.
Proof.
  unfold splice. cbn [fst snd app]. set (k := spliceStart a start).
  destruct (drop k a) as [|x r] eqn:E; cbn [take].
  - apply drop_nil_inv in E.
    rewrite take_ge, drop_ge by lia. apply app_nil_r.
  - rewrite <- (take_drop k a) at 1. rewrite E.
    rewrite <- Permutation_middle.
    assert (drop (k + 1) a = r) as ->; [| done].
    by rewrite <- drop_drop, E.
Qed.

(** Removing the element at an index inside the array. *)
Lemma splice_remove_at {A : Type} (a : list A) (i : nat) (x : A) :
  a !! i = Some x →
  splice a (Z.of_nat i) 1 [] = (delete i a, [x]).
Proof.
  intros Hx. pose proof (lookup_lt_Some _ _ _ Hx) as Hi.
  unfold splice. rewrite spliceStart_in_range by lia.
  rewrite Nat2Z.id. cbn [app].
  rewrite (drop_S _ _ _ Hx). cbn [take].
  rewrite delete_take_drop. by replace (i + 1)%nat with (S i) by lia.
Qed.

(** Inserting one element at an index inside the array or at its end. *)
Lemma splice_insert_at {A : Type} (a : list A) (k : nat) (x : A) :
  (k ≤ length a)%nat →
  (splice a (Z.of_nat k) 0 [x]).1 !! k = Some x
  ∧ delete k (splice a (Z.of_nat k) 0 [x]).1 = a.
Proof.
  intros Hk. unfold splice. rewrite spliceStart_in_range by lia.
  rewrite Nat2Z.id, Nat.add_0_r. cbn [fst app].
  assert (length (take k a) = k) as Hl by (rewrite length_take; lia).
  split.
  - by apply list_lookup_middle.
  - rewrite <- Hl at 1. rewrite delete_middle. apply take_drop.
Qed.

(** C9. [handleMoveList] leaves the timer state as it is and permutes the
    list collection, so every list keeps its routines as they were; for a
    source index inside the collection and a target index inside it or at
    its end, the moved list lands at [targetIndex - 1] when the source index
    precedes the target and at [targetIndex] otherwise, and the other lists
    keep their order. *)
Theorem handleMoveList_reorders (sourceIndex targetIndexInContainer : Z)
    (st : AppState) :
  activeRoutineState (handleMoveList sourceIndex targetIndexInContainer st)
  = activeRoutineState st
  ∧ lists (handleMoveList sourceIndex targetIndexInContainer st) ≡ₚ lists st
  ∧ (0 ≤ sourceIndex < Z.of_nat (length (lists st)) →
     0 ≤ targetIndexInContainer ≤ Z.of_nat (length (lists st)) →
     ∀ actualTargetIndex,
       actualTargetIndex
       = Z.to_nat (if sourceIndex <? targetIndexInContainer
                   then targetIndexInContainer - 1
                   else targetIndexInContainer) →
       lists (handleMoveList sourceIndex targetIndexInContainer st)
         !! actualTargetIndex
       = lists st !! Z.to_nat sourceIndex
       ∧ delete actualTargetIndex
           (lists (handleMoveList sourceIndex targetIndexInContainer st))
         = delete (Z.to_nat sourceIndex) (lists st)).
Proof.
  split; [| split].
  - unfold handleMoveList.
    destruct (splice (lists st) sourceIndex 1 []) as [newLists [|x r]];
      reflexivity.
  - unfold handleMoveList.
    pose proof (splice_remove_perm (lists st) sourceIndex) as H.
    destruct (splice (lists st) sourceIndex 1 []) as [newLists [|x r]];
      cbn [fst snd lists] in *.
    + by rewrite H.
    + by rewrite splice_insert_perm, H.
  - intros Hs Ht k Hk.
    remember (Z.to_nat sourceIndex) as s eqn:Es.
    assert (sourceIndex = Z.of_nat s) as Hsrc by lia.
    clear Es. subst sourceIndex.
    destruct (lookup_lt_is_Some_2 (lists st) s ltac:(lia)) as [x Hx].
    assert (length (delete s (lists st)) = (length (lists st) - 1)%nat)
      as Hlen.
    { rewrite length_delete by eauto. lia. }
    assert (k ≤ length (delete s (lists st)))%nat as Hk'.
    { rewrite Hlen, Hk.
      destruct (Z.ltb_spec (Z.of_nat s) targetIndexInContainer); lia. }
    assert ((if Z.of_nat s <? targetIndexInContainer
             then targetIndexInContainer - 1 else targetIndexInContainer)
            = Z.of_nat k) as Hact.
    { rewrite Hk.
      destruct (Z.ltb_spec (Z.of_nat s) targetIndexInContainer); lia. }
    assert (lists (handleMoveList (Z.of_nat s) targetIndexInContainer st)
            = (splice (delete s (lists st)) (Z.of_nat k) 0 [x]).1) as ->.
    { unfold handleMoveList. rewrite Hact.
      by rewrite (splice_remove_at _ _ _ Hx). }
    destruct (splice_insert_at _ k x Hk') as [H1 H2].
    by rewrite H1, H2, Hx.
Qed.

Lemma handleMoveList_reorders_witness :
  lists (handleMoveList 0 2
           (mkApp [RoutineList.mk "a" "A" []; RoutineList.mk "b" "B" [];
                   RoutineList.mk "c" "C" []] None))
    !! 1%nat
  = Some (RoutineList.mk "a" "A" []).
Proof.
  apply (proj2 (proj2 (handleMoveList_reorders 0 2
           (mkApp [RoutineList.mk "a" "A" []; RoutineList.mk "b" "B" [];
                   RoutineList.mk "c" "C" []] None)))
           ltac:(simpl; lia) ltac:(simpl; lia) 1%nat eq_refl).
Defined.

(** * The cascade *)

Lemma durationsInRange_lookup horizon (rs : list Routine.t) :
  durationsInRange horizon rs = true ↔
  ∀ k r, rs !! k = Some r →
         durationInRange horizon (Routine.durationSeconds r) = true.
Proof.
  unfold durationsInRange. rewrite forallb_forall. split.
  - intros H k r Hk. apply H, list_elem_of_In, list_elem_of_lookup. eauto.
  - intros H r [k Hk]%list_elem_of_In%list_elem_of_lookup. eauto.
Qed.

(** One turn of the loop behind an element whose end time is a wall-clock
    time. *)
Lemma recalculateStep_chained zone off horizon clock
    (Hq : quietClock zone off horizon clock)
    (rs : list Routine.t) (i : nat) p r t :
  (1 ≤ i)%nat →
  rs !! (i - 1)%nat = Some p → Routine.endTime p = wallClock t →
  0 ≤ t < secondsPerDay →
  rs !! i = Some r →
  durationInRange horizon (Routine.durationSeconds r) = true →
  recalculateStep zone clock rs i
  = Known (<[i := Routine.mk (Routine.id r) (Routine.name r) (wallClock t)
                    (Routine.durationSeconds r)
                    (wallClock (wallClockAdd t (Routine.durationSeconds r)))]>
             rs).
Proof.
  intros Hi Hp Hend Ht Hr Hdur.
  unfold recalculateStep, currentStartTimeDateAt. rewrite Hr, Hp.
  destruct i as [|i]; [lia |]. cbn [Nat.eqb].
  rewrite Hend, (proj2 (String.eqb_neq _ _) (wallClock_nonempty t)).
  rewrite (parseTimeToDate_wallClock zone off horizon _ t (Hq (S i)) Ht).
  cbn [mbind tracked_bind].
  destruct (addSecondsToDate_dateAt zone off horizon _ t
              (Routine.durationSeconds r) (Hq (S i)) Ht Hdur)
    as (e & He & Hf).
  rewrite He. cbn [mbind tracked_bind].
  by rewrite Hf, (formatTimeFromDate_timeOfDay zone off horizon _ t (Hq (S i))).
Qed.

(** The first turn of the loop, from an anchor in range. *)
Lemma recalculateStep_anchor zone off horizon clock
    (Hq : quietClock zone off horizon clock)
    (rs : list Routine.t) (i : nat) r :
  rs !! i = Some r →
  anchorInRange zone clock rs i = true →
  durationInRange horizon (Routine.durationSeconds r) = true →
  ∃ start t,
    0 ≤ t < secondsPerDay
    ∧ recalculateStep zone clock rs i
      = Known (<[i := Routine.mk (Routine.id r) (Routine.name r) start
                        (Routine.durationSeconds r) (wallClock t)]> rs).
Proof.
  intros Hr Hanchor Hdur. unfold anchorInRange in Hanchor.
  rewrite Hr in Hanchor. unfold recalculateStep. rewrite Hr.
  destruct (currentStartTimeDateAt zone clock rs i r) as [d|]; [| done].
  cbn [mbind tracked_bind].
  destruct (addSecondsToDate_wallClock zone off horizon (clock i) d
              (Routine.durationSeconds r) (Hq i) Hanchor Hdur)
    as (e & He & Hf).
  rewrite He. cbn [mbind tracked_bind]. rewrite Hf.
  eexists _, _. split; [apply wallClockAdd_bounds | reflexivity].
Qed.

(** The loop from an index behind an element whose end time is a wall-clock
    time: every element from that index on is retimed to follow the one
    before it, and the elements before the index are left as they are. *)
Lemma recalculate_loop_chained zone off horizon clock
    (Hq : quietClock zone off horizon clock) (n : nat) :
  ∀ (i : nat) (rs : list Routine.t),
    (i + n)%nat = length rs → (1 ≤ i)%nat →
    (∀ k r, rs !! k = Some r →
            durationInRange horizon (Routine.durationSeconds r) = true) →
    (∃ p t, rs !! (i - 1)%nat = Some p ∧ 0 ≤ t < secondsPerDay
            ∧ Routine.endTime p = wallClock t) →
    ∃ rs',
      forEachIndex (recalculateStep zone clock) rs (seq i n) = Known rs'
      ∧ length rs' = length rs
      ∧ (∀ k, (k < i)%nat → rs' !! k = rs !! k)
      ∧ (∀ k r0, (i ≤ k)%nat → rs !! k = Some r0 →
           ∃ p r, rs' !! (k - 1)%nat = Some p ∧ rs' !! k = Some r
                  ∧ follows p r ∧ retimed r0 r).
Proof.
  induction n as [|n IH]; intros i rs Hlen Hi Hdur (p & t & Hp & Ht & Hend).
  - exists rs. split; [done |]. split; [done |]. split; [done |].
    intros k r0 Hk Hr0. apply lookup_lt_Some in Hr0. lia.
  - destruct (lookup_lt_is_Some_2 rs i ltac:(lia)) as [r Hr].
    cbn [seq forEachIndex].
    rewrite (recalculateStep_chained zone off horizon clock Hq rs i p r t)
      by eauto.
    cbn [mbind tracked_bind].
    set (r' := Routine.mk (Routine.id r) (Routine.name r) (wallClock t)
                 (Routine.durationSeconds r)
                 (wallClock (wallClockAdd t (Routine.durationSeconds r)))).
    assert (i < length rs)%nat as Hilt by lia.
    destruct (IH (S i) (<[i := r']> rs))
      as (rs' & Hrun & Hlen' & Hbefore & Hafter).
    + rewrite length_insert. lia.
    + lia.
    + intros k x Hx. destruct (decide (k = i)) as [-> | Hne].
      * rewrite list_lookup_insert_eq in Hx by done.
        injection Hx as <-. simpl. eauto.
      * rewrite list_lookup_insert_ne in Hx by done. eauto.
    + exists r', (wallClockAdd t (Routine.durationSeconds r)).
      replace (S i - 1)%nat with i by lia.
      rewrite list_lookup_insert_eq by done.
      split; [done |]. split; [apply wallClockAdd_bounds | done].
    + exists rs'. split; [exact Hrun |]. split.
      { by rewrite Hlen', length_insert. }
      split.
      { intros k Hk. rewrite Hbefore by lia.
        apply list_lookup_insert_ne. lia. }
      intros k r0 Hk Hr0. destruct (decide (k = i)) as [-> | Hne].
      * exists p, r'.
        rewrite !Hbefore by lia.
        rewrite list_lookup_insert_ne by lia.
        rewrite list_lookup_insert_eq by done.
        split; [done |]. split; [done |].
        assert (r0 = r) as -> by congruence.
        split; [by exists t | done].
      * apply (Hafter k r0); [lia |].
        by rewrite list_lookup_insert_ne.
Qed.

(** What [recalculateTimesInList] returns, for durations in range and an
    anchor in range. *)
Lemma recalculate_chain zone off horizon clock
    (Hq : quietClock zone off horizon clock)
    (list : RoutineList.t) (startIndex : nat) :
  durationsInRange horizon (RoutineList.routines list) = true →
  anchorInRange zone clock (RoutineList.routines list) startIndex = true →
  ∃ rs',
    recalculateTimesInList zone clock list startIndex
    = Known (RoutineList.mk (RoutineList.id list) (RoutineList.title list) rs')
    ∧ length rs' = length (RoutineList.routines list)
    ∧ (∀ k, (k < startIndex)%nat → rs' !! k = RoutineList.routines list !! k)
    ∧ (∀ k r0, (startIndex ≤ k)%nat →
         RoutineList.routines list !! k = Some r0 →
         ∃ r, rs' !! k = Some r ∧ retimed r0 r)
    ∧ (∀ k r0, (startIndex < k)%nat →
         RoutineList.routines list !! k = Some r0 →
         ∃ p r, rs' !! (k - 1)%nat = Some p ∧ rs' !! k = Some r
                ∧ follows p r).
Proof.
  intros Hdur Hanchor. unfold recalculateTimesInList.
  set (rs := RoutineList.routines list) in *.
  rewrite durationsInRange_lookup in Hdur.
  destruct (Nat.eqb_spec (length rs) 0) as [Hzero|Hnonzero].
  { exists []. apply nil_length_inv in Hzero. rewrite Hzero.
    split; [done |]. split; [done |]. split; [done |]. split; by intros. }
  destruct (decide (startIndex < length rs)%nat) as [Hlt|Hge].
  2:{ replace (length rs - startIndex)%nat with 0%nat by lia.
      exists rs. split; [done |]. split; [done |]. split; [done |].
      split; intros k r0 Hk Hr0; apply lookup_lt_Some in Hr0; lia. }
  destruct (lookup_lt_is_Some_2 rs startIndex Hlt) as [r Hr].
  replace (length rs - startIndex)%nat
    with (S (length rs - S startIndex)) by lia.
  cbn [seq forEachIndex].
  destruct (recalculateStep_anchor zone off horizon clock Hq rs startIndex r
              Hr Hanchor (Hdur _ _ Hr)) as (start & t & Ht & ->).
  cbn [mbind tracked_bind].
  set (r1 := Routine.mk (Routine.id r) (Routine.name r) start
               (Routine.durationSeconds r) (wallClock t)).
  destruct (recalculate_loop_chained zone off horizon clock Hq
              (length rs - S startIndex)
              (S startIndex) (<[startIndex := r1]> rs))
    as (rs' & Hrun & Hlen & Hbefore & Hafter).
  - rewrite length_insert. lia.
  - lia.
  - intros k x Hx. destruct (decide (k = startIndex)) as [-> | Hne].
    + rewrite list_lookup_insert_eq in Hx by done.
      injection Hx as <-. simpl. eauto.
    + rewrite list_lookup_insert_ne in Hx by done. eauto.
  - exists r1, t. replace (S startIndex - 1)%nat with startIndex by lia.
    by rewrite list_lookup_insert_eq.
  - exists rs'. rewrite Hrun.
    cbn [mbind tracked_bind].
    split; [done |]. split; [by rewrite Hlen, length_insert |].
    split; [| split].
    + intros k Hk. rewrite Hbefore by lia. apply list_lookup_insert_ne. lia.
    + intros k r0 Hk Hr0. destruct (decide (k = startIndex)) as [-> | Hne].
      * exists r1. rewrite Hbefore by lia.
        rewrite list_lookup_insert_eq by done.
        assert (r0 = r) as -> by congruence. done.
      * destruct (Hafter k r0) as (p & x & _ & Hx & _ & Hre); [lia | |].
        { by rewrite list_lookup_insert_ne. }
        by exists x.
    + intros k r0 Hk Hr0.
      destruct (Hafter k r0) as (p & x & Hp & Hx & Hfol & _); [lia | |].
      { rewrite list_lookup_insert_ne by lia. done. }
      by exists p, x.
Qed.

(** What one turn of the loop does, whenever the model follows it. *)
Lemma recalculateStep_inv zone clock (rs rs1 : list Routine.t) (i : nat) :
  recalculateStep zone clock rs i = Known rs1 →
  match rs !! i with
  | None => rs1 = rs
  | Some r =>
      ∃ d e,
        currentStartTimeDateAt zone clock rs i r = Known d
        ∧ addSecondsToDate d (Routine.durationSeconds r) = Known e
        ∧ rs1 = <[i := Routine.mk (Routine.id r) (Routine.name r)
                         (formatTimeFromDate zone d)
                         (Routine.durationSeconds r)
                         (formatTimeFromDate zone e)]> rs
  end.
Proof.
  unfold recalculateStep. destruct (rs !! i) as [r|]; [| by intros [= <-]].
  destruct (currentStartTimeDateAt zone clock rs i r) as [d|] eqn:Hd;
    cbn [mbind tracked_bind]; [| done].
  destruct (addSecondsToDate d (Routine.durationSeconds r)) as [e|] eqn:He;
    cbn [mbind tracked_bind]; [| done].
  intros [= <-]. exists d, e. split; [done |]. split; done.
Qed.

(** The loop from index [i] leaves the elements before [i] as they are. *)
Lemma recalculate_loop_before zone clock (n : nat) :
  ∀ (i : nat) (rs rs' : list Routine.t),
    forEachIndex (recalculateStep zone clock) rs (seq i n) = Known rs' →
    length rs' = length rs ∧ ∀ k, (k < i)%nat → rs' !! k = rs !! k.
Proof.
  induction n as [|n IH]; intros i rs rs'; cbn [seq forEachIndex].
  - by intros [= <-].
  - destruct (recalculateStep zone clock rs i) as [rs1|] eqn:Hstep;
      cbn [mbind tracked_bind]; [| done].
    intros Hrun. apply IH in Hrun as [Hlen Hbefore].
    apply recalculateStep_inv in Hstep.
    assert (length rs1 = length rs ∧ ∀ k, k ≠ i → rs1 !! k = rs !! k)
      as [Hlen1 Hne].
    { destruct (rs !! i) as [r|]; [| by subst].
      destruct Hstep as (d & e & _ & _ & ->).
      split; [apply length_insert |].
      intros k Hk. by apply list_lookup_insert_ne. }
    split; [lia |].
    intros k Hk. rewrite Hbefore by lia. apply Hne. lia.
Qed.

(** The element at the start index after a recalculation. *)
Lemma recalculate_first_element zone clock (list list' : RoutineList.t)
    (startIndex : nat) (r : Routine.t) :
  recalculateTimesInList zone clock list startIndex = Known list' →
  RoutineList.routines list !! startIndex = Some r →
  ∃ d e,
    currentStartTimeDateAt zone clock (RoutineList.routines list) startIndex r
    = Known d
    ∧ addSecondsToDate d (Routine.durationSeconds r) = Known e
    ∧ RoutineList.routines list' !! startIndex
      = Some (Routine.mk (Routine.id r) (Routine.name r)
                (formatTimeFromDate zone d) (Routine.durationSeconds r)
                (formatTimeFromDate zone e)).
Proof.
  intros Hrun Hr. pose proof (lookup_lt_Some _ _ _ Hr) as Hlt.
  unfold recalculateTimesInList in Hrun.
  set (rs := RoutineList.routines list) in *.
  rewrite (proj2 (Nat.eqb_neq _ _)) in Hrun by lia.
  replace (length rs - startIndex)%nat
    with (S (length rs - S startIndex)) in Hrun by lia.
  cbn [seq forEachIndex] in Hrun.
  destruct (recalculateStep zone clock rs startIndex) as [rs1|] eqn:Hstep;
    cbn [mbind tracked_bind] in Hrun; [| done].
  destruct (forEachIndex (recalculateStep zone clock) rs1 _)
    as [rs'|] eqn:Hloop;
    cbn [mbind tracked_bind] in Hrun; [| done].
  injection Hrun as <-. cbn [RoutineList.routines].
  apply recalculateStep_inv in Hstep. rewrite Hr in Hstep.
  destruct Hstep as (d & e & Hd & He & ->).
  apply recalculate_loop_before in Hloop as [_ Hbefore].
  exists d, e. split; [done |]. split; [done |].
  rewrite Hbefore by lia. by apply list_lookup_insert_eq.
Qed.


(** C1, as stated, fails where the host's clock is put forward: in
    Europe/Berlin on 29 March 2026, ten minutes after midnight, the cascade
    leaves a routine of one hour that starts at 01:30:00 with the end time
    03:30:00, which is not its start time plus its duration on the wall
    clock. *)
Lemma recalculateTimesInList_stated_fails :
  recalculateTimesInList europeBerlin2026 (λ _, 1774739400000)
    (RoutineList.mk "l1" "Night"
       [Routine.mk "r1" "A" "00:30:00" 3600 "";
        Routine.mk "r2" "B" "" 3600 ""]) 0
  = Known (RoutineList.mk "l1" "Night"
             [Routine.mk "r1" "A" "00:30:00" 3600 "01:30:00";
              Routine.mk "r2" "B" "01:30:00" 3600 "03:30:00"])
  ∧ ¬ follows (Routine.mk "r1" "A" "00:30:00" 3600 "01:30:00")
        (Routine.mk "r2" "B" "01:30:00" 3600 "03:30:00")
  ∧ ¬ endsAfterDuration (Routine.mk "r2" "B" "01:30:00" 3600 "03:30:00").
Proof.
  split; [reflexivity |].
  assert (¬ endsAfterDuration (Routine.mk "r2" "B" "01:30:00" 3600 "03:30:00"))
    as Hnot.
  { intros (t & Ht & Hend). vm_compute in Ht. injection Ht as <-.
    vm_compute in Hend. discriminate. }
  split; [| exact Hnot].
  intros (t & Ht & _ & Hstart & Hend). apply Hnot. exists t.
  split; [| exact Hend]. cbn [Routine.startTime] in *.
  rewrite Hstart. unfold timeOfDay.
  rewrite (parseTimeToDate_wallClock utc 0 0 0 t quiet_utc Ht).
  rewrite (formatTimeFromDate_timeOfDay utc 0 0 0 t quiet_utc Ht).
  rewrite dateAt_utc, String.eqb_refl, Z.div_mul by lia.
  unfold secondsPerDay in Ht.
  by rewrite (proj2 (Z.leb_le _ _)), (proj2 (Z.ltb_lt _ _)) by lia.
Qed.

(** C1, amended. Where the host's clock is quiet, for durations and an
    anchor in range, [recalculateTimesInList] returns the list in which every
    element behind [fromIndex] starts at the end time of the element before
    it and ends at its start time plus its own duration, on the wall clock
    within a day; it keeps its id, name and duration; the elements before
    [fromIndex] are returned as given. *)
Theorem recalculateTimesInList_chained (zone : TimeZone) (off horizon : Z)
    (clock : nat → Date) (list : RoutineList.t) (fromIndex : nat) :
  quietClock zone off horizon clock →
  durationsInRange horizon (RoutineList.routines list) = true →
  anchorInRange zone clock (RoutineList.routines list) fromIndex = true →
  ∃ rs',
    recalculateTimesInList zone clock list fromIndex
    = Known (RoutineList.mk (RoutineList.id list) (RoutineList.title list) rs')
    ∧ length rs' = length (RoutineList.routines list)
    ∧ (∀ i, (i < fromIndex)%nat → rs' !! i = RoutineList.routines list !! i)
    ∧ (∀ i r0, (fromIndex < i)%nat →
         RoutineList.routines list !! i = Some r0 →
         ∃ p r, rs' !! (i - 1)%nat = Some p ∧ rs' !! i = Some r
                ∧ follows p r ∧ retimed r0 r).
Proof.
  intros Hq Hdur Hanchor.
  destruct (recalculate_chain zone off horizon clock Hq list fromIndex Hdur
              Hanchor)
    as (rs' & Hrun & Hlen & Hbefore & Hre & Hfol).
  exists rs'. split; [done |]. split; [done |]. split; [done |].
  intros i r0 Hi Hr0.
  destruct (Hfol i r0 Hi Hr0) as (p & r & Hp & Hr & Hf).
  destruct (Hre i r0 ltac:(lia) Hr0) as (r' & Hr' & Hret).
  assert (r' = r) as -> by congruence. by exists p, r.
Qed.

Lemma recalculateTimesInList_chained_witness :
  ∃ rs',
    recalculateTimesInList europeBerlin2026 (λ _, 1793610000000)
      (RoutineList.mk "l1" "Morning"
         [Routine.mk "r1" "A" "08:00:00" 600 "08:25:00";
          Routine.mk "r2" "B" "08:25:00" 900 "08:40:00";
          Routine.mk "r3" "C" "08:40:00" 86000 "08:33:20"]) 0
    = Known (RoutineList.mk "l1" "Morning" rs')
    ∧ length rs' = 3%nat
    ∧ (∀ i, (i < 0)%nat →
         rs' !! i
         = [Routine.mk "r1" "A" "08:00:00" 600 "08:25:00";
            Routine.mk "r2" "B" "08:25:00" 900 "08:40:00";
            Routine.mk "r3" "C" "08:40:00" 86000 "08:33:20"] !! i)
    ∧ (∀ i r0, (0 < i)%nat →
         [Routine.mk "r1" "A" "08:00:00" 600 "08:25:00";
          Routine.mk "r2" "B" "08:25:00" 900 "08:40:00";
          Routine.mk "r3" "C" "08:40:00" 86000 "08:33:20"] !! i = Some r0 →
         ∃ p r, rs' !! (i - 1)%nat = Some p ∧ rs' !! i = Some r
                ∧ follows p r ∧ retimed r0 r).
Proof.
  exact (recalculateTimesInList_chained europeBerlin2026 3600000 86400
           (λ _, 1793610000000)
           (RoutineList.mk "l1" "Morning"
              [Routine.mk "r1" "A" "08:00:00" 600 "08:25:00";
               Routine.mk "r2" "B" "08:25:00" 900 "08:40:00";
               Routine.mk "r3" "C" "08:40:00" 86000 "08:33:20"]) 0
           (λ _, quiet_europeBerlin2026 86400 1793610000000 eq_refl)
           eq_refl eq_refl).
Defined.

(** * Deleting a routine *)






Lemma findIndex_found {A : Type} (p : A → bool) (l : list A) :
  0 ≤ findIndex p l →
  ∃ x, l !! Z.to_nat (findIndex p l) = Some x ∧ p x = true
       ∧ ∀ j y, (j < Z.to_nat (findIndex p l))%nat → l !! j = Some y →
                p y = false.
Proof.
  induction l as [|a l IH]; cbn [findIndex]; [lia |].
  destruct (p a) eqn:Ha.
  - intros _. exists a. split; [done |]. split; [done |]. intros j y Hj. lia.
  - destruct (Z.ltb_spec (findIndex p l) 0) as [Hneg|Hpos]; [lia |].
    intros _. destruct (IH Hpos) as (x & Hx & Hpx & Hbefore).
    exists x. replace (Z.to_nat (findIndex p l + 1))
      with (S (Z.to_nat (findIndex p l))) by lia.
    split; [done |]. split; [done |].
    intros [|j] y Hj Hy.
    + by injection Hy as <-.
    + apply (Hbefore j y); [lia | done].
Qed.

Lemma findIndex_range {A : Type} (p : A → bool) (l : list A) :
  -1 ≤ findIndex p l < Z.of_nat (length l).
Proof.
  induction l as [|a l IH]; cbn [findIndex length]; [lia |].
  destruct (p a); [lia |].
  destruct (Z.ltb_spec (findIndex p l) 0); lia.
Qed.

(** The first match is found where it is. *)
Lemma findIndex_first {A : Type} (p : A → bool) (l : list A) (k : nat) (x : A) :
  l !! k = Some x → p x = true →
  (∀ j y, (j < k)%nat → l !! j = Some y → p y = false) →
  findIndex p l = Z.of_nat k.
Proof.
  revert k. induction l as [|a l IH]; intros k Hx Hp Hbefore; [done |].
  cbn [findIndex]. destruct k as [|k].
  - injection Hx as ->. by rewrite Hp.
  - rewrite (Hbefore 0%nat a) by (done || lia).
    assert (findIndex p l = Z.of_nat k) as ->.
    { apply IH; [done | done |].
      intros j y Hj Hy. apply (Hbefore (S j) y); [lia | done]. }
    rewrite (proj2 (Z.ltb_ge _ _)) by lia. lia.
Qed.

Lemma filter_delete {A : Type} (p : A → bool) (l : list A) (k : nat) :
  findIndex p l = Z.of_nat k →
  forallb (λ x, negb (p x)) (delete k l) = true →
  List.filter (λ x, negb (p x)) l = delete k l.
Proof.
  intros Hfind Hrest.
  destruct (findIndex_found p l) as (x & Hx & Hpx & _); [lia |].
  rewrite Hfind, Nat2Z.id in Hx.
  rewrite <- (take_drop_middle l k x Hx) at 1.
  rewrite List.filter_app. cbn [List.filter]. rewrite Hpx. cbn [negb].
  rewrite delete_take_drop in Hrest |- *.
  rewrite forallb_app in Hrest. apply andb_prop in Hrest as [H1 H2].
  by rewrite !forallb_filter_id.
Qed.



(** * More about the codec *)

Lemma parse_formatTimeLeft (n : Z) :
  0 ≤ n ≤ MAX_EXACT →
  parseDurationToSeconds (formatTimeLeft n) = Known (Some n).
Proof.
  intros Hn. rewrite formatTimeLeft_unfold. cbv zeta.
  replace (Z.max 0 n) with n by lia.
  pose proof (minutes_field_bounds n) as Hm.
  pose proof (seconds_field_bounds n) as Hs.
  pose proof (Z.div_mod n 3600 ltac:(lia)) as E1.
  pose proof (Z.div_mod (n mod 3600) 60 ltac:(lia)) as E2.
  rewrite Z.mod_mod_divide in E2 by (exists 60; lia).
  assert (0 ≤ n / 3600) as Hh by (apply Z.div_pos; lia).
  destruct (Z.ltb_spec 0 (n / 3600)) as [Hpos|Hzero].
  - rewrite (parse_three_fields _ _ _ (n / 3600) (n mod 3600 / 60) (n mod 60)).
    + f_equal. f_equal. lia.
    + apply pad2_padded. lia.
    + apply pad2_padded. lia.
    + apply pad2_padded. lia.
    + lia.
  - rewrite (parse_two_fields _ _ (n mod 3600 / 60) (n mod 60)).
    + f_equal. f_equal. lia.
    + apply pad2_padded. lia.
    + apply pad2_padded. lia.
    + lia.
Qed.

Lemma formatDuration_as_formatTimeLeft (n : Z) :
  60 ≤ n → formatDuration n = formatTimeLeft n.
Proof.
  intros Hn. rewrite formatDuration_unfold, formatTimeLeft_unfold. cbv zeta.
  replace (Z.max 0 n) with n by lia.
  destruct (Z.ltb_spec 0 (n / 3600)) as [Hpos|Hzero]; [done |].
  assert (0 < n mod 3600 / 60) as Hmin.
  { assert (n / 3600 = 0) as Hz
      by (pose proof (Z.div_pos n 3600 ltac:(lia) ltac:(lia)); lia).
    pose proof (Z.div_mod n 3600 ltac:(lia)) as E1. rewrite Hz in E1.
    replace (n mod 3600) with n by lia. apply Z.div_str_pos. lia. }
  by rewrite (proj2 (Z.ltb_lt _ _) Hmin).
Qed.

Lemma formatDuration_bare_seconds_rejected (n : Z) :
  0 ≤ n < 60 → parseDurationToSeconds (formatDuration n) = Known None.
Proof.
  intros Hn. replace n with (Z.of_nat (Z.to_nat n)) by lia.
  assert (Z.to_nat n < 60)%nat as Hk by lia.
  generalize dependent (Z.to_nat n). clear. intros k Hk.
  do 60 (destruct k as [|k]; [vm_compute; reflexivity |]). lia.
Qed.

(** X1. The text [formatTimeLeft] shows for a countdown parses back to the
    same number of seconds, also under a minute. *)
Theorem formatTimeLeft_parses_back (n : Z) :
  0 ≤ n ≤ MAX_EXACT →
  parseDurationToSeconds (formatTimeLeft n) = Known (Some n).
Proof. apply parse_formatTimeLeft. Qed.

Lemma formatTimeLeft_parses_back_witness :
  0 ≤ 45 ≤ MAX_EXACT
  ∧ parseDurationToSeconds (formatTimeLeft 45) = Known (Some 45).
Proof.
  assert (0 ≤ 45 ≤ MAX_EXACT) as H by (unfold MAX_EXACT; lia).
  split; [exact H | exact (formatTimeLeft_parses_back 45 H)].
Defined.

(** X2. The duration editor is opened on [formatDuration] of the routine's
    duration. Saved as it stands, that text gives the duration back when it
    is a minute or more, and is rejected when it is under a minute: the
    parser has no reading for the bare-seconds form. *)
Theorem handleSaveDuration_of_prefill (listId : string) (routine : Routine.t) :
  0 ≤ Routine.durationSeconds routine ≤ MAX_EXACT →
  handleSaveDuration listId routine
    (formatDuration (Routine.durationSeconds routine))
  = Known (if Routine.durationSeconds routine <? 60 then None
           else Some (listId, Routine.id routine,
                      Routine.durationSeconds routine)).
Proof.
  intros Hd. unfold handleSaveDuration.
  destruct (Z.ltb_spec (Routine.durationSeconds routine) 60) as [Hlt|Hge].
  - by rewrite formatDuration_bare_seconds_rejected by lia.
  - rewrite formatDuration_as_formatTimeLeft, parse_formatTimeLeft by lia.
    cbn [mbind tracked_bind].
    by rewrite (proj2 (Z.leb_le _ _)) by lia.
Qed.

Lemma handleSaveDuration_of_prefill_witness :
  handleSaveDuration "l1" (Routine.mk "r1" "A" "08:00:00" 45 "08:00:45")
    (formatDuration 45)
  = Known None.
Proof.
  exact (handleSaveDuration_of_prefill "l1"
           (Routine.mk "r1" "A" "08:00:00" 45 "08:00:45")
           ltac:(unfold MAX_EXACT; simpl; lia)).
Defined.

Lemma parseDurationToSeconds_nonneg (input : string) (v : Z) :
  parseDurationToSeconds input = Known (Some v) → 0 ≤ v.
Proof.
  unfold parseDurationToSeconds.
  repeat (match goal with
          | |- context [if ?b then _ else _] => destruct b
          | |- context [JS.Number input] => destruct (JS.Number input)
          | |- context [mapM JS.Number ?l] => destruct (mapM JS.Number l)
          | |- context [exact ?z] => destruct (exact z)
          | |- context [match ?x with JS.NaN => _ | JS.Num _ => _ end] =>
              destruct x
          | |- context [match ?x with [] => _ | _ :: _ => _ end] =>
              destruct x
          end; cbn [mbind tracked_bind]; try done);
    intros [= <-]; lia.
Qed.

(** X3. A whole number of seconds that the parser returns is never
    negative, so the editor's test [newDurationSec >= 0] lets it through: a
    duration of 0, which the form for new routines refuses, can be saved.
    (For a text such as "Infinity:-Infinity" the parser returns NaN, a value
    the model does not follow; the test rejects it.) *)
Theorem handleSaveDuration_accepts_what_parses (listId : string)
    (routine : Routine.t) (editDurationInput : string) (d : Z) :
  parseDurationToSeconds editDurationInput = Known (Some d) →
  handleSaveDuration listId routine editDurationInput
  = Known (Some (listId, Routine.id routine, d))
  ∧ (d = 0 →
     ∀ list name start,
       handleSubmitNewRoutine list name editDurationInput start = Known None).
Proof.
  intros Hparse.
  pose proof (parseDurationToSeconds_nonneg _ _ Hparse) as Hd.
  split.
  - unfold handleSaveDuration. rewrite Hparse. cbn [mbind tracked_bind].
    by rewrite (proj2 (Z.leb_le _ _)).
  - intros -> list name start. unfold handleSubmitNewRoutine.
    rewrite Hparse. cbn [mbind tracked_bind]. simpl. by rewrite orb_true_r.
Qed.

Lemma handleSaveDuration_accepts_what_parses_witness :
  handleSaveDuration "l1" (Routine.mk "r1" "A" "08:00:00" 45 "08:00:45") "0:00"
  = Known (Some ("l1", "r1", 0))
  ∧ (0 = 0 →
     ∀ list name start,
       handleSubmitNewRoutine list name "0:00" start = Known None).
Proof.
  exact (handleSaveDuration_accepts_what_parses "l1"
           (Routine.mk "r1" "A" "08:00:00" 45 "08:00:45") "0:00" 0 eq_refl).
Defined.

(** * More about wall-clock times *)

(** X4. Where the host's clock is quiet, a time text whose fields overflow
    is read with carry and shown within a day: the fields h, m and s, up
    to five days together, give the wall-clock time (3600 h + 60 m + s) mod
    86400, so "25:61:61" is shown as "02:02:01". *)
Theorem parseTimeToDate_carries (zone : TimeZone) (off horizon : Z)
    (now : Date) (A B C : string) (a b c : Z) :
  quiet zone off horizon now →
  digitsValue A = Some a → digitsValue B = Some b → digitsValue C = Some c →
  a * 3600 + b * 60 + c ≤ 5 * secondsPerDay →
  ∃ date,
    parseTimeToDate zone now (A +:+ ":" +:+ B +:+ ":" +:+ C) = Known date
    ∧ formatTimeFromDate zone date
      = wallClock ((a * 3600 + b * 60 + c) mod secondsPerDay).
Proof.
  intros Hq HA HB HC Hsum. eexists. split.
  - exact (parseTimeToDate_fields zone off horizon now A B C a b c Hq
             HA HB HC Hsum).
  - apply (formatTimeFromDate_seconds zone off horizon now _ Hq).
    destruct (digitsValue_digits _ _ HA) as (_ & _ & Ha0).
    destruct (digitsValue_digits _ _ HB) as (_ & _ & Hb0).
    destruct (digitsValue_digits _ _ HC) as (_ & _ & Hc0).
    lia.
Qed.

Lemma parseTimeToDate_carries_witness :
  ∃ date,
    parseTimeToDate europeBerlin2026 1793610000000 "25:61:61" = Known date
    ∧ formatTimeFromDate europeBerlin2026 date = "02:02:01".
Proof.
  exact (parseTimeToDate_carries europeBerlin2026 3600000 86400
           1793610000000 "25" "61" "61" 25 61 61
           (quiet_europeBerlin2026 86400 1793610000000 eq_refl)
           eq_refl eq_refl eq_refl ltac:(unfold secondsPerDay; lia)).
Defined.

(** X5. Where the host's clock is quiet, formatting any date and parsing
    the text back keeps the time of day to the second and drops the rest:
    the date that comes back is on the current local day, with no
    milliseconds, and shows the same time. *)
Theorem parseTimeToDate_formatTimeFromDate (zone : TimeZone)
    (off horizon : Z) (now date : Date) :
  quiet zone off horizon now →
  ∃ d,
    parseTimeToDate zone now (formatTimeFromDate zone date) = Known d
    ∧ LocalTime zone d
      = Day (LocalTime zone now) * msPerDay
        + (LocalTime zone date / 1000) mod secondsPerDay * 1000
    ∧ formatTimeFromDate zone d = formatTimeFromDate zone date.
Proof.
  intros Hq. rewrite formatTimeFromDate_wallClock.
  set (t := (LocalTime zone date / 1000) mod secondsPerDay).
  assert (0 ≤ t < secondsPerDay) as Ht
    by (apply Z.mod_pos_bound; unfold secondsPerDay; lia).
  exists (dateAt zone now t).
  split; [by apply (parseTimeToDate_wallClock zone off horizon) |].
  split.
  - rewrite (LocalTime_dateAt zone off horizon now t Hq)
      by (unfold secondsPerDay in *; lia).
    by rewrite (quiet_LocalTime_now zone off horizon now Hq).
  - by apply (formatTimeFromDate_timeOfDay zone off horizon).
Qed.

Lemma parseTimeToDate_formatTimeFromDate_witness :
  ∃ d,
    parseTimeToDate europeBerlin2026 1793610000000
      (formatTimeFromDate europeBerlin2026 1774747800123)
    = Known d
    ∧ LocalTime europeBerlin2026 d
      = Day (LocalTime europeBerlin2026 1793610000000) * msPerDay
        + (LocalTime europeBerlin2026 1774747800123 / 1000)
          mod secondsPerDay * 1000
    ∧ formatTimeFromDate europeBerlin2026 d
      = formatTimeFromDate europeBerlin2026 1774747800123.
Proof.
  exact (parseTimeToDate_formatTimeFromDate europeBerlin2026 3600000 86400
           1793610000000 1774747800123
           (quiet_europeBerlin2026 86400 1793610000000 eq_refl)).
Defined.

(** X6. Where the host's clock is quiet, [addSecondsToDate] carries no day
    into what is shown: the time shown after adding a duration is the time
    shown before plus the duration modulo 24 hours, so an end time can read
    earlier than its start, and whole days added change nothing. *)
Theorem addSecondsToDate_wraps (zone : TimeZone) (off horizon : Z)
    (now date : Date) (seconds : Z) :
  quiet zone off horizon now →
  startDateInRange now (Known date) = true →
  durationInRange horizon seconds = true →
  ∃ e, addSecondsToDate date seconds = Known e
       ∧ formatTimeFromDate zone e
         = wallClock (((LocalTime zone date / 1000) mod secondsPerDay
                       + seconds) mod secondsPerDay)
       ∧ (seconds mod secondsPerDay = 0 →
          formatTimeFromDate zone e = formatTimeFromDate zone date).
Proof.
  intros Hq Hd Hs.
  destruct (addSecondsToDate_wallClock zone off horizon now date seconds
              Hq Hd Hs) as (e & He & Hf).
  exists e. split; [done |]. rewrite Hf, formatTimeFromDate_wallClock.
  unfold wallClockAdd, secondsPerDay. split.
  - f_equal. by rewrite Zplus_mod_idemp_l.
  - intros Hz. f_equal.
    rewrite <- Zplus_mod_idemp_r, Hz, Z.add_0_r. reflexivity.
Qed.

Lemma addSecondsToDate_wraps_witness :
  ∃ e, addSecondsToDate 1793659800000 600 = Known e
       ∧ formatTimeFromDate europeBerlin2026 e
         = wallClock (((LocalTime europeBerlin2026 1793659800000 / 1000)
                       mod secondsPerDay + 600) mod secondsPerDay)
       ∧ (600 mod secondsPerDay = 0 →
          formatTimeFromDate europeBerlin2026 e
          = formatTimeFromDate europeBerlin2026 1793659800000).
Proof.
  exact (addSecondsToDate_wraps europeBerlin2026 3600000 86400
           1793610000000 1793659800000 600
           (quiet_europeBerlin2026 86400 1793610000000 eq_refl)
           eq_refl eq_refl).
Defined.

(** * Settled schedules *)

Lemma timeOfDay_spec (s : string) (t : Z) :
  timeOfDay s = Some t ↔ 0 ≤ t < secondsPerDay ∧ s = wallClock t.
Proof.
  unfold timeOfDay. split.
  - destruct (parseTimeToDate utc 0 s) as [d|]; [| done].
    destruct (Z.leb_spec 0 d); [| done].
    destruct (Z.ltb_spec d 86400000); [| done].
    destruct (String.eqb_spec (formatTimeFromDate utc d) s) as [Hs|];
      [| done].
    cbn [andb]. intros [= <-]. unfold secondsPerDay.
    assert (0 ≤ d / 1000 < 86400) as Hb
      by (split; [apply Z.div_pos; lia | apply Z.div_lt_upper_bound; lia]).
    split; [done |].
    rewrite <- Hs, formatTimeFromDate_wallClock, LocalTime_utc.
    unfold secondsPerDay. by rewrite Z.mod_small.
  - intros [Ht ->].
    rewrite (parseTimeToDate_wallClock utc 0 0 0 t quiet_utc Ht).
    rewrite (formatTimeFromDate_timeOfDay utc 0 0 0 t quiet_utc Ht).
    rewrite dateAt_utc. unfold secondsPerDay in Ht.
    rewrite String.eqb_refl, (proj2 (Z.leb_le _ _)), (proj2 (Z.ltb_lt _ _))
      by lia.
    cbn [andb]. by rewrite Z.div_mul by lia.
Qed.

Lemma settledAfter_lookup (rs : list Routine.t) :
  ∀ prevEnd,
    settledAfter prevEnd rs = true ↔
    ∀ k r, rs !! k = Some r →
           settledAt (match k with O => prevEnd | S _ => endBefore rs k end) r.
Proof.
  induction rs as [|r0 rs IH]; intros prevEnd; [done |].
  cbn [settledAfter]. split.
  - destruct (timeOfDay (Routine.startTime r0)) as [t|] eqn:Ht; [| done].
    apply timeOfDay_spec in Ht as [Ht Hstart].
    intros [[Hprev Hend%String.eqb_eq]%andb_prop Hrest]%andb_prop.
    rewrite IH in Hrest.
    intros [|k] r Hr.
    + injection Hr as <-. exists t. split; [done |]. split; [done |].
      split; [done |]. intros e ->. apply String.eqb_eq in Hprev. congruence.
    + specialize (Hrest k r Hr). destruct k as [|k]; exact Hrest.
  - intros H.
    destruct (H 0%nat r0 eq_refl) as (t & Ht & Hstart & Hend & Hprev).
    rewrite (proj2 (timeOfDay_spec _ t)) by done.
    apply andb_true_intro. split; [apply andb_true_intro; split |].
    + destruct prevEnd as [e|]; [| done].
      apply String.eqb_eq. rewrite Hstart. by apply Hprev.
    + by apply String.eqb_eq.
    + apply IH. intros k r Hr. specialize (H (S k) r Hr).
      destruct k as [|k]; exact H.
Qed.

Lemma settled_lookup (rs : list Routine.t) :
  settled rs = true ↔
  ∀ k r, rs !! k = Some r → settledAt (endBefore rs k) r.
Proof.
  unfold settled. rewrite settledAfter_lookup.
  split; intros H k r Hr; specialize (H k r Hr); by destruct k.
Qed.

Lemma routine_eta (r : Routine.t) :
  Routine.mk (Routine.id r) (Routine.name r) (Routine.startTime r)
    (Routine.durationSeconds r) (Routine.endTime r) = r.
Proof. by destruct r. Qed.

Lemma list_eta (l : RoutineList.t) :
  RoutineList.mk (RoutineList.id l) (RoutineList.title l)
    (RoutineList.routines l) = l.
Proof. by destruct l. Qed.

Lemma formatTimeFromDate_nonempty zone (date : Date) :
  formatTimeFromDate zone date ≠ "".
Proof. rewrite formatTimeFromDate_wallClock. apply wallClock_nonempty. Qed.

(** On a settled schedule with durations in range, a turn of the loop
    rewrites an element to itself. *)
Lemma recalculateStep_settled zone off horizon clock
    (Hq : quietClock zone off horizon clock)
    (rs : list Routine.t) (i : nat) :
  settled rs = true → durationsInRange horizon rs = true →
  recalculateStep zone clock rs i = Known rs.
Proof.
  rewrite settled_lookup, durationsInRange_lookup. intros Hset Hdur.
  unfold recalculateStep. destruct (rs !! i) as [r|] eqn:Hr; [| done].
  destruct (Hset i r Hr) as (t & Ht & Hstart & Hend & Hprev).
  assert (currentStartTimeDateAt zone clock rs i r
          = Known (dateAt zone (clock i) t)) as ->.
  { unfold currentStartTimeDateAt. destruct i as [|i]; cbn [Nat.eqb].
    - rewrite Hstart. by apply (parseTimeToDate_wallClock zone off horizon).
    - replace (S i - 1)%nat with i by lia.
      destruct (lookup_lt_is_Some_2 rs i) as [p Hp];
        [apply lookup_lt_Some in Hr; lia |].
      rewrite Hp. cbn [endBefore] in Hprev. rewrite Hp in Hprev.
      rewrite (Hprev _ eq_refl).
      rewrite (proj2 (String.eqb_neq _ _) (wallClock_nonempty t)).
      by apply (parseTimeToDate_wallClock zone off horizon). }
  cbn [mbind tracked_bind].
  destruct (addSecondsToDate_dateAt zone off horizon (clock i) t
              (Routine.durationSeconds r) (Hq i) Ht (Hdur _ _ Hr))
    as (e & -> & Hf).
  cbn [mbind tracked_bind].
  rewrite Hf, (formatTimeFromDate_timeOfDay zone off horizon _ t (Hq i) Ht).
  rewrite <- Hstart, <- Hend, routine_eta. by rewrite list_insert_id.
Qed.

Lemma recalculate_loop_settled zone off horizon clock
    (Hq : quietClock zone off horizon clock)
    (rs : list Routine.t) (indices : list nat) :
  settled rs = true → durationsInRange horizon rs = true →
  forEachIndex (recalculateStep zone clock) rs indices = Known rs.
Proof.
  intros Hset Hdur. induction indices as [|i rest IH]; [done |].
  cbn [forEachIndex].
  by rewrite (recalculateStep_settled zone off horizon clock Hq).
Qed.

(** X7. Where the host's clock is quiet, a settled schedule is a fixed
    point of the recalculation: from whatever index it is run, it returns
    the list as given. *)
Theorem recalculateTimesInList_settled_fixed (zone : TimeZone)
    (off horizon : Z) (clock : nat → Date) (list : RoutineList.t)
    (startIndex : nat) :
  quietClock zone off horizon clock →
  settled (RoutineList.routines list) = true →
  durationsInRange horizon (RoutineList.routines list) = true →
  recalculateTimesInList zone clock list startIndex = Known list.
Proof.
  intros Hq Hset Hdur. unfold recalculateTimesInList.
  destruct (Nat.eqb_spec (length (RoutineList.routines list)) 0) as [Hz|Hnz].
  - apply nil_length_inv in Hz. rewrite <- Hz. by rewrite list_eta.
  - rewrite (recalculate_loop_settled zone off horizon clock Hq) by done.
    cbn [mbind tracked_bind]. by rewrite list_eta.
Qed.

Lemma recalculateTimesInList_settled_fixed_witness :
  recalculateTimesInList europeBerlin2026 (λ _, 1793610000000)
    (RoutineList.mk "l1" "Morning"
       [Routine.mk "r1" "A" "23:50:00" 600 "00:00:00";
        Routine.mk "r2" "B" "00:00:00" 900 "00:15:00"]) 1
  = Known (RoutineList.mk "l1" "Morning"
             [Routine.mk "r1" "A" "23:50:00" 600 "00:00:00";
              Routine.mk "r2" "B" "00:00:00" 900 "00:15:00"]).
Proof.
  exact (recalculateTimesInList_settled_fixed europeBerlin2026 3600000 86400
           (λ _, 1793610000000)
           (RoutineList.mk "l1" "Morning"
              [Routine.mk "r1" "A" "23:50:00" 600 "00:00:00";
               Routine.mk "r2" "B" "00:00:00" 900 "00:15:00"]) 1
           (λ _, quiet_europeBerlin2026 86400 1793610000000 eq_refl)
           eq_refl eq_refl).
Defined.

Lemma endBefore_take (rs : list Routine.t) (s k : nat) :
  (k ≤ s)%nat → endBefore (take s rs) k = endBefore rs k.
Proof.
  intros Hk. destruct k as [|k]; [done |]. cbn [endBefore].
  by rewrite lookup_take_lt by lia.
Qed.

(** Behind a settled prefix the recalculation starts from the date of the
    time of day at which the prefix ends. *)
Lemma anchor_behind_settled zone off horizon clock
    (Hq : quietClock zone off horizon clock)
    (rs : list Routine.t) (s : nat) (p r : Routine.t) (t : Z) :
  rs !! s = Some p → rs !! S s = Some r →
  0 ≤ t < secondsPerDay → Routine.endTime p = wallClock t →
  currentStartTimeDateAt zone clock rs (S s) r
  = Known (dateAt zone (clock (S s)) t).
Proof.
  intros Hp Hr Ht Hend. unfold currentStartTimeDateAt. cbn [Nat.eqb].
  replace (S s - 1)%nat with s by lia. rewrite Hp, Hend.
  rewrite (proj2 (String.eqb_neq _ _) (wallClock_nonempty _)).
  by apply (parseTimeToDate_wallClock zone off horizon).
Qed.

(** A recalculation behind a settled prefix settles the whole schedule. *)
Lemma recalculate_settles zone off horizon clock
    (Hq : quietClock zone off horizon clock)
    (list : RoutineList.t) (startIndex : nat) :
  settled (take startIndex (RoutineList.routines list)) = true →
  durationsInRange horizon (RoutineList.routines list) = true →
  (startIndex = 0%nat →
   anchorInRange zone clock (RoutineList.routines list) 0 = true) →
  ∃ rs',
    recalculateTimesInList zone clock list startIndex
    = Known (RoutineList.mk (RoutineList.id list) (RoutineList.title list) rs')
    ∧ settled rs' = true
    ∧ durationsInRange horizon rs' = true
    ∧ length rs' = length (RoutineList.routines list)
    ∧ (∀ k, (k < startIndex)%nat → rs' !! k = RoutineList.routines list !! k)
    ∧ (∀ k r0, RoutineList.routines list !! k = Some r0 →
         ∃ r, rs' !! k = Some r ∧ retimed r0 r).
Proof.
  set (rs := RoutineList.routines list). intros Hprefix Hdur Hanchor0.
  rewrite settled_lookup in Hprefix.
  assert (∀ k r, (k < startIndex)%nat → rs !! k = Some r →
                 settledAt (endBefore rs k) r) as Hpre.
  { intros k r Hk Hr. rewrite <- (endBefore_take rs startIndex k) by lia.
    apply Hprefix. by rewrite lookup_take_lt. }
  assert (anchorInRange zone clock rs startIndex = true) as Hanchor.
  { destruct startIndex as [|s]; [by apply Hanchor0 |].
    unfold anchorInRange. destruct (rs !! S s) as [r|] eqn:Hr; [| done].
    destruct (lookup_lt_is_Some_2 rs s) as [p Hp];
      [apply lookup_lt_Some in Hr; lia |].
    destruct (Hpre s p ltac:(lia) Hp) as (t & Ht & _ & Hend & _).
    pose proof (wallClockAdd_bounds t (Routine.durationSeconds p)) as Hb.
    rewrite (anchor_behind_settled zone off horizon clock Hq rs s p r _
               Hp Hr Hb Hend).
    by apply (timeOfDay_in_range zone off horizon). }
  destruct (recalculate_chain zone off horizon clock Hq list startIndex Hdur
              Hanchor)
    as (rs' & Hrun & Hlen & Hbefore & Hre & Hfol).
  fold rs in Hlen, Hbefore, Hre, Hfol.
  assert (∀ k r0, rs !! k = Some r0 → ∃ r, rs' !! k = Some r ∧ retimed r0 r)
    as Hall.
  { intros k r0 Hr0. destruct (decide (k < startIndex)%nat) as [Hk|Hk].
    - exists r0. rewrite Hbefore by done. by repeat split.
    - apply Hre; [lia | done]. }
  exists rs'. split; [done |]. split; [| split; [| by repeat split]].
  - apply settled_lookup. intros k r Hr.
    destruct (lt_eq_lt_dec k startIndex) as [[Hk | ->] | Hk].
    + rewrite Hbefore in Hr by done.
      replace (endBefore rs' k) with (endBefore rs k); [by apply Hpre |].
      destruct k as [|k]; [done |]. cbn [endBefore].
      by rewrite Hbefore by lia.
    + destruct (lookup_lt_is_Some_2 rs startIndex) as [r0 Hr0];
        [apply lookup_lt_Some in Hr; lia |].
      destruct (recalculate_first_element zone clock list _ startIndex r0
                  Hrun Hr0)
        as (d & e & Hd & He & Hnew).
      cbn [RoutineList.routines] in Hnew.
      assert (r = Routine.mk (Routine.id r0) (Routine.name r0)
                    (formatTimeFromDate zone d) (Routine.durationSeconds r0)
                    (formatTimeFromDate zone e)) as -> by congruence.
      assert (startDateInRange (clock startIndex) (Known d) = true) as Hdr.
      { unfold anchorInRange in Hanchor. fold rs in Hd.
        by rewrite Hr0, Hd in Hanchor. }
      rewrite durationsInRange_lookup in Hdur.
      destruct (addSecondsToDate_wallClock zone off horizon (clock startIndex)
                  d _ (Hq startIndex) Hdr (Hdur _ _ Hr0))
        as (e' & He' & Hf).
      assert (e' = e) as -> by congruence.
      exists ((LocalTime zone d / 1000) mod secondsPerDay). cbn.
      split; [apply Z.mod_pos_bound; unfold secondsPerDay; lia |].
      split; [apply formatTimeFromDate_wallClock |].
      split; [by rewrite Hf, wallClockAdd_mod |].
      intros x Hx. destruct startIndex as [|s]; [done |].
      cbn [endBefore] in Hx. rewrite Hbefore in Hx by lia.
      destruct (rs !! s) as [p|] eqn:Hp; [| done].
      injection Hx as <-.
      destruct (Hpre s p ltac:(lia) Hp) as (t & Ht & _ & Hend & _).
      pose proof (wallClockAdd_bounds t (Routine.durationSeconds p)) as Hb.
      fold rs in Hd.
      rewrite (anchor_behind_settled zone off horizon clock Hq rs s p r0 _
                 Hp Hr0 Hb Hend) in Hd.
      injection Hd as <-. rewrite Hend.
      rewrite (localSeconds_dateAt zone off horizon _ _ (Hq (S s)))
        by (unfold secondsPerDay in *; lia).
      by rewrite Z.mod_small.
    + destruct (lookup_lt_is_Some_2 rs k) as [r0 Hr0];
        [apply lookup_lt_Some in Hr; lia |].
      destruct (Hfol k r0 Hk Hr0) as (p & r' & Hp & Hr' & t & Ht & Hpe & Hs & He).
      assert (r' = r) as -> by congruence.
      exists t. split; [done |]. split; [done |]. split; [done |].
      intros x Hx. destruct k as [|k]; [lia |].
      cbn [endBefore] in Hx. replace (S k - 1)%nat with k in Hp by lia.
      rewrite Hp in Hx. injection Hx as <-. done.
  - apply durationsInRange_lookup. intros k r Hr.
    destruct (lookup_lt_is_Some_2 rs k) as [r0 Hr0];
      [apply lookup_lt_Some in Hr; lia |].
    destruct (Hall k r0 Hr0) as (r' & Hr' & _ & _ & Hd').
    assert (r' = r) as -> by congruence. rewrite Hd'.
    rewrite durationsInRange_lookup in Hdur. eauto.
Qed.

(** X8. Where the host's clock is quiet, recalculating a whole schedule
    settles it: every routine, the first included, starts at a time of day
    in HH:MM:SS, ends at its start plus its duration on the wall clock, and
    starts when the one before it ends. Recalculating the result again, from
    any index and at any quiet time, changes nothing. *)
Theorem recalculateTimesInList_settles_whole (zone : TimeZone)
    (off horizon : Z) (clock : nat → Date) (list : RoutineList.t) :
  quietClock zone off horizon clock →
  durationsInRange horizon (RoutineList.routines list) = true →
  anchorInRange zone clock (RoutineList.routines list) 0 = true →
  ∃ list',
    recalculateTimesInList zone clock list 0 = Known list'
    ∧ settled (RoutineList.routines list') = true
    ∧ ∀ clock' startIndex,
        quietClock zone off horizon clock' →
        recalculateTimesInList zone clock' list' startIndex = Known list'.
Proof.
  intros Hq Hdur Hanchor.
  destruct (recalculate_settles zone off horizon clock Hq list 0 eq_refl Hdur
              (λ _, Hanchor))
    as (rs' & Hrun & Hset & Hdur' & _).
  eexists. split; [exact Hrun |]. split; [done |].
  intros clock' s Hq'. unfold recalculateTimesInList.
  cbn [RoutineList.routines RoutineList.id RoutineList.title].
  destruct (Nat.eqb_spec (length rs') 0) as [Hz|Hnz].
  - apply nil_length_inv in Hz. by rewrite <- Hz.
  - rewrite (recalculate_loop_settled zone off horizon clock' Hq') by done.
    done.
Qed.

Lemma recalculateTimesInList_settles_whole_witness :
  ∃ list',
    recalculateTimesInList europeBerlin2026 (λ _, 1793610000000)
      (RoutineList.mk "l1" "Morning"
         [Routine.mk "r1" "A" "9:5" 600 "";
          Routine.mk "r2" "B" "" 900 "12:00:00"]) 0
    = Known list'
    ∧ settled (RoutineList.routines list') = true
    ∧ ∀ clock' startIndex,
        quietClock europeBerlin2026 3600000 86400 clock' →
        recalculateTimesInList europeBerlin2026 clock' list' startIndex
        = Known list'.
Proof.
  exact (recalculateTimesInList_settles_whole europeBerlin2026 3600000 86400
           (λ _, 1793610000000)
           (RoutineList.mk "l1" "Morning"
              [Routine.mk "r1" "A" "9:5" 600 "";
               Routine.mk "r2" "B" "" 900 "12:00:00"])
           (λ _, quiet_europeBerlin2026 86400 1793610000000 eq_refl)
           eq_refl eq_refl).
Defined.

(** * The recalculation and the clock *)

(** The first turn of the loop on a list that starts at a time of day. *)
Lemma recalculateStep_first zone off horizon clock
    (Hq : quietClock zone off horizon clock)
    (rs : list Routine.t) r t :
  rs !! 0%nat = Some r → Routine.startTime r = wallClock t →
  0 ≤ t < secondsPerDay →
  durationInRange horizon (Routine.durationSeconds r) = true →
  recalculateStep zone clock rs 0
  = Known (<[0%nat := Routine.mk (Routine.id r) (Routine.name r) (wallClock t)
                        (Routine.durationSeconds r)
                        (wallClock
                           (wallClockAdd t (Routine.durationSeconds r)))]>
             rs).
Proof.
  intros Hr Hstart Ht Hdur.
  unfold recalculateStep, currentStartTimeDateAt. rewrite Hr.
  cbn [Nat.eqb]. rewrite Hstart.
  rewrite (parseTimeToDate_wallClock zone off horizon _ t (Hq 0%nat) Ht).
  cbn [mbind tracked_bind].
  destruct (addSecondsToDate_dateAt zone off horizon _ t
              (Routine.durationSeconds r) (Hq 0%nat) Ht Hdur)
    as (e & He & Hf).
  rewrite He. cbn [mbind tracked_bind].
  by rewrite Hf,
    (formatTimeFromDate_timeOfDay zone off horizon _ t (Hq 0%nat)).
Qed.

(** Behind an element that ends at a time of day, the loop gives the same
    on every host and at every time at which the clock is quiet. *)
Lemma recalculate_loop_clock_free zone off horizon clock zone' off' clock'
    (Hq : quietClock zone off horizon clock)
    (Hq' : quietClock zone' off' horizon clock') (n : nat) :
  ∀ (i : nat) (rs : list Routine.t),
    (1 ≤ i)%nat →
    (∀ k r, rs !! k = Some r →
            durationInRange horizon (Routine.durationSeconds r) = true) →
    (∃ p t, rs !! (i - 1)%nat = Some p ∧ 0 ≤ t < secondsPerDay
            ∧ Routine.endTime p = wallClock t) →
    ∃ rs',
      forEachIndex (recalculateStep zone clock) rs (seq i n) = Known rs'
      ∧ forEachIndex (recalculateStep zone' clock') rs (seq i n) = Known rs'.
Proof.
  induction n as [|n IH]; intros i rs Hi Hdur (p & t & Hp & Ht & Hend).
  - by exists rs.
  - cbn [seq forEachIndex].
    destruct (rs !! i) as [r|] eqn:Hr.
    + rewrite (recalculateStep_chained zone off horizon clock Hq rs i p r t)
        by eauto.
      rewrite (recalculateStep_chained zone' off' horizon clock' Hq' rs i p r
                 t) by eauto.
      cbn [mbind tracked_bind].
      apply IH; [lia | |].
      * intros k x Hx. destruct (decide (k = i)) as [-> | Hne].
        -- rewrite list_lookup_insert_eq in Hx
             by (by eapply lookup_lt_Some).
           injection Hx as <-. simpl. eauto.
        -- rewrite list_lookup_insert_ne in Hx by done. eauto.
      * eexists _, (wallClockAdd t (Routine.durationSeconds r)).
        replace (S i - 1)%nat with i by lia.
        rewrite list_lookup_insert_eq by (by eapply lookup_lt_Some).
        split; [done |]. split; [apply wallClockAdd_bounds | done].
    + apply lookup_ge_None in Hr.
      assert (∀ z c j, (length rs ≤ j)%nat →
                recalculateStep z c rs j = Known rs) as Hnone.
      { intros z c j Hj. unfold recalculateStep.
        by rewrite (lookup_ge_None_2 rs j). }
      assert (∀ z c m j, (length rs ≤ j)%nat →
                forEachIndex (recalculateStep z c) rs (seq j m) = Known rs)
        as Hpast.
      { intros z c m. induction m as [|m IHm]; intros j Hj; [done |].
        cbn [seq forEachIndex]. rewrite Hnone by done.
        cbn [mbind tracked_bind]. apply IHm. lia. }
      rewrite !Hnone by done. cbn [mbind tracked_bind].
      exists rs. by rewrite !Hpast by lia.
Qed.

(** X9. From a time of day, what the recalculation returns does not depend
    on the host or on when it runs, as long as the clock is quiet: started
    at index 0 on a list whose first routine starts at a time of day in
    HH:MM:SS, or behind a routine that ends at one, it gives the same list
    at any two such times. *)
Theorem recalculateTimesInList_clock_free (zone zone' : TimeZone)
    (off off' horizon : Z) (clock clock' : nat → Date)
    (list : RoutineList.t) (startIndex : nat) (a : Routine.t) (t : Z) :
  quietClock zone off horizon clock →
  quietClock zone' off' horizon clock' →
  durationsInRange horizon (RoutineList.routines list) = true →
  (startIndex = 0%nat ∧ RoutineList.routines list !! 0%nat = Some a
   ∧ timeOfDay (Routine.startTime a) = Some t)
  ∨ ((0 < startIndex)%nat
     ∧ RoutineList.routines list !! (startIndex - 1)%nat = Some a
     ∧ timeOfDay (Routine.endTime a) = Some t) →
  ∃ list',
    recalculateTimesInList zone clock list startIndex = Known list'
    ∧ recalculateTimesInList zone' clock' list startIndex = Known list'.
Proof.
  intros Hq Hq' Hdur Hanchor. unfold recalculateTimesInList.
  set (rs := RoutineList.routines list) in *.
  rewrite durationsInRange_lookup in Hdur.
  assert (length rs ≠ 0%nat) as Hne.
  { destruct Hanchor as [(_ & Ha & _) | (_ & Ha & _)];
      apply lookup_lt_Some in Ha; lia. }
  rewrite (proj2 (Nat.eqb_neq _ _) Hne).
  destruct Hanchor as [(-> & Ha & [Ht Hstart]%timeOfDay_spec)
                      | (Hpos & Ha & [Ht Hend]%timeOfDay_spec)].
  - replace (length rs - 0)%nat with (S (length rs - 1)) by lia.
    cbn [seq forEachIndex].
    rewrite (recalculateStep_first zone off horizon clock Hq rs a t)
      by eauto.
    rewrite (recalculateStep_first zone' off' horizon clock' Hq' rs a t)
      by eauto.
    cbn [mbind tracked_bind].
    destruct (recalculate_loop_clock_free zone off horizon clock zone' off'
                clock' Hq Hq' (length rs - 1) 1
                (<[0%nat := Routine.mk (Routine.id a) (Routine.name a)
                              (wallClock t) (Routine.durationSeconds a)
                              (wallClock
                                 (wallClockAdd t
                                    (Routine.durationSeconds a)))]> rs))
      as (rs' & -> & ->); [lia | | | by eexists].
    + intros k x Hx. destruct (decide (k = 0%nat)) as [-> | Hk].
      * rewrite list_lookup_insert_eq in Hx by lia.
        injection Hx as <-. simpl. eauto.
      * rewrite list_lookup_insert_ne in Hx by done. eauto.
    + eexists _, (wallClockAdd t (Routine.durationSeconds a)).
      cbn [Nat.sub]. rewrite list_lookup_insert_eq by lia.
      split; [done |]. split; [apply wallClockAdd_bounds | done].
  - destruct (recalculate_loop_clock_free zone off horizon clock zone' off'
                clock' Hq Hq' (length rs - startIndex) startIndex rs)
      as (rs' & -> & ->); [lia | done | by exists a, t | by eexists].
Qed.

Lemma recalculateTimesInList_clock_free_witness :
  ∃ list',
    recalculateTimesInList europeBerlin2026 (λ _, 1793610000000)
      (RoutineList.mk "l1" "Morning"
         [Routine.mk "r1" "A" "08:00:00" 600 "08:10:00";
          Routine.mk "r2" "B" "" 900 ""]) 1
    = Known list'
    ∧ recalculateTimesInList utc (λ _, 45296789)
        (RoutineList.mk "l1" "Morning"
           [Routine.mk "r1" "A" "08:00:00" 600 "08:10:00";
            Routine.mk "r2" "B" "" 900 ""]) 1
      = Known list'.
Proof.
  exact (recalculateTimesInList_clock_free europeBerlin2026 utc 3600000 0
           86400 (λ _, 1793610000000) (λ _, 45296789)
           (RoutineList.mk "l1" "Morning"
              [Routine.mk "r1" "A" "08:00:00" 600 "08:10:00";
               Routine.mk "r2" "B" "" 900 ""]) 1
           (Routine.mk "r1" "A" "08:00:00" 600 "08:10:00") 29400
           (λ _, quiet_europeBerlin2026 86400 1793610000000 eq_refl)
           (λ _, quiet_fixedZone 0 86400 45296789 eq_refl)
           eq_refl (or_intror (conj (le_n 1) (conj eq_refl eq_refl)))).
Defined.

(** X10. Behind an element whose end time is empty the recalculation falls
    back on the clock: the elements before the start index are kept as they
    are, the element at the start index starts at the current time of day
    and, where the host's clock is quiet, ends its duration later, and the
    cascade goes on from there. *)
Theorem recalculateTimesInList_falls_back_on_clock (zone : TimeZone)
    (off horizon : Z) (clock : nat → Date)
    (list : RoutineList.t) (startIndex : nat) (p r : Routine.t) :
  quietClock zone off horizon clock →
  (0 < startIndex)%nat →
  RoutineList.routines list !! (startIndex - 1)%nat = Some p →
  Routine.endTime p = "" →
  RoutineList.routines list !! startIndex = Some r →
  durationsInRange horizon (RoutineList.routines list) = true →
  ∃ rs',
    recalculateTimesInList zone clock list startIndex
    = Known (RoutineList.mk (RoutineList.id list) (RoutineList.title list) rs')
    ∧ length rs' = length (RoutineList.routines list)
    ∧ (∀ i, (i < startIndex)%nat → rs' !! i = RoutineList.routines list !! i)
    ∧ rs' !! startIndex
      = Some (Routine.mk (Routine.id r) (Routine.name r)
                (formatTimeFromDate zone (clock startIndex))
                (Routine.durationSeconds r)
                (wallClock
                   (wallClockAdd (LocalTime zone (clock startIndex) / 1000)
                      (Routine.durationSeconds r))))
    ∧ (∀ i r0, (startIndex < i)%nat →
         RoutineList.routines list !! i = Some r0 →
         ∃ q x, rs' !! (i - 1)%nat = Some q ∧ rs' !! i = Some x
                ∧ follows q x ∧ retimed r0 x).
Proof.
  intros Hq Hpos Hp Hend Hr Hdur.
  assert (currentStartTimeDateAt zone clock (RoutineList.routines list)
            startIndex r = Known (clock startIndex)) as Hcur.
  { unfold currentStartTimeDateAt.
    rewrite (proj2 (Nat.eqb_neq _ _)) by lia. by rewrite Hp, Hend. }
  assert (startDateInRange (clock startIndex) (Known (clock startIndex))
          = true) as Hclock.
  { unfold startDateInRange, msPerDay. apply Z.leb_le. lia. }
  assert (anchorInRange zone clock (RoutineList.routines list) startIndex
          = true)
    as Hanchor by (unfold anchorInRange; by rewrite Hr, Hcur).
  destruct (recalculate_chain zone off horizon clock Hq list startIndex Hdur
              Hanchor)
    as (rs' & Hrun & Hlen & Hbefore & Hre & Hfol).
  exists rs'. split; [exact Hrun |]. split; [done |]. split; [done |].
  split.
  - destruct (recalculate_first_element zone clock list _ startIndex r Hrun
                Hr)
      as (d & e & Hd & He & Hnew).
    cbn [RoutineList.routines] in Hnew. rewrite Hnew.
    rewrite Hcur in Hd. injection Hd as <-.
    rewrite durationsInRange_lookup in Hdur.
    destruct (addSecondsToDate_wallClock zone off horizon (clock startIndex)
                (clock startIndex) _ (Hq startIndex) Hclock (Hdur _ _ Hr))
      as (e' & He' & Hf).
    assert (e' = e) as -> by congruence. by rewrite Hf.
  - intros i r0 Hi Hr0.
    destruct (Hfol i r0 Hi Hr0) as (q & x & Hq' & Hx & Hf).
    destruct (Hre i r0 ltac:(lia) Hr0) as (x' & Hx' & Hret).
    assert (x' = x) as -> by congruence. by exists q, x.
Qed.

Lemma recalculateTimesInList_falls_back_on_clock_witness :
  ∃ rs',
    recalculateTimesInList europeBerlin2026 (λ _, 1793619296789)
      (RoutineList.mk "l1" "Morning"
         [Routine.mk "r1" "A" "08:00:00" 600 "";
          Routine.mk "r2" "B" "" 900 "";
          Routine.mk "r3" "C" "" 300 ""]) 1
    = Known (RoutineList.mk "l1" "Morning" rs')
    ∧ length rs' = 3%nat
    ∧ (∀ i, (i < 1)%nat →
         rs' !! i
         = [Routine.mk "r1" "A" "08:00:00" 600 "";
            Routine.mk "r2" "B" "" 900 "";
            Routine.mk "r3" "C" "" 300 ""] !! i)
    ∧ rs' !! 1%nat = Some (Routine.mk "r2" "B" "12:34:56" 900 "12:49:56")
    ∧ (∀ i r0, (1 < i)%nat →
         [Routine.mk "r1" "A" "08:00:00" 600 "";
          Routine.mk "r2" "B" "" 900 "";
          Routine.mk "r3" "C" "" 300 ""] !! i = Some r0 →
         ∃ q x, rs' !! (i - 1)%nat = Some q ∧ rs' !! i = Some x
                ∧ follows q x ∧ retimed r0 x).
Proof.
  exact (recalculateTimesInList_falls_back_on_clock europeBerlin2026 3600000
           86400 (λ _, 1793619296789)
           (RoutineList.mk "l1" "Morning"
              [Routine.mk "r1" "A" "08:00:00" 600 "";
               Routine.mk "r2" "B" "" 900 "";
               Routine.mk "r3" "C" "" 300 ""]) 1
           (Routine.mk "r1" "A" "08:00:00" 600 "")
           (Routine.mk "r2" "B" "" 900 "")
           (λ _, quiet_europeBerlin2026 86400 1793619296789 eq_refl)
           ltac:(lia) eq_refl eq_refl eq_refl eq_refl).
Defined.

(** * Tools for the handlers *)

Lemma others_untouched {X : Type} (dflt : RoutineList.t → X) (listId : string)
    (onList : nat → RoutineList.t → tracked X) (ls : list RoutineList.t) :
  forallb (λ l, negb (String.eqb (RoutineList.id l) listId)) ls = true →
  ∀ (k : nat) l, l ∈ ls →
    (if String.eqb (RoutineList.id l) listId then onList k l
     else Known (dflt l)) = Known (dflt l).
Proof.
  intros Hothers k l Hl. rewrite forallb_forall in Hothers.
  apply list_elem_of_In, Hothers in Hl.
  by apply negb_true_iff in Hl as ->.
Qed.

Lemma kept_lists {N : Type} (l : list RoutineList.t) :
  (λ x : RoutineList.t * list timerUpdate * list N, x.1.1)
    <$> ((λ y, (y, [], [])) <$> l) = l.
Proof.
  induction l as [|y l IH]; [done |].
  cbn [fmap list_fmap fst]. f_equal. exact IH.
Qed.

Lemma kept_updates {N : Type} (l : list RoutineList.t) :
  concat ((λ x : RoutineList.t * list timerUpdate * list N, x.1.2)
            <$> ((λ y, (y, [], [])) <$> l)) = [].
Proof.
  induction l as [|y l IH]; [done |].
  cbn [fmap list_fmap concat fst snd app]. exact IH.
Qed.

Lemma kept_notices {N : Type} (l : list RoutineList.t) :
  concat ((λ x : RoutineList.t * list timerUpdate * list N, x.2)
            <$> ((λ y, (y, [], [])) <$> l)) = [].
Proof.
  induction l as [|y l IH]; [done |].
  cbn [fmap list_fmap concat fst snd app]. exact IH.
Qed.

(** [updateMatchingLists] on a collection in which one list has the id. *)
Lemma updateMatchingLists_single {N : Type}
    (onList : nat → RoutineList.t →
              tracked (RoutineList.t * list timerUpdate * list N))
    (listId : string) (st : AppState) (pre post : list RoutineList.t)
    (list list' : RoutineList.t) (updates : Datatypes.list timerUpdate)
    (notices : Datatypes.list N) :
  lists st = pre ++ list :: post →
  RoutineList.id list = listId →
  forallb (λ l, negb (String.eqb (RoutineList.id l) listId)) (pre ++ post)
  = true →
  onList (length pre) list = Known (list', updates, notices) →
  updateMatchingLists onList listId st
  = Known (mkApp (pre ++ list' :: post)
             (foldl applyTimerUpdate (activeRoutineState st) updates),
           notices).
Proof.
  intros Hlists Hid Hothers Hon. unfold updateMatchingLists. rewrite Hlists.
  rewrite (collect_single (λ y, (y, [], [])) pre post list
             (list', updates, notices)).
  - cbn [mbind tracked_bind].
    rewrite !fmap_app, !fmap_cons, !concat_app, !concat_cons.
    rewrite !kept_lists, !kept_updates, !kept_notices.
    cbn [fst snd app]. by rewrite !app_nil_r.
  - intros k l Hl.
    exact (others_untouched (λ y, (y, [], [])) listId onList (pre ++ post)
             Hothers k l Hl).
  - by rewrite (proj2 (String.eqb_eq _ _) Hid).
Qed.

Lemma settled_take (rs : list Routine.t) (s : nat) :
  settled rs = true → settled (take s rs) = true.
Proof.
  rewrite !settled_lookup. intros H k r Hr.
  apply lookup_take_Some in Hr as [Hr Hk].
  rewrite endBefore_take by lia. by apply H.
Qed.

Lemma settled_start (rs : list Routine.t) (k : nat) (r : Routine.t) :
  settled rs = true → rs !! k = Some r →
  ∃ t, 0 ≤ t < secondsPerDay ∧ Routine.startTime r = wallClock t.
Proof.
  rewrite settled_lookup. intros H Hr.
  destruct (H k r Hr) as (t & Ht & Hs & _). eauto.
Qed.

Lemma anchor_of_time_of_day zone off horizon clock
    (Hq : quietClock zone off horizon clock)
    (rs : list Routine.t) (r : Routine.t) t :
  rs !! 0%nat = Some r → 0 ≤ t < secondsPerDay →
  Routine.startTime r = wallClock t →
  anchorInRange zone clock rs 0 = true.
Proof.
  intros Hr Ht Hs. unfold anchorInRange, currentStartTimeDateAt.
  rewrite Hr. cbn [Nat.eqb].
  rewrite Hs, (parseTimeToDate_wallClock zone off horizon _ t (Hq 0%nat) Ht).
  by apply (timeOfDay_in_range zone off horizon).
Qed.

(** The date the recalculation starts from at an element of a settled
    schedule. *)
Lemma anchor_in_settled zone off horizon clock
    (Hq : quietClock zone off horizon clock)
    (rs rs1 : list Routine.t) (k : nat) (r r1 : Routine.t) (t : Z) :
  settled rs = true → rs !! k = Some r →
  0 ≤ t < secondsPerDay → Routine.startTime r = wallClock t →
  Routine.startTime r1 = Routine.startTime r →
  (∀ j, (j < k)%nat → rs1 !! j = rs !! j) →
  currentStartTimeDateAt zone clock rs1 k r1
  = Known (dateAt zone (clock k) t).
Proof.
  intros Hset Hr Ht Hstart Hsame Hbefore.
  unfold currentStartTimeDateAt. destruct k as [|k]; cbn [Nat.eqb].
  - rewrite Hsame, Hstart.
    by apply (parseTimeToDate_wallClock zone off horizon).
  - replace (S k - 1)%nat with k by lia. rewrite Hbefore by lia.
    rewrite settled_lookup in Hset.
    destruct (Hset (S k) r Hr) as (t' & Ht' & Hs' & _ & Hprev).
    cbn [endBefore] in Hprev.
    destruct (rs !! k) as [p|] eqn:Hp;
      [| apply lookup_ge_None in Hp; apply lookup_lt_Some in Hr; lia].
    rewrite (Hprev _ eq_refl), <- Hs', Hstart.
    rewrite (proj2 (String.eqb_neq _ _) (wallClock_nonempty _)).
    by apply (parseTimeToDate_wallClock zone off horizon).
Qed.

(** The element at the start index after a recalculation, when it started
    at a time of day and, unless it is the first, when the element before
    it ended. *)
Lemma recalculate_first_settledAt zone off horizon clock
    (Hq : quietClock zone off horizon clock) (list list' : RoutineList.t)
    (startIndex : nat) (r : Routine.t) (t : Z) :
  recalculateTimesInList zone clock list startIndex = Known list' →
  RoutineList.routines list !! startIndex = Some r →
  0 ≤ t < secondsPerDay →
  Routine.startTime r = wallClock t →
  (∀ e, endBefore (RoutineList.routines list) startIndex = Some e →
        e = wallClock t) →
  durationInRange horizon (Routine.durationSeconds r) = true →
  RoutineList.routines list' !! startIndex
  = Some (Routine.mk (Routine.id r) (Routine.name r) (Routine.startTime r)
            (Routine.durationSeconds r)
            (wallClock (wallClockAdd t (Routine.durationSeconds r)))).
Proof.
  intros Hrun Hr Ht Hstart Hprev Hdur.
  destruct (recalculate_first_element zone clock list list' startIndex r Hrun
              Hr)
    as (d & e & Hd & He & ->).
  assert (d = dateAt zone (clock startIndex) t) as ->.
  { unfold currentStartTimeDateAt in Hd. destruct startIndex as [|s].
    - cbn [Nat.eqb] in Hd.
      rewrite Hstart,
        (parseTimeToDate_wallClock zone off horizon _ t (Hq 0%nat) Ht) in Hd.
      congruence.
    - cbn [Nat.eqb] in Hd. replace (S s - 1)%nat with s in Hd by lia.
      cbn [endBefore] in Hprev.
      destruct (RoutineList.routines list !! s) as [p|] eqn:Hp;
        [| apply lookup_ge_None in Hp; apply lookup_lt_Some in Hr; lia].
      rewrite (Hprev _ eq_refl) in Hd.
      rewrite (proj2 (String.eqb_neq _ _) (wallClock_nonempty _)) in Hd.
      rewrite (parseTimeToDate_wallClock zone off horizon _ t (Hq (S s)) Ht)
        in Hd.
      congruence. }
  destruct (addSecondsToDate_dateAt zone off horizon (clock startIndex) t
              (Routine.durationSeconds r) (Hq startIndex) Ht Hdur)
    as (e' & He' & Hf).
  assert (e' = e) as -> by congruence.
  rewrite Hf,
    (formatTimeFromDate_timeOfDay zone off horizon _ t (Hq startIndex) Ht).
  by rewrite Hstart.
Qed.

Lemma durationsInRange_insert horizon (rs : list Routine.t) (k : nat)
    (x : Routine.t) :
  durationsInRange horizon rs = true →
  durationInRange horizon (Routine.durationSeconds x) = true →
  durationsInRange horizon (<[k := x]> rs) = true.
Proof.
  rewrite !durationsInRange_lookup. intros H Hx j r Hr.
  destruct (decide (j = k)) as [-> | Hne].
  - destruct (decide (k < length rs)%nat) as [Hk|Hk].
    + rewrite list_lookup_insert_eq in Hr by done. by injection Hr as <-.
    + rewrite list_insert_ge in Hr by lia. eauto.
  - rewrite list_lookup_insert_ne in Hr by done. eauto.
Qed.

(** [rs.map((x, index) => index === k ? f(x) : x)] replaces the element
    at [k]. *)
Lemma imap_at (f : Routine.t → Routine.t) (rs : list Routine.t) (k : nat)
    (test : nat → bool) (r : Routine.t) :
  (∀ j, test j = true ↔ j = k) → rs !! k = Some r →
  imap (λ index routine, if test index then f routine else routine) rs
  = <[k := f r]> rs.
Proof.
  intros Htest Hr. apply list_eq. intros j. rewrite list_lookup_imap.
  destruct (decide (j = k)) as [-> | Hne].
  - rewrite list_lookup_insert_eq by (by eapply lookup_lt_Some).
    rewrite Hr. cbn. by rewrite (proj2 (Htest k) eq_refl).
  - rewrite list_lookup_insert_ne by done.
    destruct (rs !! j) as [x|]; [| done]. cbn.
    destruct (test j) eqn:E; [| done]. apply Htest in E. done.
Qed.

(** * Changing a duration *)

(** The list [updateDurationInList] makes of a settled schedule when it
    finds the routine. *)
Lemma updateDurationInList_found zone off horizon clock
    (Hq : quietClock zone off horizon clock)
    (ars : option ActiveRoutineState.t) (listId routineId : string)
    (newDurationSeconds : Z) (list : RoutineList.t) (k : nat)
    (r : Routine.t) (t : Z) :
  settled (RoutineList.routines list) = true →
  durationsInRange horizon (RoutineList.routines list) = true →
  durationInRange horizon newDurationSeconds = true →
  RoutineList.routines list !! k = Some r →
  String.eqb (Routine.id r) routineId = true →
  (∀ j y, (j < k)%nat → RoutineList.routines list !! j = Some y →
          String.eqb (Routine.id y) routineId = false) →
  timeOfDay (Routine.startTime r) = Some t →
  ∃ rs',
    updateDurationInList zone clock ars listId routineId newDurationSeconds
      list
    = Known (RoutineList.mk (RoutineList.id list) (RoutineList.title list) rs',
             if timerOnList ars listId then [SetNull] else [],
             if timerOnList ars listId then [StoppedByTimeChanges] else [])
    ∧ settled rs' = true
    ∧ durationsInRange horizon rs' = true
    ∧ (∀ j, (j < k)%nat → rs' !! j = RoutineList.routines list !! j)
    ∧ rs' !! k
      = Some (Routine.mk (Routine.id r) (Routine.name r) (Routine.startTime r)
                newDurationSeconds
                (wallClock (wallClockAdd t newDurationSeconds)))
    ∧ (∀ j r0, j ≠ k → RoutineList.routines list !! j = Some r0 →
         ∃ r', rs' !! j = Some r' ∧ retimed r0 r').
Proof.
  set (rs := RoutineList.routines list).
  intros Hset Hdur Hnew Hr Hid Hfirst Htime.
  apply timeOfDay_spec in Htime as [Ht Hstart].
  set (changed := Routine.mk (Routine.id r) (Routine.name r)
                    (Routine.startTime r) newDurationSeconds
                    (Routine.endTime r)).
  unfold updateDurationInList. fold rs.
  rewrite (findIndex_first _ rs k r Hr Hid Hfirst).
  rewrite (proj2 (Z.eqb_neq _ _)) by lia. rewrite Nat2Z.id.
  rewrite (imap_at (λ routine,
                      Routine.mk (Routine.id routine) (Routine.name routine)
                        (Routine.startTime routine) newDurationSeconds
                        (Routine.endTime routine)) rs k
             (λ index, Z.of_nat index =? Z.of_nat k) r);
    [| intros j; rewrite Z.eqb_eq; lia | done].
  fold changed.
  assert (<[k := changed]> rs !! k = Some changed) as Hk
    by (apply list_lookup_insert_eq; by eapply lookup_lt_Some).
  set (list1 := RoutineList.mk (RoutineList.id list) (RoutineList.title list)
                  (<[k := changed]> rs)).
  destruct (recalculate_settles zone off horizon clock Hq list1 k)
    as (rs' & Hrun & Hset' & Hdur' & Hlen & Hbefore & Hall).
  { cbn [list1 RoutineList.routines]. rewrite take_insert_ge by lia.
    by apply settled_take. }
  { cbn [list1 RoutineList.routines]. by apply durationsInRange_insert. }
  { intros ->. cbn [list1 RoutineList.routines].
    by apply (anchor_of_time_of_day zone off horizon clock Hq _ changed t). }
  cbn [list1 RoutineList.routines RoutineList.id RoutineList.title]
    in Hrun, Hlen, Hbefore, Hall.
  exists rs'. fold list1. rewrite Hrun. cbn [mbind tracked_bind].
  split; [by destruct (timerOnList ars listId) |].
  split; [done |]. split; [done |]. split; [| split].
  - intros j Hj. rewrite Hbefore by done.
    apply list_lookup_insert_ne. lia.
  - destruct (recalculate_first_element zone clock list1 _ k changed Hrun Hk)
      as (d & e & Hd & He & Hnewk).
    cbn [RoutineList.routines changed Routine.id Routine.name
           Routine.durationSeconds] in Hnewk, He.
    rewrite Hnewk.
    assert (d = dateAt zone (clock k) t) as ->.
    { cbn [list1 RoutineList.routines] in Hd.
      rewrite (anchor_in_settled zone off horizon clock Hq rs _ k r changed t
                 Hset Hr Ht Hstart eq_refl) in Hd; [congruence |].
      intros j Hj. apply list_lookup_insert_ne. lia. }
    destruct (addSecondsToDate_dateAt zone off horizon (clock k) t
                newDurationSeconds (Hq k) Ht Hnew) as (e' & He' & Hf).
    assert (e' = e) as -> by congruence.
    rewrite Hf, (formatTimeFromDate_timeOfDay zone off horizon _ t (Hq k) Ht).
    by rewrite Hstart.
  - intros j r0 Hne Hr0. apply Hall. by rewrite list_lookup_insert_ne.
Qed.

Lemma findIndex_absent {A : Type} (p : A → bool) (l : list A) :
  forallb (λ x, negb (p x)) l = true → findIndex p l = -1.
Proof.
  induction l as [|a l IH]; [done |]. cbn [forallb findIndex].
  intros H. apply andb_prop in H as [Ha Hl].
  apply negb_true_iff in Ha as ->. by rewrite (IH Hl).
Qed.

Lemma state_eta (st : AppState) : mkApp (lists st) (activeRoutineState st) = st.
Proof. by destruct st. Qed.

(** [updateMatchingLists] with an updater that returns the lists as they
    are leaves the state as it is. *)
Lemma updateMatchingLists_unchanged {N : Type}
    (onList : nat → RoutineList.t →
              tracked (RoutineList.t * list timerUpdate * list N))
    (listId : string) (st : AppState) :
  (∀ k l, l ∈ lists st → RoutineList.id l = listId →
          onList k l = Known (l, [], [])) →
  updateMatchingLists onList listId st = Known (st, []).
Proof.
  intros Hon. unfold updateMatchingLists.
  assert (∀ (ls : list RoutineList.t)
            (g : nat → RoutineList.t →
                 tracked (RoutineList.t * list timerUpdate * list N)),
            (∀ k l, l ∈ ls → g k l = Known (l, [], [])) →
            mapM (λ x, x) (imap g ls) = Known ((λ y, (y, [], [])) <$> ls))
    as Hgen.
  { induction ls as [|l ls IH]; intros g Hg; [done |].
    cbn [imap mapM]. rewrite (Hg 0%nat l (list_elem_of_here _ _)).
    cbn [mbind tracked_bind]. rewrite (IH (g ∘ S)).
    - done.
    - intros k y Hy. apply Hg. by apply list_elem_of_further. }
  rewrite (Hgen (lists st)).
  - cbn [mbind tracked_bind].
    rewrite kept_lists, kept_updates, kept_notices. cbn [foldl].
    by rewrite state_eta.
  - intros k l Hl. destruct (String.eqb_spec (RoutineList.id l) listId).
    + by apply Hon.
    + done.
Qed.

Lemma timer_after (ars : option ActiveRoutineState.t) (stop : bool) :
  foldl applyTimerUpdate ars (if stop then [SetNull] else [])
  = if stop then None else ars.
Proof. by destruct stop. Qed.

(** X11. Changing the duration of a routine of a settled schedule, where
    the host's clock is quiet: the routine keeps its start and ends its new
    duration later on the wall clock, the routines before it are untouched,
    the ones after it keep id, name and duration and follow on, and the
    schedule is settled again. A timer on that list is stopped and the stop
    announced; a timer on another list, or none, is left alone and nothing
    is announced. *)
Theorem handleUpdateRoutineDurationInList_retimes (zone : TimeZone)
    (off horizon : Z) (clock : nat → nat → Date)
    (listId routineId : string) (newDurationSeconds : Z) (st : AppState)
    (pre post : list RoutineList.t) (list : RoutineList.t) (k : nat)
    (r : Routine.t) (t : Z) :
  quietClock zone off horizon (clock (length pre)) →
  lists st = pre ++ list :: post →
  RoutineList.id list = listId →
  forallb (λ l, negb (String.eqb (RoutineList.id l) listId)) (pre ++ post)
  = true →
  settled (RoutineList.routines list) = true →
  durationsInRange horizon (RoutineList.routines list) = true →
  durationInRange horizon newDurationSeconds = true →
  findIndex (λ x, String.eqb (Routine.id x) routineId)
    (RoutineList.routines list) = Z.of_nat k →
  RoutineList.routines list !! k = Some r →
  timeOfDay (Routine.startTime r) = Some t →
  ∃ rs',
    handleUpdateRoutineDurationInList zone clock listId routineId
      newDurationSeconds st
    = Known (mkApp (pre ++ RoutineList.mk (RoutineList.id list)
                             (RoutineList.title list) rs' :: post)
               (if timerOnList (activeRoutineState st) listId then None
                else activeRoutineState st),
             if timerOnList (activeRoutineState st) listId
             then [StoppedByTimeChanges] else [])
    ∧ settled rs' = true
    ∧ (∀ j, (j < k)%nat → rs' !! j = RoutineList.routines list !! j)
    ∧ rs' !! k
      = Some (Routine.mk (Routine.id r) (Routine.name r) (Routine.startTime r)
                newDurationSeconds
                (wallClock (wallClockAdd t newDurationSeconds)))
    ∧ (∀ j r0, j ≠ k → RoutineList.routines list !! j = Some r0 →
         ∃ r', rs' !! j = Some r' ∧ retimed r0 r').
Proof.
  intros Hq Hlists Hid Hothers Hset Hdur Hnew Hfind Hr Htime.
  destruct (findIndex_found (λ x, String.eqb (Routine.id x) routineId)
              (RoutineList.routines list)) as (x & Hx & Hpx & Hfirst);
    [lia |].
  rewrite Hfind, Nat2Z.id in Hx, Hfirst.
  assert (x = r) as -> by congruence.
  destruct (updateDurationInList_found zone off horizon (clock (length pre))
              Hq (activeRoutineState st) listId routineId newDurationSeconds
              list k r t Hset Hdur Hnew Hr Hpx Hfirst Htime)
    as (rs' & Hrun & Hset' & _ & Hbefore & Hk & Hrest).
  exists rs'. split; [| done].
  unfold handleUpdateRoutineDurationInList.
  rewrite (updateMatchingLists_single _ listId st pre post list _ _ _
             Hlists Hid Hothers Hrun).
  by rewrite timer_after.
Qed.

Lemma handleUpdateRoutineDurationInList_retimes_witness :
  ∃ rs',
    handleUpdateRoutineDurationInList europeBerlin2026 (λ _ _, 1793610000000) "l2" "r1" 600
      (mkApp
         [RoutineList.mk "l1" "Evening" [];
          RoutineList.mk "l2" "Morning"
            [Routine.mk "r1" "Wake" "08:00:00" 1500 "08:25:00";
             Routine.mk "r2" "Run" "08:25:00" 1800 "08:55:00"]]
         (Some (ActiveRoutineState.mk "l2" "r2" 1 77 "Run")))
    = Known (mkApp [RoutineList.mk "l1" "Evening" [];
                    RoutineList.mk "l2" "Morning" rs']
               None,
             [StoppedByTimeChanges])
    ∧ settled rs' = true
    ∧ (∀ j, (j < 0)%nat →
         rs' !! j
         = [Routine.mk "r1" "Wake" "08:00:00" 1500 "08:25:00";
            Routine.mk "r2" "Run" "08:25:00" 1800 "08:55:00"] !! j)
    ∧ rs' !! 0%nat = Some (Routine.mk "r1" "Wake" "08:00:00" 600 "08:10:00")
    ∧ (∀ j r0, j ≠ 0%nat →
         [Routine.mk "r1" "Wake" "08:00:00" 1500 "08:25:00";
          Routine.mk "r2" "Run" "08:25:00" 1800 "08:55:00"] !! j = Some r0 →
         ∃ r', rs' !! j = Some r' ∧ retimed r0 r').
Proof.
  exact (handleUpdateRoutineDurationInList_retimes europeBerlin2026 3600000
           86400 (λ _ _, 1793610000000) "l2" "r1" 600
           (mkApp
              [RoutineList.mk "l1" "Evening" [];
               RoutineList.mk "l2" "Morning"
                 [Routine.mk "r1" "Wake" "08:00:00" 1500 "08:25:00";
                  Routine.mk "r2" "Run" "08:25:00" 1800 "08:55:00"]]
              (Some (ActiveRoutineState.mk "l2" "r2" 1 77 "Run")))
           [RoutineList.mk "l1" "Evening" []] []
           (RoutineList.mk "l2" "Morning"
              [Routine.mk "r1" "Wake" "08:00:00" 1500 "08:25:00";
               Routine.mk "r2" "Run" "08:25:00" 1800 "08:55:00"])
           0 (Routine.mk "r1" "Wake" "08:00:00" 1500 "08:25:00") 28800
           (λ _, quiet_europeBerlin2026 86400 1793610000000 eq_refl)
           eq_refl eq_refl eq_refl eq_refl eq_refl eq_refl eq_refl eq_refl
           eq_refl).
Defined.

(** X12. A duration change that names no routine of the list, or no list,
    changes nothing: the state is returned as it is, a timer running on
    that very list keeps running, and nothing is announced. *)
Theorem handleUpdateRoutineDurationInList_unknown (zone : TimeZone)
    (clock : nat → nat → Date)
    (listId routineId : string) (newDurationSeconds : Z) (st : AppState) :
  forallb (λ l, negb (String.eqb (RoutineList.id l) listId)
                || forallb (λ x, negb (String.eqb (Routine.id x) routineId))
                     (RoutineList.routines l)) (lists st) = true →
  handleUpdateRoutineDurationInList zone clock listId routineId
    newDurationSeconds st
  = Known (st, []).
Proof.
  intros H. unfold handleUpdateRoutineDurationInList.
  apply updateMatchingLists_unchanged. intros k l Hl Hid.
  rewrite forallb_forall in H. apply list_elem_of_In, H in Hl.
  rewrite (proj2 (String.eqb_eq _ _) Hid) in Hl. cbn [negb orb] in Hl.
  unfold updateDurationInList. by rewrite (findIndex_absent _ _ Hl).
Qed.

Lemma handleUpdateRoutineDurationInList_unknown_witness :
  handleUpdateRoutineDurationInList europeBerlin2026 (λ _ _, 1793610000000) "l2" "r9" 600
    (mkApp
       [RoutineList.mk "l2" "Morning"
          [Routine.mk "r1" "Wake" "08:00:00" 1500 "08:25:00"]]
       (Some (ActiveRoutineState.mk "l2" "r1" 0 77 "Wake")))
  = Known (mkApp
             [RoutineList.mk "l2" "Morning"
                [Routine.mk "r1" "Wake" "08:00:00" 1500 "08:25:00"]]
             (Some (ActiveRoutineState.mk "l2" "r1" 0 77 "Wake")),
           []).
Proof.
  exact (handleUpdateRoutineDurationInList_unknown europeBerlin2026
           (λ _ _, 1793610000000) "l2" "r9" 600
           (mkApp
              [RoutineList.mk "l2" "Morning"
                 [Routine.mk "r1" "Wake" "08:00:00" 1500 "08:25:00"]]
              (Some (ActiveRoutineState.mk "l2" "r1" 0 77 "Wake")))
           eq_refl).
Defined.

(** * Changing the start time of a list *)

Lemma two_digit_field (F : string) (v : Z) :
  digitsValue F = Some v → String.length F = 2%nat →
  ∃ a b, F = String a (String b "") ∧ JS.isDigit a = true
         ∧ JS.isDigit b = true ∧ 0 ≤ v ≤ 99.
Proof.
  intros HF Hlen. destruct F as [|a [|b [|c F]]]; try done.
  destruct (digitsValue_digits _ _ HF) as (Hd & _ & Hv).
  cbn [JS.allChars] in Hd.
  apply andb_prop in Hd as [Ha Hb]. apply andb_prop in Hb as [Hb _].
  exists a, b. split; [done |]. split; [done |]. split; [done |].
  split; [done |].
  clear -HF Ha Hb.
  destruct a as [[|] [|] [|] [|] [|] [|] [|] [|]]; vm_compute in Ha;
    try discriminate Ha; clear Ha;
    destruct b as [[|] [|] [|] [|] [|] [|] [|] [|]]; vm_compute in Hb;
    try discriminate Hb; clear Hb;
    vm_compute in HF; injection HF as <-; lia.
Qed.

Lemma isHHMM_fields (H M : string) (h m : Z) :
  digitsValue H = Some h → String.length H = 2%nat →
  digitsValue M = Some m → String.length M = 2%nat →
  isHHMM (H +:+ ":" +:+ M) = true.
Proof.
  intros HH HlH HM HlM.
  destruct (two_digit_field H h HH HlH) as (a & b & -> & Ha & Hb & _).
  destruct (two_digit_field M m HM HlM) as (c & d & -> & Hc & Hd & _).
  cbn. by rewrite Ha, Hb, Hc, Hd.
Qed.

(** What [updateStartTimeInList] makes of a list that is not empty. *)
Lemma updateStartTimeInList_nonempty zone off horizon clock
    (Hq : quietClock zone off horizon clock)
    (ars : option ActiveRoutineState.t) (listId newStart : string)
    (list : RoutineList.t) (d : Date) :
  RoutineList.routines list ≠ [] →
  durationsInRange horizon (RoutineList.routines list) = true →
  parseTimeToDate zone (clock 0%nat) newStart = Known d →
  startDateInRange (clock 0%nat) (Known d) = true →
  ∃ rs',
    updateStartTimeInList zone clock ars listId newStart list
    = Known (RoutineList.mk (RoutineList.id list) (RoutineList.title list) rs',
             if timerOnList ars listId then [SetNull] else [],
             if timerOnList ars listId then [StoppedByTimeChanges] else [])
    ∧ settled rs' = true
    ∧ durationsInRange horizon rs' = true
    ∧ Routine.startTime <$> rs' !! 0%nat = Some (formatTimeFromDate zone d)
    ∧ (∀ j r0, RoutineList.routines list !! j = Some r0 →
         ∃ r', rs' !! j = Some r' ∧ retimed r0 r').
Proof.
  set (rs := RoutineList.routines list). intros Hne Hdur Hparse Hrange.
  destruct rs as [|r rest] eqn:Hrs; [done |]. clear Hne.
  set (changed := Routine.mk (Routine.id r) (Routine.name r) newStart
                    (Routine.durationSeconds r) (Routine.endTime r)).
  unfold updateStartTimeInList. fold rs. rewrite Hrs. cbn [length Nat.eqb].
  rewrite (imap_at (λ routine,
                      Routine.mk (Routine.id routine) (Routine.name routine)
                        newStart (Routine.durationSeconds routine)
                        (Routine.endTime routine)) (r :: rest) 0
             (λ index, Nat.eqb index 0) r);
    [| intros j; apply Nat.eqb_eq | done].
  fold changed. cbn [insert list_insert].
  set (list1 := RoutineList.mk (RoutineList.id list) (RoutineList.title list)
                  (changed :: rest)).
  destruct (recalculate_settles zone off horizon clock Hq list1 0)
    as (rs' & Hrun & Hset' & Hdur' & Hlen & _ & Hall).
  { done. }
  { cbn [list1 RoutineList.routines durationsInRange forallb changed
           Routine.durationSeconds].
    exact Hdur. }
  { intros _. unfold anchorInRange, currentStartTimeDateAt.
    cbn [list1 RoutineList.routines lookup list_lookup Nat.eqb changed
           Routine.startTime].
    by rewrite Hparse. }
  cbn [list1 RoutineList.routines RoutineList.id RoutineList.title]
    in Hrun, Hall.
  exists rs'. fold list1. rewrite Hrun. cbn [mbind tracked_bind].
  split; [by destruct (timerOnList ars listId) |].
  split; [done |]. split; [done |]. split.
  - destruct (recalculate_first_element zone clock list1 _ 0 changed Hrun
                eq_refl)
      as (d' & e & Hd & _ & Hfirst).
    cbn [RoutineList.routines] in Hfirst. rewrite Hfirst. cbn.
    unfold currentStartTimeDateAt in Hd.
    cbn [Nat.eqb changed Routine.startTime] in Hd. congruence.
  - intros [|j] r0 Hr0.
    + injection Hr0 as <-.
      destruct (Hall 0%nat changed eq_refl) as (r' & Hr' & Hret).
      by exists r'.
    + by apply (Hall (S j) r0).
Qed.

(** X13. Saving a start time for a list. A text of two digits, a colon and
    two digits is accepted for a list that is not empty, whatever the
    digits; where the host's clock is quiet the handler then gives the first
    routine the wall-clock time (3600 h + 60 m) mod 86400, so that an entry
    of 99:99 is kept as 04:39:00, and settles the whole schedule behind it,
    whatever its times were; ids, names and durations are kept. A timer on
    that list is stopped and the stop announced. *)
Theorem handleSaveListStartTime_sets_schedule (zone : TimeZone)
    (off horizon : Z) (clock : nat → nat → Date)
    (st : AppState) (pre post : list RoutineList.t) (list : RoutineList.t)
    (H M : string) (h m : Z) :
  quietClock zone off horizon (clock (length pre)) →
  lists st = pre ++ list :: post →
  forallb (λ l, negb (String.eqb (RoutineList.id l) (RoutineList.id list)))
    (pre ++ post) = true →
  (0 < length (RoutineList.routines list))%nat →
  durationsInRange horizon (RoutineList.routines list) = true →
  digitsValue H = Some h → String.length H = 2%nat →
  digitsValue M = Some m → String.length M = 2%nat →
  ∃ rs',
    handleSaveListStartTime list (H +:+ ":" +:+ M)
    = Some (RoutineList.id list, (H +:+ ":" +:+ M) +:+ ":00")
    ∧ handleUpdateListStartTime zone clock (RoutineList.id list)
        ((H +:+ ":" +:+ M) +:+ ":00") st
      = Known (mkApp (pre ++ RoutineList.mk (RoutineList.id list)
                               (RoutineList.title list) rs' :: post)
                 (if timerOnList (activeRoutineState st) (RoutineList.id list)
                  then None else activeRoutineState st),
               if timerOnList (activeRoutineState st) (RoutineList.id list)
               then [StoppedByTimeChanges] else [])
    ∧ settled rs' = true
    ∧ Routine.startTime <$> rs' !! 0%nat
      = Some (wallClock ((h * 3600 + m * 60) mod secondsPerDay))
    ∧ (∀ j r0, RoutineList.routines list !! j = Some r0 →
         ∃ r', rs' !! j = Some r' ∧ retimed r0 r').
Proof.
  intros Hq Hlists Hothers Hne Hdur HH HlH HM HlM.
  destruct (two_digit_field H h HH HlH) as (_ & _ & _ & _ & _ & Hh).
  destruct (two_digit_field M m HM HlM) as (_ & _ & _ & _ & _ & Hm).
  set (now := clock (length pre) 0%nat).
  assert (parseTimeToDate zone now ((H +:+ ":" +:+ M) +:+ ":00")
          = Known (dateAt zone now (h * 3600 + m * 60 + 0))) as Hparse.
  { rewrite !string_app_assoc.
    apply (parseTimeToDate_fields zone off horizon now H M "00" h m 0);
      try done; [apply Hq | unfold secondsPerDay; lia]. }
  destruct (updateStartTimeInList_nonempty zone off horizon
              (clock (length pre)) Hq
              (activeRoutineState st) (RoutineList.id list)
              ((H +:+ ":" +:+ M) +:+ ":00") list _
              ltac:(intros E; rewrite E in Hne; cbn in Hne; lia) Hdur Hparse)
    as (rs' & Hrun & Hset & _ & Hstart & Hall).
  { unfold startDateInRange. apply Z.leb_le.
    apply (dateAt_near zone off horizon now); [apply Hq |].
    unfold secondsPerDay. lia. }
  exists rs'. split; [| split; [| split; [done | split; [| done]]]].
  - unfold handleSaveListStartTime.
    rewrite (isHHMM_fields H M h m) by done.
    destruct (RoutineList.routines list); [cbn in Hne; lia | done].
  - unfold handleUpdateListStartTime.
    rewrite (updateMatchingLists_single _ (RoutineList.id list) st pre post
               list _ _ _ Hlists eq_refl Hothers Hrun).
    by rewrite timer_after.
  - rewrite Hstart.
    rewrite (formatTimeFromDate_seconds zone off horizon now _ (Hq 0%nat))
      by (unfold secondsPerDay; lia).
    by rewrite Z.add_0_r.
Qed.

Lemma handleSaveListStartTime_sets_schedule_witness :
  ∃ rs',
    handleSaveListStartTime
      (RoutineList.mk "l2" "Morning"
         [Routine.mk "r1" "Wake" "08:00:00" 1500 "08:25:00";
          Routine.mk "r2" "Run" "" 1800 "11:11:11"]) "99:99"
    = Some ("l2", "99:99:00")
    ∧ handleUpdateListStartTime europeBerlin2026 (λ _ _, 1793610000000)
        "l2" "99:99:00"
        (mkApp
           [RoutineList.mk "l2" "Morning"
              [Routine.mk "r1" "Wake" "08:00:00" 1500 "08:25:00";
               Routine.mk "r2" "Run" "" 1800 "11:11:11"]]
           None)
      = Known (mkApp [RoutineList.mk "l2" "Morning" rs'] None, [])
    ∧ settled rs' = true
    ∧ Routine.startTime <$> rs' !! 0%nat = Some "04:39:00"
    ∧ (∀ j r0,
         [Routine.mk "r1" "Wake" "08:00:00" 1500 "08:25:00";
          Routine.mk "r2" "Run" "" 1800 "11:11:11"] !! j = Some r0 →
         ∃ r', rs' !! j = Some r' ∧ retimed r0 r').
Proof.
  exact (handleSaveListStartTime_sets_schedule europeBerlin2026 3600000
           86400 (λ _ _, 1793610000000)
           (mkApp
              [RoutineList.mk "l2" "Morning"
                 [Routine.mk "r1" "Wake" "08:00:00" 1500 "08:25:00";
                  Routine.mk "r2" "Run" "" 1800 "11:11:11"]]
              None)
           [] []
           (RoutineList.mk "l2" "Morning"
              [Routine.mk "r1" "Wake" "08:00:00" 1500 "08:25:00";
               Routine.mk "r2" "Run" "" 1800 "11:11:11"])
           "99" "99" 99 99
           (λ _, quiet_europeBerlin2026 86400 1793610000000 eq_refl)
           eq_refl eq_refl ltac:(simpl; lia) eq_refl
           eq_refl eq_refl eq_refl eq_refl).
Defined.

(** * Running a list *)

Lemma ticks_add (n m : nat) (lists : list RoutineList.t)
    (s : option ActiveRoutineState.t) :
  ticks (n + m) lists s
  = (let '(s1, r1) := ticks n lists s in
     let '(s2, r2) := ticks m lists s1 in (s2, r1 ++ r2)).
Proof.
  revert s. induction n as [|n IH]; intros s.
  - cbn [Nat.add ticks]. by destruct (ticks m lists s).
  - cbn [Nat.add ticks]. destruct (tick lists s) as [s1 r1].
    rewrite IH. destruct (ticks n lists s1) as [s2 r2].
    destruct (ticks m lists s2) as [s3 r3]. by rewrite app_assoc.
Qed.

(** While more than a second is left, the updater counts down and nothing
    is announced. *)
Lemma ticks_countdown (n : nat) (lists : list RoutineList.t)
    (listId routineId : string) (i : nat) (d : Z) (name : string) :
  Z.of_nat n ≤ Z.max 1 d - 1 →
  ticks n lists (Some (ActiveRoutineState.mk listId routineId i d name))
  = (Some (ActiveRoutineState.mk listId routineId i (d - Z.of_nat n) name),
     []).
Proof.
  revert d. induction n as [|n IH]; intros d Hn.
  - cbn [ticks]. by rewrite Z.sub_0_r.
  - cbn [ticks tick ActiveRoutineState.timeLeftInSeconds
           ActiveRoutineState.listId ActiveRoutineState.routineId
           ActiveRoutineState.currentRoutineIndex
           ActiveRoutineState.routineName].
    rewrite (proj2 (Z.leb_gt _ _)) by lia.
    rewrite IH by lia. cbn [app]. do 3 f_equal. lia.
Qed.

(** The seconds spent on one routine, and what follows. *)
Lemma ticks_one_routine (lists : list RoutineList.t)
    (currentList : RoutineList.t) (listId routineId : string) (i : nat)
    (d : Z) (name : string) :
  List.find (λ l, String.eqb (RoutineList.id l) listId) lists
  = Some currentList →
  ticks (Z.to_nat (Z.max 1 d)) lists
    (Some (ActiveRoutineState.mk listId routineId i d name))
  = match RoutineList.routines currentList !! (i + 1)%nat with
    | Some nextRoutine =>
        (Some (ActiveRoutineState.mk listId (Routine.id nextRoutine)
                 (i + 1) (Routine.durationSeconds nextRoutine)
                 (Routine.name nextRoutine)),
         [BeepThenSpeak (RoutineDone name)])
    | None =>
        (None, [BeepThenSpeak (RoutineDone name);
                Speak (AllDone (RoutineList.title currentList))])
    end.
Proof.
  intros Hfind.
  replace (Z.to_nat (Z.max 1 d))
    with (Z.to_nat (Z.max 1 d - 1) + 1)%nat by lia.
  rewrite ticks_add, ticks_countdown by lia.
  cbn [ticks tick ActiveRoutineState.timeLeftInSeconds
         ActiveRoutineState.listId ActiveRoutineState.routineId
         ActiveRoutineState.currentRoutineIndex
         ActiveRoutineState.routineName].
  rewrite (proj2 (Z.leb_le _ _)) by lia.
  rewrite Hfind.
  by destruct (RoutineList.routines currentList !! (i + 1)%nat).
Qed.

Lemma ticks_run (lists : list RoutineList.t) (currentList : RoutineList.t)
    (listId : string) :
  List.find (λ l, String.eqb (RoutineList.id l) listId) lists
  = Some currentList →
  ∀ (rest : list Routine.t) (i : nat) (r : Routine.t),
    drop i (RoutineList.routines currentList) = r :: rest →
    ticks (ticksToFinish (r :: rest)) lists
      (Some (ActiveRoutineState.mk listId (Routine.id r) i
               (Routine.durationSeconds r) (Routine.name r)))
    = (None, runAnnouncements (RoutineList.title currentList) (r :: rest))
    ∧ ∀ n, (n < ticksToFinish (r :: rest))%nat →
        (ticks n lists
           (Some (ActiveRoutineState.mk listId (Routine.id r) i
                    (Routine.durationSeconds r) (Routine.name r)))).1
        ≠ None.
Proof.
  intros Hfind. induction rest as [|r' rest IH]; intros i r Hdrop.
  - assert (RoutineList.routines currentList !! (i + 1)%nat = None) as Hnext.
    { by rewrite <- lookup_drop, Hdrop. }
    unfold ticksToFinish. cbn [sum_list_with]. rewrite Nat.add_0_r. split.
    + rewrite (ticks_one_routine _ _ _ _ _ _ _ Hfind), Hnext. done.
    + intros n Hn. by rewrite ticks_countdown by lia.
  - assert (drop (i + 1) (RoutineList.routines currentList) = r' :: rest)
      as Hdrop'.
    { by rewrite <- drop_drop, Hdrop. }
    assert (RoutineList.routines currentList !! (i + 1)%nat = Some r')
      as Hnext.
    { by rewrite <- lookup_drop, Hdrop. }
    destruct (IH (i + 1)%nat r' Hdrop') as [Hrun Hrunning].
    change (ticksToFinish (r :: r' :: rest))
      with (Z.to_nat (Z.max 1 (Routine.durationSeconds r))
            + ticksToFinish (r' :: rest))%nat.
    split.
    + rewrite ticks_add, (ticks_one_routine _ _ _ _ _ _ _ Hfind), Hnext.
      rewrite Hrun. done.
    + intros n Hn.
      destruct (decide (n < Z.to_nat (Z.max 1 (Routine.durationSeconds r)))%nat)
        as [Hlt|Hge].
      * by rewrite ticks_countdown by lia.
      * replace n
          with (Z.to_nat (Z.max 1 (Routine.durationSeconds r))
                + (n - Z.to_nat (Z.max 1 (Routine.durationSeconds r))))%nat
          by lia.
        rewrite ticks_add, (ticks_one_routine _ _ _ _ _ _ _ Hfind), Hnext.
        specialize (Hrunning
                      (n - Z.to_nat (Z.max 1 (Routine.durationSeconds r)))%nat
                      ltac:(lia)).
        revert Hrunning.
        generalize (n - Z.to_nat (Z.max 1 (Routine.durationSeconds r)))%nat.
        intros n' Hrunning.
        by destruct (ticks n' lists _) as [s2 r2].
Qed.

(** X14. Starting a list and letting the timer run. The start button on a
    list that is not running and not empty changes no list and announces
    nothing; from there the timer takes each routine's duration in seconds,
    one second for a duration below one, so it is idle again after exactly
    the sum of those and not before; each routine is announced as done, in
    order, and the list as completed after the last one. The durations are
    at most 2^53 seconds, the range in which taking one second off is
    exact. *)
Theorem handleToggleStartStopList_runs_through (listId : string)
    (st : AppState) (targetList : RoutineList.t) :
  forallb (λ r, Routine.durationSeconds r <=? MAX_EXACT)
    (RoutineList.routines targetList) = true →
  timerOnList (activeRoutineState st) listId = false →
  List.find (λ l, String.eqb (RoutineList.id l) listId) (lists st)
  = Some targetList →
  (0 < length (RoutineList.routines targetList))%nat →
  ∃ started,
    handleToggleStartStopList listId st = (started, [])
    ∧ lists started = lists st
    ∧ ticks (ticksToFinish (RoutineList.routines targetList)) (lists st)
        (activeRoutineState started)
      = (None, runAnnouncements (RoutineList.title targetList)
                 (RoutineList.routines targetList))
    ∧ ∀ n, (n < ticksToFinish (RoutineList.routines targetList))%nat →
        (ticks n (lists st) (activeRoutineState started)).1 ≠ None.
Proof.
  intros _ Hoff Hfind Hlen. unfold handleToggleStartStopList.
  rewrite Hoff, Hfind.
  destruct (RoutineList.routines targetList) as [|first rest] eqn:Hrs;
    [cbn in Hlen; lia |].
  eexists. split; [reflexivity |]. split; [done |].
  cbn [activeRoutineState].
  apply (ticks_run (lists st) targetList listId Hfind rest 0 first).
  by rewrite Hrs.
Qed.

Lemma handleToggleStartStopList_runs_through_witness :
  ∃ started,
    handleToggleStartStopList "l2"
      (mkApp
         [RoutineList.mk "l2" "Morning"
            [Routine.mk "r1" "Wake" "08:00:00" 3 "08:00:03";
             Routine.mk "r2" "Run" "08:00:03" 0 "08:00:03"]]
         None)
    = (started, [])
    ∧ lists started
      = [RoutineList.mk "l2" "Morning"
           [Routine.mk "r1" "Wake" "08:00:00" 3 "08:00:03";
            Routine.mk "r2" "Run" "08:00:03" 0 "08:00:03"]]
    ∧ ticks 4
        [RoutineList.mk "l2" "Morning"
           [Routine.mk "r1" "Wake" "08:00:00" 3 "08:00:03";
            Routine.mk "r2" "Run" "08:00:03" 0 "08:00:03"]]
        (activeRoutineState started)
      = (None, [BeepThenSpeak (RoutineDone "Wake");
                BeepThenSpeak (RoutineDone "Run");
                Speak (AllDone "Morning")])
    ∧ ∀ n, (n < 4)%nat →
        (ticks n
           [RoutineList.mk "l2" "Morning"
              [Routine.mk "r1" "Wake" "08:00:00" 3 "08:00:03";
               Routine.mk "r2" "Run" "08:00:03" 0 "08:00:03"]]
           (activeRoutineState started)).1 ≠ None.
Proof.
  exact (handleToggleStartStopList_runs_through "l2"
           (mkApp
              [RoutineList.mk "l2" "Morning"
                 [Routine.mk "r1" "Wake" "08:00:00" 3 "08:00:03";
                  Routine.mk "r2" "Run" "08:00:03" 0 "08:00:03"]]
              None)
           (RoutineList.mk "l2" "Morning"
              [Routine.mk "r1" "Wake" "08:00:00" 3 "08:00:03";
               Routine.mk "r2" "Run" "08:00:03" 0 "08:00:03"])
           eq_refl eq_refl eq_refl ltac:(simpl; lia)).
Defined.

(** * Deleting from a settled schedule *)

Lemma settledAfter_weaken (prevEnd : option string) (rs : list Routine.t) :
  settledAfter prevEnd rs = true → settled rs = true.
Proof.
  destruct rs as [|r rs]; [done |]. unfold settled. cbn [settledAfter].
  destruct (timeOfDay (Routine.startTime r)); [| done].
  intros [[_ H1]%andb_prop H2]%andb_prop. by rewrite H1, H2.
Qed.

Lemma settled_tail (r : Routine.t) (rs : list Routine.t) :
  settled (r :: rs) = true → settled rs = true.
Proof.
  unfold settled at 1. cbn [settledAfter].
  destruct (timeOfDay (Routine.startTime r)); [| done].
  intros [_ H]%andb_prop. by apply settledAfter_weaken in H.
Qed.

Lemma durationsInRange_delete horizon (rs : list Routine.t) (k : nat) :
  durationsInRange horizon rs = true → durationsInRange horizon (delete k rs) = true.
Proof.
  rewrite !durationsInRange_lookup. intros H j r Hr.
  rewrite list_lookup_delete in Hr. eauto.
Qed.

(** What [deleteRoutineFromList] makes of a settled schedule in which one
    routine has the id. *)
Lemma deleteRoutineFromList_settled zone off horizon clock
    (Hq : quietClock zone off horizon clock)
    (ars : option ActiveRoutineState.t) (listId routineId : string)
    (list : RoutineList.t) (k : nat) :
  settled (RoutineList.routines list) = true →
  durationsInRange horizon (RoutineList.routines list) = true →
  findIndex (λ x, String.eqb (Routine.id x) routineId)
    (RoutineList.routines list) = Z.of_nat k →
  forallb (λ x, negb (String.eqb (Routine.id x) routineId))
    (delete k (RoutineList.routines list)) = true →
  ∃ rs',
    deleteRoutineFromList zone clock ars listId routineId list
    = Known (RoutineList.mk (RoutineList.id list) (RoutineList.title list) rs',
             (timerEffectsOfDelete ars listId routineId
                (delete k (RoutineList.routines list))).1,
             (timerEffectsOfDelete ars listId routineId
                (delete k (RoutineList.routines list))).2)
    ∧ settled rs' = true
    ∧ durationsInRange horizon rs' = true
    ∧ (∀ j, (j < k)%nat → rs' !! j = RoutineList.routines list !! j)
    ∧ (∀ j r0, (k ≤ j)%nat → RoutineList.routines list !! S j = Some r0 →
         ∃ r', rs' !! j = Some r' ∧ retimed r0 r')
    ∧ (k = 0%nat → rs' = drop 1 (RoutineList.routines list)).
Proof.
  set (rs := RoutineList.routines list). intros Hset Hdur Hfind Hunique.
  pose proof (filter_delete _ rs k Hfind Hunique) as Hfilter.
  pose proof (durationsInRange_delete horizon rs k Hdur) as Hdur1.
  unfold deleteRoutineFromList. fold rs. rewrite Hfilter, Hfind.
  clearbody rs.
  set (list1 := RoutineList.mk (RoutineList.id list) (RoutineList.title list)
                  (delete k rs)).
  assert (k < length rs)%nat as Hk.
  { destruct (findIndex_range (λ x, String.eqb (Routine.id x) routineId) rs).
    lia. }
  remember (Z.to_nat (Z.max 0 (Z.of_nat k - 1))) as s eqn:Hs.
  assert (s = (k - 1)%nat) as Hs' by lia. clear Hs.
  assert (take s (delete k rs) = take s rs) as Htake.
  { rewrite delete_take_drop, take_app_le by (rewrite length_take; lia).
    rewrite take_take. f_equal. lia. }
  destruct (recalculate_settles zone off horizon clock Hq list1 s)
    as (rs' & Hrun & Hset' & Hdur' & Hlen & Hbefore & Hall).
  { cbn [list1 RoutineList.routines]. rewrite Htake. by apply settled_take. }
  { done. }
  { intros _. cbn [list1 RoutineList.routines].
    destruct (delete k rs !! 0%nat) as [r|] eqn:Hr;
      [| unfold anchorInRange; by rewrite Hr].
    assert (∃ j, rs !! j = Some r) as [j Hj].
    { rewrite list_lookup_delete in Hr. eauto. }
    destruct (settled_start rs j r Hset Hj) as (t & Ht & Hstart).
    by apply (anchor_of_time_of_day zone off horizon clock Hq _ r t). }
  cbn [list1 RoutineList.routines RoutineList.id RoutineList.title]
    in Hrun, Hlen, Hbefore, Hall.
  exists rs'. fold list1. rewrite Hrun. cbn [mbind tracked_bind].
  split; [by destruct (timerEffectsOfDelete ars listId routineId _) |].
  split; [done |]. split; [done |]. split; [| split].
  - intros j Hj. destruct (decide (j < s)%nat) as [Hlt|Hge].
    + rewrite Hbefore by done. apply list_lookup_delete_lt. lia.
    + assert (j = s) as -> by lia.
      destruct (lookup_lt_is_Some_2 rs s) as [r Hr]; [lia |].
      assert (delete k rs !! s = Some r) as Hr1
        by (by rewrite list_lookup_delete_lt).
      pose proof (proj1 (settled_lookup rs) Hset) as Hat.
      destruct (Hat s r Hr) as (t & Ht & Hstart & Hend & Hprev).
      rewrite durationsInRange_lookup in Hdur.
      assert (rs' !! s
              = Some (Routine.mk (Routine.id r) (Routine.name r)
                        (Routine.startTime r) (Routine.durationSeconds r)
                        (wallClock
                           (wallClockAdd t (Routine.durationSeconds r)))))
        as ->.
      { apply (recalculate_first_settledAt zone off horizon clock Hq list1 _
                 s r t Hrun Hr1 Ht Hstart).
        - intros e He. apply Hprev. rewrite <- He.
          cbn [list1 RoutineList.routines]. destruct s as [|s']; [done |].
          cbn [endBefore]. by rewrite list_lookup_delete_lt by lia.
        - eauto. }
      by rewrite <- Hend, routine_eta.
  - intros j r0 Hj Hr0. apply Hall. by rewrite list_lookup_delete_ge.
  - intros ->.
    assert (drop 1 rs = delete 0%nat rs) as -> by (by destruct rs).
    assert (settled (delete 0%nat rs) = true) as Htail.
    { destruct rs as [|r rest]; [done |]. cbn [delete list_delete].
      by apply settled_tail in Hset. }
    unfold recalculateTimesInList in Hrun.
    cbn [list1 RoutineList.routines RoutineList.id RoutineList.title] in Hrun.
    destruct (Nat.eqb_spec (length (delete 0%nat rs)) 0) as [Hz|Hnz].
    + apply nil_length_inv in Hz. rewrite Hz in *. congruence.
    + rewrite (recalculate_loop_settled zone off horizon clock Hq) in Hrun
        by done.
      cbn [mbind tracked_bind] in Hrun. congruence.
Qed.

(** X15. Where the host's clock is quiet, deleting a routine from a settled
    schedule, in which no other routine has its id, closes the gap: the
    routines before it are untouched, the ones after it move up one place
    with their ids, names and durations, and the schedule is settled again,
    so they follow on from the routine before the deleted one. Deleting the first routine shifts
    nothing: what is left keeps its times, and the list starts when the
    deleted routine ended. *)
Theorem handleDeleteRoutine_closes_gap (zone : TimeZone) (off horizon : Z)
    (clock : nat → nat → Date)
    (listId routineId : string) (st : AppState)
    (pre post : list RoutineList.t) (list : RoutineList.t) (k : nat) :
  quietClock zone off horizon (clock (length pre)) →
  lists st = pre ++ list :: post →
  RoutineList.id list = listId →
  forallb (λ l, negb (String.eqb (RoutineList.id l) listId)) (pre ++ post)
  = true →
  settled (RoutineList.routines list) = true →
  durationsInRange horizon (RoutineList.routines list) = true →
  findIndex (λ x, String.eqb (Routine.id x) routineId)
    (RoutineList.routines list) = Z.of_nat k →
  forallb (λ x, negb (String.eqb (Routine.id x) routineId))
    (delete k (RoutineList.routines list)) = true →
  ∃ rs' after requests,
    handleDeleteRoutine zone clock listId routineId st
    = Known (mkApp (pre ++ RoutineList.mk (RoutineList.id list)
                             (RoutineList.title list) rs' :: post) after,
             requests)
    ∧ settled rs' = true
    ∧ (∀ j, (j < k)%nat → rs' !! j = RoutineList.routines list !! j)
    ∧ (∀ j r0, (k ≤ j)%nat → RoutineList.routines list !! S j = Some r0 →
         ∃ r', rs' !! j = Some r' ∧ retimed r0 r')
    ∧ (k = 0%nat → rs' = drop 1 (RoutineList.routines list)).
Proof.
  intros Hq Hlists Hid Hothers Hset Hdur Hfind Hunique.
  destruct (deleteRoutineFromList_settled zone off horizon
              (clock (length pre)) Hq
              (activeRoutineState st) listId routineId list k Hset Hdur
              Hfind Hunique)
    as (rs' & Hrun & Hset' & _ & Hbefore & Hafter & Hfirst).
  exists rs'. eexists _, _. split; [| done].
  change (handleDeleteRoutine zone clock listId routineId st)
    with (updateMatchingLists
            (λ k, deleteRoutineFromList zone (clock k) (activeRoutineState st)
                    listId routineId) listId st).
  exact (updateMatchingLists_single _ listId st pre post list _ _ _
           Hlists Hid Hothers Hrun).
Qed.

Lemma handleDeleteRoutine_closes_gap_witness :
  ∃ rs' after requests,
    handleDeleteRoutine europeBerlin2026 (λ _ _, 1793610000000) "l1" "r1"
      (mkApp
         [RoutineList.mk "l1" "Morning"
            [Routine.mk "r1" "Wake" "08:00:00" 1500 "08:25:00";
             Routine.mk "r2" "Run" "08:25:00" 1800 "08:55:00";
             Routine.mk "r3" "Eat" "08:55:00" 600 "09:05:00"]]
         None)
    = Known (mkApp [RoutineList.mk "l1" "Morning" rs'] after, requests)
    ∧ settled rs' = true
    ∧ (∀ j, (j < 0)%nat →
         rs' !! j
         = [Routine.mk "r1" "Wake" "08:00:00" 1500 "08:25:00";
            Routine.mk "r2" "Run" "08:25:00" 1800 "08:55:00";
            Routine.mk "r3" "Eat" "08:55:00" 600 "09:05:00"] !! j)
    ∧ (∀ j r0, (0 ≤ j)%nat →
         [Routine.mk "r1" "Wake" "08:00:00" 1500 "08:25:00";
          Routine.mk "r2" "Run" "08:25:00" 1800 "08:55:00";
          Routine.mk "r3" "Eat" "08:55:00" 600 "09:05:00"] !! S j = Some r0 →
         ∃ r', rs' !! j = Some r' ∧ retimed r0 r')
    ∧ (0%nat = 0%nat →
       rs' = [Routine.mk "r2" "Run" "08:25:00" 1800 "08:55:00";
              Routine.mk "r3" "Eat" "08:55:00" 600 "09:05:00"]).
Proof.
  exact (handleDeleteRoutine_closes_gap europeBerlin2026 3600000 86400
           (λ _ _, 1793610000000) "l1" "r1"
           (mkApp
              [RoutineList.mk "l1" "Morning"
                 [Routine.mk "r1" "Wake" "08:00:00" 1500 "08:25:00";
                  Routine.mk "r2" "Run" "08:25:00" 1800 "08:55:00";
                  Routine.mk "r3" "Eat" "08:55:00" 600 "09:05:00"]]
              None)
           [] []
           (RoutineList.mk "l1" "Morning"
              [Routine.mk "r1" "Wake" "08:00:00" 1500 "08:25:00";
               Routine.mk "r2" "Run" "08:25:00" 1800 "08:55:00";
               Routine.mk "r3" "Eat" "08:55:00" 600 "09:05:00"])
           0 (λ _, quiet_europeBerlin2026 86400 1793610000000 eq_refl)
           eq_refl eq_refl eq_refl eq_refl eq_refl eq_refl eq_refl).
Defined.

(** * Moving a list there and back *)

(** [handleMoveList] for a source index inside the collection and a target
    index inside it or at its end. *)
Lemma handleMoveList_inside (s : nat) (t : Z) (st : AppState)
    (x : RoutineList.t) (k : nat) :
  lists st !! s = Some x →
  0 ≤ t ≤ Z.of_nat (length (lists st)) →
  k = Z.to_nat (if Z.of_nat s <? t then t - 1 else t) →
  handleMoveList (Z.of_nat s) t st
  = mkApp (take k (delete s (lists st)) ++ x :: drop k (delete s (lists st)))
      (activeRoutineState st).
Proof.
  intros Hx Ht Hk. pose proof (lookup_lt_Some _ _ _ Hx) as Hs.
  assert (length (delete s (lists st)) = (length (lists st) - 1)%nat) as Hlen.
  { rewrite length_delete by eauto. lia. }
  assert ((if Z.of_nat s <? t then t - 1 else t) = Z.of_nat k) as Hact.
  { rewrite Hk. destruct (Z.ltb_spec (Z.of_nat s) t); lia. }
  unfold handleMoveList. rewrite (splice_remove_at _ _ _ Hx), Hact.
  unfold splice. rewrite spliceStart_in_range.
  - rewrite Nat2Z.id, Nat.add_0_r. done.
  - rewrite Hlen. destruct (Z.ltb_spec (Z.of_nat s) t); lia.
Qed.

Lemma reinsert_deleted {A : Type} (l : list A) (s : nat) (x : A) :
  l !! s = Some x → take s (delete s l) ++ x :: drop s (delete s l) = l.
Proof.
  intros Hx. pose proof (lookup_lt_Some _ _ _ Hx) as Hs.
  rewrite delete_take_drop.
  assert (length (take s l) = s) as Hlen by (rewrite length_take; lia).
  rewrite take_app_le, take_take, Nat.min_id by lia.
  rewrite drop_app_ge by lia. rewrite Hlen, Nat.sub_diag. cbn [drop].
  by apply take_drop_middle.
Qed.

Lemma splice_beyond {A : Type} (a : list A) (start : Z) :
  Z.of_nat (length a) ≤ start → splice a start 1 [] = (a, []).
Proof.
  intros H. unfold splice, spliceStart.
  rewrite (proj2 (Z.ltb_ge _ _)) by lia.
  rewrite Z.min_r, Nat2Z.id by lia.
  rewrite drop_all. cbn [take app].
  rewrite (take_ge a) by lia. rewrite (drop_ge a) by lia.
  by rewrite app_nil_r.
Qed.

(** X16. Where a move of a list changes nothing: to its own index, to the
    index after its own, and from a source index beyond the collection;
    the state is returned as it is. *)
Theorem handleMoveList_in_place (sourceIndex targetIndexInContainer : Z)
    (st : AppState) :
  Z.of_nat (length (lists st)) ≤ sourceIndex
  ∨ (0 ≤ sourceIndex
     ∧ (targetIndexInContainer = sourceIndex
        ∨ targetIndexInContainer = sourceIndex + 1)) →
  handleMoveList sourceIndex targetIndexInContainer st = st.
Proof.
  intros [Hout | [Hs Ht]].
  - unfold handleMoveList. rewrite splice_beyond by done. apply state_eta.
  - destruct (Z_lt_le_dec sourceIndex (Z.of_nat (length (lists st))))
      as [Hin | Hout].
    + destruct (lookup_lt_is_Some_2 (lists st) (Z.to_nat sourceIndex))
        as [x Hx]; [lia |].
      rewrite <- (Z2Nat.id sourceIndex) at 1 by lia.
      rewrite (handleMoveList_inside _ _ st x (Z.to_nat sourceIndex) Hx).
      * rewrite (reinsert_deleted _ _ _ Hx). apply state_eta.
      * lia.
      * rewrite Z2Nat.id by lia.
        destruct Ht as [-> | ->];
          destruct (Z.ltb_spec sourceIndex sourceIndex);
          destruct (Z.ltb_spec sourceIndex (sourceIndex + 1)); lia.
    + unfold handleMoveList. rewrite splice_beyond by done. apply state_eta.
Qed.

Lemma handleMoveList_in_place_witness :
  handleMoveList 1 2
    (mkApp [RoutineList.mk "a" "A" []; RoutineList.mk "b" "B" [];
            RoutineList.mk "c" "C" []] None)
  = mkApp [RoutineList.mk "a" "A" []; RoutineList.mk "b" "B" [];
           RoutineList.mk "c" "C" []] None.
Proof.
  apply (handleMoveList_in_place 1 2
           (mkApp [RoutineList.mk "a" "A" []; RoutineList.mk "b" "B" [];
                   RoutineList.mk "c" "C" []] None)).
  right. split; [lia |]. right. reflexivity.
Defined.

(** X17. Every move of a list is undone by one move: after a list was
    moved from a source index to a target index, moving it from where it
    landed to its old index, or to the index after its old one when it was
    moved towards the front, gives the state back. *)
Theorem handleMoveList_undone (sourceIndex targetIndexInContainer : Z)
    (st : AppState) :
  0 ≤ sourceIndex < Z.of_nat (length (lists st)) →
  0 ≤ targetIndexInContainer ≤ Z.of_nat (length (lists st)) →
  handleMoveList
    (if sourceIndex <? targetIndexInContainer
     then targetIndexInContainer - 1 else targetIndexInContainer)
    (if sourceIndex <? targetIndexInContainer
     then sourceIndex else sourceIndex + 1)
    (handleMoveList sourceIndex targetIndexInContainer st)
  = st.
Proof.
  intros Hs Ht.
  remember (Z.to_nat sourceIndex) as s eqn:Es.
  assert (sourceIndex = Z.of_nat s) as -> by lia. clear Es.
  destruct (lookup_lt_is_Some_2 (lists st) s) as [x Hx]; [lia |].
  pose proof (length_delete _ _ (mk_is_Some _ _ Hx)) as Hlen.
  remember (Z.to_nat (if Z.of_nat s <? targetIndexInContainer
                      then targetIndexInContainer - 1
                      else targetIndexInContainer)) as k eqn:Ek.
  assert ((if Z.of_nat s <? targetIndexInContainer
           then targetIndexInContainer - 1 else targetIndexInContainer)
          = Z.of_nat k) as Hk.
  { destruct (Z.ltb_spec (Z.of_nat s) targetIndexInContainer); lia. }
  assert (k ≤ length (delete s (lists st)))%nat as Hk'.
  { destruct (Z.ltb_spec (Z.of_nat s) targetIndexInContainer); lia. }
  rewrite (handleMoveList_inside s _ st x k Hx Ht Ek).
  remember (delete s (lists st)) as D eqn:ED.
  assert (length (take k D) = k) as Hlk by (rewrite length_take; lia).
  assert ((take k D ++ x :: drop k D) !! k = Some x) as Hat.
  { by apply list_lookup_middle. }
  assert (delete k (take k D ++ x :: drop k D) = D) as Hdel.
  { rewrite <- Hlk at 1. rewrite delete_middle. apply take_drop. }
  rewrite Hk.
  rewrite (handleMoveList_inside k _ _ x s).
  - cbn [lists activeRoutineState]. rewrite Hdel, ED.
    rewrite (reinsert_deleted _ _ _ Hx). apply state_eta.
  - exact Hat.
  - cbn [lists]. rewrite length_app, length_cons, length_take, length_drop.
    destruct (Z.ltb_spec (Z.of_nat s) targetIndexInContainer); lia.
  - destruct (Z.ltb_spec (Z.of_nat s) targetIndexInContainer) as [Hlt|Hge].
    + rewrite (proj2 (Z.ltb_ge _ _)) by lia. lia.
    + rewrite (proj2 (Z.ltb_lt _ _)) by lia. lia.
Qed.

Lemma handleMoveList_undone_witness :
  handleMoveList 1 0
    (handleMoveList 0 2
       (mkApp [RoutineList.mk "a" "A" []; RoutineList.mk "b" "B" [];
               RoutineList.mk "c" "C" []] None))
  = mkApp [RoutineList.mk "a" "A" []; RoutineList.mk "b" "B" [];
           RoutineList.mk "c" "C" []] None.
Proof.
  exact (handleMoveList_undone 0 2
           (mkApp [RoutineList.mk "a" "A" []; RoutineList.mk "b" "B" [];
                   RoutineList.mk "c" "C" []] None)
           ltac:(simpl; lia) ltac:(simpl; lia)).
Defined.

(** * Moving a routine *)

Lemma timed_elem {horizon : Z} (rs : list Routine.t) :
  timed horizon rs = true ↔
  ∀ r, r ∈ rs →
       (∃ t, timeOfDay (Routine.startTime r) = Some t)
       ∧ durationInRange horizon (Routine.durationSeconds r) = true.
Proof.
  unfold timed. rewrite forallb_forall. split.
  - intros H r Hr. apply list_elem_of_In, H in Hr.
    apply andb_prop in Hr as [Ht Hd].
    destruct (timeOfDay (Routine.startTime r)) as [t|]; [eauto | done].
  - intros H r Hr. apply list_elem_of_In, H in Hr as [[t ->] ->]. done.
Qed.

Lemma settled_timed {horizon : Z} (rs : list Routine.t) :
  settled rs = true → durationsInRange horizon rs = true →
  timed horizon rs = true.
Proof.
  intros Hset Hdur. apply timed_elem. intros r Hr.
  apply list_elem_of_lookup in Hr as [k Hk].
  destruct (settled_start rs k r Hset Hk) as (t & Ht & Hstart).
  rewrite durationsInRange_lookup in Hdur. split; [| eauto].
  exists t. by apply timeOfDay_spec.
Qed.

Lemma timed_delete {horizon : Z} (rs : list Routine.t) (k : nat) :
  timed horizon rs = true → timed horizon (delete k rs) = true.
Proof.
  rewrite !timed_elem. intros H r Hr.
  apply H. by apply list_elem_of_delete_inv in Hr.
Qed.

Lemma timed_splice_insert {horizon : Z} (rs : list Routine.t) (start : Z)
    (x : Routine.t) :
  timed horizon rs = true → timed horizon [x] = true →
  timed horizon (splice rs start 0 [x]).1 = true.
Proof.
  rewrite !timed_elem. intros H Hx r Hr. unfold splice in Hr.
  cbn [fst app] in Hr. rewrite Nat.add_0_r in Hr.
  apply elem_of_app in Hr as [Hr | Hr].
  - apply H. rewrite <- (take_drop (spliceStart rs start) rs).
    apply elem_of_app. by left.
  - apply elem_of_cons in Hr as [-> | Hr].
    + apply Hx, list_elem_of_here.
    + apply H. rewrite <- (take_drop (spliceStart rs start) rs).
      apply elem_of_app. by right.
Qed.

(** Recalculating the whole of a schedule whose routines start at times of
    day settles it, keeping ids, names and durations. *)
Lemma recalculate_whole zone off horizon clock
    (Hq : quietClock zone off horizon clock) (l : RoutineList.t) :
  timed horizon (RoutineList.routines l) = true →
  ∃ rs',
    recalculateTimesInList zone clock l 0
    = Known (RoutineList.mk (RoutineList.id l) (RoutineList.title l) rs')
    ∧ settled rs' = true
    ∧ durationsInRange horizon rs' = true
    ∧ Forall2 retimed (RoutineList.routines l) rs'.
Proof.
  intros Htimed. pose proof (proj1 (timed_elem _) Htimed) as H.
  destruct (recalculate_settles zone off horizon clock Hq l 0)
    as (rs' & Hrun & Hset & Hdur & Hlen & _ & Hall).
  - done.
  - apply durationsInRange_lookup. intros k r Hr.
    apply list_elem_of_lookup_2, H in Hr. tauto.
  - intros _.
    destruct (RoutineList.routines l !! 0%nat) as [r|] eqn:Hr;
      [| unfold anchorInRange; by rewrite Hr].
    pose proof Hr as Hr0.
    apply list_elem_of_lookup_2, H in Hr as [[t Ht] _].
    apply timeOfDay_spec in Ht as [Ht Hstart].
    by apply (anchor_of_time_of_day zone off horizon clock Hq _ r t).
  - exists rs'. split; [done |]. split; [done |]. split; [done |].
    apply Forall2_same_length_lookup_2; [done |].
    intros i x y Hx Hy. destruct (Hall i x Hx) as (r & Hr & Hret).
    congruence.
Qed.

Lemma retimed_trans (a b c : Routine.t) :
  retimed a b → retimed b c → retimed a c.
Proof.
  intros (H1 & H2 & H3) (H4 & H5 & H6). unfold retimed.
  split; [congruence |]. split; congruence.
Qed.

Lemma retimed_refl (rs : list Routine.t) : Forall2 retimed rs rs.
Proof. apply Forall_Forall2_diag, Forall_forall. by intros r _. Qed.

Lemma findIndex_same_ids (listId : string) (l1 l2 : list RoutineList.t) :
  RoutineList.id <$> l1 = RoutineList.id <$> l2 →
  findIndex (λ l, String.eqb (RoutineList.id l) listId) l1
  = findIndex (λ l, String.eqb (RoutineList.id l) listId) l2.
Proof.
  revert l2. induction l1 as [|a l1 IH]; intros [|b l2] H; try done.
  cbn [fmap list_fmap] in H. injection H as Hab Hrest.
  cbn [findIndex]. by rewrite Hab, (IH l2 Hrest).
Qed.

Lemma insert_same_id (ls : list RoutineList.t) (i : nat)
    (l l' : RoutineList.t) :
  ls !! i = Some l → RoutineList.id l' = RoutineList.id l →
  RoutineList.id <$> <[i := l']> ls = RoutineList.id <$> ls.
Proof.
  intros Hl Hid. rewrite list_fmap_insert, Hid.
  apply list_insert_id. by rewrite list_lookup_fmap, Hl.
Qed.

Lemma wellScheduled_lookup {horizon : Z} (ls : list RoutineList.t) :
  wellScheduled horizon ls = true ↔
  ∀ j l, ls !! j = Some l →
         settled (RoutineList.routines l) = true
         ∧ durationsInRange horizon (RoutineList.routines l) = true.
Proof.
  unfold wellScheduled. rewrite forallb_forall. split.
  - intros H j l Hl. apply list_elem_of_lookup_2, list_elem_of_In, H in Hl.
    by apply andb_prop in Hl.
  - intros H l Hl. apply list_elem_of_In, list_elem_of_lookup in Hl as [j Hj].
    destruct (H j l Hj) as [-> ->]. done.
Qed.

(** The recalculation [handleMoveRoutine] makes of a list it has changed. *)
Lemma recalculate_moved zone off horizon clock
    (Hq : quietClock zone off horizon clock) (l : RoutineList.t) :
  timed horizon (RoutineList.routines l) = true →
  ∃ l',
    recalculateTimesInList zone clock l 0 = Known l'
    ∧ RoutineList.id l' = RoutineList.id l
    ∧ RoutineList.title l' = RoutineList.title l
    ∧ settled (RoutineList.routines l') = true
    ∧ durationsInRange horizon (RoutineList.routines l') = true
    ∧ Forall2 retimed (RoutineList.routines l) (RoutineList.routines l').
Proof.
  intros H. destruct (recalculate_whole zone off horizon clock Hq l H)
    as (rs' & Hrun & Hset & Hdur & Hret).
  eexists. split; [exact Hrun |]. done.
Qed.

(** What [handleMoveRoutine] does in a state whose schedules are settled. *)
Lemma handleMoveRoutine_settled zone off horizon (clock : nat → nat → Date)
    (Hq : ∀ j, quietClock zone off horizon (clock j))
    (cardId sourceListId targetListId : string) (targetIndex : Z)
    (st : AppState) (si ci ti : nat) (source target : RoutineList.t)
    (card : Routine.t) :
  wellScheduled horizon (lists st) = true →
  findIndex (λ l, String.eqb (RoutineList.id l) sourceListId) (lists st)
  = Z.of_nat si →
  lists st !! si = Some source →
  findIndex (λ r, String.eqb (Routine.id r) cardId)
    (RoutineList.routines source) = Z.of_nat ci →
  RoutineList.routines source !! ci = Some card →
  findIndex (λ l, String.eqb (RoutineList.id l) targetListId) (lists st)
  = Z.of_nat ti →
  <[si := RoutineList.mk (RoutineList.id source) (RoutineList.title source)
            (delete ci (RoutineList.routines source))]> (lists st) !! ti
  = Some target →
  ∃ newLists,
    handleMoveRoutine zone clock cardId sourceListId targetListId targetIndex st
    = Known (mkApp newLists
               (if timerOnList (activeRoutineState st) sourceListId
                   || timerOnList (activeRoutineState st) targetListId
                then None else activeRoutineState st),
             if timerOnList (activeRoutineState st) sourceListId
                || timerOnList (activeRoutineState st) targetListId
             then [StoppedByMove] else [])
    ∧ wellScheduled horizon newLists = true
    ∧ RoutineList.id <$> newLists = RoutineList.id <$> lists st
    ∧ (∀ j, j ≠ si → j ≠ ti → newLists !! j = lists st !! j)
    ∧ (si ≠ ti →
       ∃ l, newLists !! si = Some l
            ∧ RoutineList.title l = RoutineList.title source
            ∧ Forall2 retimed (delete ci (RoutineList.routines source))
                (RoutineList.routines l))
    ∧ (∃ l, newLists !! ti = Some l
            ∧ RoutineList.title l = RoutineList.title target
            ∧ Forall2 retimed
                (splice (RoutineList.routines target) targetIndex 0 [card]).1
                (RoutineList.routines l)).
Proof.
  intros Hws Hsi Hsrc Hci Hcard Hti Htgt.
  pose proof (proj1 (wellScheduled_lookup _) Hws) as Hws'.
  pose proof (lookup_lt_Some _ _ _ Hsrc) as Hsilt.
  assert (ti < length (lists st))%nat as Htilt.
  { apply lookup_lt_Some in Htgt. by rewrite length_insert in Htgt. }
  assert (timed horizon (RoutineList.routines source) = true) as Htsource.
  { destruct (Hws' si source Hsrc). by apply settled_timed. }
  assert (timed horizon [card] = true) as Htcard.
  { apply timed_elem. intros r ->%list_elem_of_singleton.
    apply (proj1 (timed_elem _) Htsource).
    by apply list_elem_of_lookup_2 in Hcard. }
  unfold handleMoveRoutine.
  rewrite Hsi. rewrite (proj2 (Z.eqb_neq _ _)) by lia.
  rewrite Nat2Z.id, Hsrc, Hci.
  rewrite (proj2 (Z.ltb_lt _ _)) by lia.
  rewrite (splice_remove_at _ _ _ Hcard).
  set (source1 := RoutineList.mk (RoutineList.id source)
                    (RoutineList.title source)
                    (delete ci (RoutineList.routines source))) in *.
  set (ls1 := <[si := source1]> (lists st)) in *.
  assert (RoutineList.id <$> ls1 = RoutineList.id <$> lists st) as Hids1.
  { by apply (insert_same_id _ _ source). }
  rewrite (findIndex_same_ids targetListId ls1 (lists st) Hids1), Hti.
  rewrite (proj2 (Z.eqb_neq _ _)) by lia. rewrite Nat2Z.id, Htgt.
  assert (timed horizon (RoutineList.routines target) = true) as Httarget.
  { destruct (decide (ti = si)) as [-> | Hne].
    - unfold ls1 in Htgt. rewrite list_lookup_insert_eq in Htgt by done.
      injection Htgt as <-. by apply timed_delete.
    - unfold ls1 in Htgt. rewrite list_lookup_insert_ne in Htgt by done.
      destruct (Hws' ti target Htgt). by apply settled_timed. }
  set (target2 := RoutineList.mk (RoutineList.id target)
                    (RoutineList.title target)
                    (splice (RoutineList.routines target) targetIndex 0
                       [card]).1).
  set (ls2 := <[ti := target2]> ls1).
  assert (length ls1 = length (lists st)) as Hlen1
    by apply length_insert.
  assert (length ls2 = length (lists st)) as Hlen2
    by (unfold ls2; by rewrite length_insert).
  assert (RoutineList.id <$> ls2 = RoutineList.id <$> lists st) as Hids2.
  { rewrite <- Hids1. by apply (insert_same_id _ _ target). }
  assert (ls2 !! ti = Some target2) as Ht2.
  { apply list_lookup_insert_eq. lia. }
  assert (timed horizon (RoutineList.routines target2) = true) as Htt2.
  { by apply timed_splice_insert. }
  destruct (lookup_lt_is_Some_2 ls2 si) as [s2 Hs2]; [lia |].
  assert (timed horizon (RoutineList.routines s2) = true) as Hts2.
  { destruct (decide (si = ti)) as [-> | Hne]; [congruence |].
    unfold ls2 in Hs2. rewrite list_lookup_insert_ne in Hs2 by done.
    unfold ls1 in Hs2. rewrite list_lookup_insert_eq in Hs2 by done.
    injection Hs2 as <-. by apply timed_delete. }
  rewrite Hs2.
  assert (∃ l3,
            (if (0 <? length (RoutineList.routines s2))%nat
             then r ← recalculateTimesInList zone (clock 0%nat) s2 0;
                  Known (<[si := r]> ls2)
             else Known ls2) = Known (<[si := l3]> ls2)
            ∧ RoutineList.id l3 = RoutineList.id s2
            ∧ RoutineList.title l3 = RoutineList.title s2
            ∧ settled (RoutineList.routines l3) = true
            ∧ durationsInRange horizon (RoutineList.routines l3) = true
            ∧ Forall2 retimed (RoutineList.routines s2)
                (RoutineList.routines l3))
    as (l3 & -> & Hid3 & Htitle3 & Hset3 & Hdur3 & Hret3).
  { destruct (0 <? length (RoutineList.routines s2))%nat eqn:Hnonempty.
    - destruct (recalculate_moved zone off horizon (clock 0%nat)
                  (Hq 0%nat) s2 Hts2)
        as (l3 & -> & H). by exists l3.
    - exists s2. rewrite list_insert_id by done.
      apply Nat.ltb_ge in Hnonempty.
      destruct (RoutineList.routines s2) eqn:E; [| cbn in Hnonempty; lia].
      repeat split; done || constructor. }
  cbn [mbind tracked_bind].
  set (ls3 := <[si := l3]> ls2).
  assert (length ls3 = length (lists st)) as Hlen3
    by (unfold ls3; by rewrite length_insert).
  assert (RoutineList.id <$> ls3 = RoutineList.id <$> lists st) as Hids3.
  { rewrite <- Hids2. by apply (insert_same_id _ _ s2). }
  destruct (lookup_lt_is_Some_2 ls3 ti) as [t3 Ht3]; [lia |].
  assert (timed horizon (RoutineList.routines t3) = true
          ∧ RoutineList.title t3 = RoutineList.title target
          ∧ Forall2 retimed (RoutineList.routines target2)
              (RoutineList.routines t3)) as (Htt3 & Htitlet3 & Hrett3).
  { unfold ls3 in Ht3. destruct (decide (ti = si)) as [-> | Hne].
    - rewrite list_lookup_insert_eq in Ht3 by lia. injection Ht3 as <-.
      assert (s2 = target2) as -> by congruence.
      split; [by apply settled_timed |]. done.
    - rewrite list_lookup_insert_ne in Ht3 by done.
      assert (t3 = target2) as -> by congruence.
      split; [done |]. split; [done |]. apply retimed_refl. }
  rewrite Ht3.
  destruct (recalculate_moved zone off horizon (clock 1%nat) (Hq 1%nat) t3
              Htt3)
    as (l4 & -> & Hid4 & Htitle4 & Hset4 & Hdur4 & Hret4).
  cbn [mbind tracked_bind].
  set (ls4 := <[ti := l4]> ls3).
  assert (RoutineList.id <$> ls4 = RoutineList.id <$> lists st) as Hids4.
  { rewrite <- Hids3. by apply (insert_same_id _ _ t3). }
  assert (∀ j, j ≠ si → j ≠ ti → ls4 !! j = lists st !! j) as Hothers.
  { intros j Hjs Hjt. unfold ls4, ls3, ls2, ls1.
    by rewrite !list_lookup_insert_ne by done. }
  assert (ls4 !! ti = Some l4) as Hl4.
  { apply list_lookup_insert_eq. lia. }
  assert (si ≠ ti → ls4 !! si = Some l3) as Hl3.
  { intros Hne. unfold ls4. rewrite list_lookup_insert_ne by done.
    apply list_lookup_insert_eq. lia. }
  exists ls4. split; [| split; [| split; [done | split; [done | split]]]].
  - by destruct (timerOnList (activeRoutineState st) sourceListId
                 || timerOnList (activeRoutineState st) targetListId).
  - apply wellScheduled_lookup. intros j l Hl.
    destruct (decide (j = ti)) as [-> | Hjt]; [by simplify_eq |].
    destruct (decide (j = si)) as [-> | Hjs].
    + rewrite Hl3 in Hl by done. by simplify_eq.
    + rewrite Hothers in Hl by done. by apply (Hws' j).
  - intros Hne. exists l3. split; [by apply Hl3 |].
    assert (s2 = source1) as ->.
    { unfold ls2 in Hs2. rewrite list_lookup_insert_ne in Hs2 by done.
      unfold ls1 in Hs2. rewrite list_lookup_insert_eq in Hs2 by done.
      congruence. }
    done.
  - exists l4. split; [done |]. split; [congruence |].
    apply (Forall2_trans retimed retimed retimed _ _ _ retimed_trans Hrett3
             Hret4).
Qed.


(** X18. Moving a routine from one list of a settled state into a list of
    it, or within its list, where the host's clock is quiet: the routine
    leaves the source and enters the target at the index [splice] gives,
    the other routines keep their order, every routine keeps id, name and duration, and both lists are
    recalculated from their first routine, so all schedules are settled
    again, each starting when the routine that is now its first one
    started. The lists keep their ids and places, and the lists not
    involved are untouched. A timer on the source or target list is stopped
    and the stop announced; a timer elsewhere keeps running. *)
Theorem handleMoveRoutine_moves (zone : TimeZone) (off horizon : Z)
    (clock : nat → nat → Date)
    (cardId sourceListId targetListId : string) (targetIndex : Z)
    (st : AppState) (si ci ti : nat) (source target : RoutineList.t)
    (card : Routine.t) :
  (∀ j, quietClock zone off horizon (clock j)) →
  wellScheduled horizon (lists st) = true →
  findIndex (λ l, String.eqb (RoutineList.id l) sourceListId) (lists st)
  = Z.of_nat si →
  lists st !! si = Some source →
  findIndex (λ r, String.eqb (Routine.id r) cardId)
    (RoutineList.routines source) = Z.of_nat ci →
  RoutineList.routines source !! ci = Some card →
  findIndex (λ l, String.eqb (RoutineList.id l) targetListId) (lists st)
  = Z.of_nat ti →
  <[si := RoutineList.mk (RoutineList.id source) (RoutineList.title source)
            (delete ci (RoutineList.routines source))]> (lists st) !! ti
  = Some target →
  ∃ newLists,
    handleMoveRoutine zone clock cardId sourceListId targetListId targetIndex st
    = Known (mkApp newLists
               (if timerOnList (activeRoutineState st) sourceListId
                   || timerOnList (activeRoutineState st) targetListId
                then None else activeRoutineState st),
             if timerOnList (activeRoutineState st) sourceListId
                || timerOnList (activeRoutineState st) targetListId
             then [StoppedByMove] else [])
    ∧ wellScheduled horizon newLists = true
    ∧ RoutineList.id <$> newLists = RoutineList.id <$> lists st
    ∧ (∀ j, j ≠ si → j ≠ ti → newLists !! j = lists st !! j)
    ∧ (si ≠ ti →
       ∃ l, newLists !! si = Some l
            ∧ RoutineList.title l = RoutineList.title source
            ∧ Forall2 retimed (delete ci (RoutineList.routines source))
                (RoutineList.routines l))
    ∧ (∃ l, newLists !! ti = Some l
            ∧ RoutineList.title l = RoutineList.title target
            ∧ Forall2 retimed
                (splice (RoutineList.routines target) targetIndex 0 [card]).1
                (RoutineList.routines l)).
Proof. intros Hq. by apply (handleMoveRoutine_settled zone off). Qed.

Lemma handleMoveRoutine_moves_witness :
  ∃ newLists,
    handleMoveRoutine europeBerlin2026 (λ _ _, 1793610000000) "r1" "l1" "l2"
      0
      (mkApp
         [RoutineList.mk "l1" "Morning"
            [Routine.mk "r1" "Wake" "08:00:00" 600 "08:10:00";
             Routine.mk "r2" "Run" "08:10:00" 300 "08:15:00"];
          RoutineList.mk "l2" "Evening"
            [Routine.mk "r3" "Read" "21:00:00" 60 "21:01:00"]]
         (Some (ActiveRoutineState.mk "l2" "r3" 0 42 "Read")))
    = Known (mkApp newLists None, [StoppedByMove])
    ∧ wellScheduled 86400 newLists = true
    ∧ RoutineList.id <$> newLists = ["l1"; "l2"]
    ∧ ∃ l, newLists !! 1%nat = Some l
           ∧ RoutineList.title l = "Evening"
           ∧ Forall2 retimed
               [Routine.mk "r1" "Wake" "08:00:00" 600 "08:10:00";
                Routine.mk "r3" "Read" "21:00:00" 60 "21:01:00"]
               (RoutineList.routines l).
Proof.
  destruct (handleMoveRoutine_moves europeBerlin2026 3600000 86400
              (λ _ _, 1793610000000) "r1" "l1" "l2" 0
              (mkApp
                 [RoutineList.mk "l1" "Morning"
                    [Routine.mk "r1" "Wake" "08:00:00" 600 "08:10:00";
                     Routine.mk "r2" "Run" "08:10:00" 300 "08:15:00"];
                  RoutineList.mk "l2" "Evening"
                    [Routine.mk "r3" "Read" "21:00:00" 60 "21:01:00"]]
                 (Some (ActiveRoutineState.mk "l2" "r3" 0 42 "Read")))
              0 0 1
              (RoutineList.mk "l1" "Morning"
                 [Routine.mk "r1" "Wake" "08:00:00" 600 "08:10:00";
                  Routine.mk "r2" "Run" "08:10:00" 300 "08:15:00"])
              (RoutineList.mk "l2" "Evening"
                 [Routine.mk "r3" "Read" "21:00:00" 60 "21:01:00"])
              (Routine.mk "r1" "Wake" "08:00:00" 600 "08:10:00")
              (λ _ _, quiet_europeBerlin2026 86400 1793610000000 eq_refl)
              eq_refl eq_refl eq_refl eq_refl eq_refl eq_refl eq_refl)
    as (newLists & Hrun & Hws & Hids & _ & _ & Htarget).
  exists newLists. split; [exact Hrun |]. split; [exact Hws |].
  split; [exact Hids | exact Htarget].
Defined.

(** X19. When there is nothing to move, [handleMoveRoutine] returns the
    state as it is: no list has the source id, or the first list with the
    source id holds no routine with the card id, or no list has the target
    id. A timer keeps running and nothing is announced. *)
Theorem handleMoveRoutine_nothing_moved (zone : TimeZone)
    (clock : nat → nat → Date)
    (cardId sourceListId targetListId : string) (targetIndex : Z)
    (st : AppState) :
  forallb (λ l, negb (String.eqb (RoutineList.id l) sourceListId)) (lists st)
  = true
  ∨ (∃ si source,
       findIndex (λ l, String.eqb (RoutineList.id l) sourceListId) (lists st)
       = Z.of_nat si
       ∧ lists st !! si = Some source
       ∧ forallb (λ r, negb (String.eqb (Routine.id r) cardId))
           (RoutineList.routines source) = true)
  ∨ forallb (λ l, negb (String.eqb (RoutineList.id l) targetListId))
      (lists st) = true →
  handleMoveRoutine zone clock cardId sourceListId targetListId targetIndex st
  = Known (st, []).
Proof.
  intros [Hnosource | [(si & source & Hsi & Hsrc & Hnocard) | Hnotarget]];
    unfold handleMoveRoutine.
  - by rewrite (findIndex_absent _ _ Hnosource).
  - rewrite Hsi. rewrite (proj2 (Z.eqb_neq _ _)) by lia.
    rewrite Nat2Z.id, Hsrc. by rewrite (findIndex_absent _ _ Hnocard).
  - destruct (findIndex _ (lists st) =? -1); [done |].
    destruct (lists st !! _) as [source|] eqn:Hsrc; [| done].
    destruct (if -1 <? findIndex _ (RoutineList.routines source)
              then _ else _) as [remaining [|cardToMove removed]]; [done |].
    rewrite (findIndex_same_ids targetListId _ (lists st)).
    + by rewrite (findIndex_absent _ _ Hnotarget).
    + by apply (insert_same_id _ _ source).
Qed.

Lemma handleMoveRoutine_nothing_moved_witness :
  handleMoveRoutine europeBerlin2026 (λ _ _, 1793610000000) "r1" "l1" "l9" 0
    (mkApp
       [RoutineList.mk "l1" "Morning"
          [Routine.mk "r1" "Wake" "08:00:00" 600 "08:10:00"]]
       (Some (ActiveRoutineState.mk "l1" "r1" 0 42 "Wake")))
  = Known (mkApp
             [RoutineList.mk "l1" "Morning"
                [Routine.mk "r1" "Wake" "08:00:00" 600 "08:10:00"]]
             (Some (ActiveRoutineState.mk "l1" "r1" 0 42 "Wake")),
           []).
Proof.
  apply (handleMoveRoutine_nothing_moved europeBerlin2026
           (λ _ _, 1793610000000) "r1" "l1" "l9" 0
           (mkApp
              [RoutineList.mk "l1" "Morning"
                 [Routine.mk "r1" "Wake" "08:00:00" 600 "08:10:00"]]
              (Some (ActiveRoutineState.mk "l1" "r1" 0 42 "Wake")))).
  right. right. reflexivity.
Defined.

(** * The cascade in closed form *)

Lemma wallClock_inj (t u : Z) :
  0 ≤ t < secondsPerDay → 0 ≤ u < secondsPerDay →
  wallClock t = wallClock u → t = u.
Proof.
  intros Ht Hu H.
  pose proof (proj2 (timeOfDay_spec (wallClock t) t) (conj Ht eq_refl)) as H1.
  pose proof (proj2 (timeOfDay_spec (wallClock u) u) (conj Hu eq_refl)) as H2.
  rewrite H in H1. congruence.
Qed.

Lemma totalSeconds_take_S (rs : list Routine.t) (k : nat) (r : Routine.t) :
  rs !! k = Some r →
  totalSeconds (take (S k) rs)
  = totalSeconds (take k rs) + Routine.durationSeconds r.
Proof.
  revert k. induction rs as [|a rs IH]; intros k Hr; [done |].
  destruct k as [|k].
  - injection Hr as ->. unfold totalSeconds. cbn [take foldr].
    rewrite take_0. cbn [foldr]. lia.
  - specialize (IH k Hr). unfold totalSeconds in *.
    cbn [take foldr] in *. rewrite IH. lia.
Qed.

(** In a settled schedule whose first routine starts at [t0], each routine
    starts [t0] plus the durations before it into the day. *)
Lemma settled_closed_form (rs : list Routine.t) (t0 : Z) (first : Routine.t) :
  settled rs = true → rs !! 0%nat = Some first →
  0 ≤ t0 < secondsPerDay → Routine.startTime first = wallClock t0 →
  ∀ k r, rs !! k = Some r →
    Routine.startTime r
    = wallClock ((t0 + totalSeconds (take k rs)) mod secondsPerDay)
    ∧ Routine.endTime r
      = wallClock ((t0 + totalSeconds (take (S k) rs)) mod secondsPerDay).
Proof.
  intros Hset Hfirst Ht0 Hstart0.
  pose proof (proj1 (settled_lookup rs) Hset) as Hat.
  assert (∀ x, 0 ≤ x mod secondsPerDay < secondsPerDay) as Hmod.
  { intros x. apply Z.mod_pos_bound. unfold secondsPerDay. lia. }
  induction k as [|k IH]; intros r Hr.
  - assert (r = first) as -> by congruence.
    destruct (Hat 0%nat first Hfirst) as (t & Ht & Hs & He & _).
    assert (t = t0) as -> by (apply wallClock_inj; congruence).
    rewrite (totalSeconds_take_S rs 0 first Hfirst).
    cbn [take totalSeconds foldr]. rewrite Z.add_0_r, Z.add_0_l.
    rewrite Z.mod_small by done. split; [done |]. exact He.
  - destruct (lookup_lt_is_Some_2 rs k) as [p Hp];
      [apply lookup_lt_Some in Hr; lia |].
    destruct (IH p Hp) as [_ Hpend].
    destruct (Hat (S k) r Hr) as (t & Ht & Hs & He & Hprev).
    cbn [endBefore] in Hprev. rewrite Hp in Hprev.
    specialize (Hprev _ eq_refl). rewrite Hpend in Hprev.
    apply wallClock_inj in Hprev; [| apply Hmod | done].
    rewrite (totalSeconds_take_S rs (S k) r Hr).
    split; [by rewrite Hs, Hprev |].
    rewrite He, <- Hprev, wallClockAdd_mod. unfold wallClockAdd.
    f_equal. f_equal. lia.
Qed.

(** X20. The cascade in closed form. Where the host's clock is quiet,
    recalculating a whole schedule whose first start time reads as a date in
    range gives every routine the start time of the first one plus the
    durations of the routines before it, on the wall clock, and that plus
    its own duration as end time; ids, names and durations are kept. *)
Theorem recalculateTimesInList_closed_form (zone : TimeZone)
    (off horizon : Z) (clock : nat → Date) (list : RoutineList.t)
    (first : Routine.t) (d : Date) :
  quietClock zone off horizon clock →
  RoutineList.routines list !! 0%nat = Some first →
  parseTimeToDate zone (clock 0%nat) (Routine.startTime first) = Known d →
  startDateInRange (clock 0%nat) (Known d) = true →
  durationsInRange horizon (RoutineList.routines list) = true →
  ∃ rs',
    recalculateTimesInList zone clock list 0
    = Known (RoutineList.mk (RoutineList.id list) (RoutineList.title list) rs')
    ∧ length rs' = length (RoutineList.routines list)
    ∧ ∀ k r, RoutineList.routines list !! k = Some r →
        rs' !! k
        = Some (Routine.mk (Routine.id r) (Routine.name r)
                  (wallClock
                     ((LocalTime zone d / 1000
                       + totalSeconds (take k (RoutineList.routines list)))
                      mod secondsPerDay))
                  (Routine.durationSeconds r)
                  (wallClock
                     ((LocalTime zone d / 1000
                       + totalSeconds
                           (take (S k) (RoutineList.routines list)))
                      mod secondsPerDay))).
Proof.
  intros Hq Hfirst Hparse Hrange Hdur.
  destruct (recalculate_settles zone off horizon clock Hq list 0)
    as (rs' & Hrun & Hset & _ & Hlen & _ & Hall).
  - done.
  - done.
  - intros _. unfold anchorInRange, currentStartTimeDateAt.
    rewrite Hfirst. cbn [Nat.eqb]. by rewrite Hparse.
  - exists rs'. split; [done |]. split; [done |].
    destruct (recalculate_first_element zone clock list _ 0 first Hrun
                Hfirst)
      as (d' & e & Hd & _ & Hfirst').
    unfold currentStartTimeDateAt in Hd. cbn [Nat.eqb] in Hd.
    assert (d' = d) as -> by congruence.
    cbn [RoutineList.routines] in Hfirst'.
    assert (0 ≤ (LocalTime zone d / 1000) mod secondsPerDay < secondsPerDay)
      as Ht0.
    { apply Z.mod_pos_bound. unfold secondsPerDay. lia. }
    pose proof (settled_closed_form rs' _ _ Hset Hfirst' Ht0
                  (formatTimeFromDate_wallClock zone d)) as Hform.
    assert (∀ k, totalSeconds (take k rs')
                 = totalSeconds (take k (RoutineList.routines list))) as Htot.
    { induction k as [|k IHk]; [done |].
      destruct (RoutineList.routines list !! k) as [r|] eqn:Hr.
      - destruct (Hall k r Hr) as (r' & Hr' & _ & _ & Hd').
        rewrite (totalSeconds_take_S _ k r' Hr'),
          (totalSeconds_take_S _ k r Hr). by rewrite IHk, Hd'.
      - pose proof (lookup_ge_None_1 _ _ Hr) as Hge.
        rewrite (take_ge rs') by lia.
        rewrite (take_ge (RoutineList.routines list)) by lia.
        rewrite <- (take_ge rs' k) by lia.
        rewrite <- (take_ge (RoutineList.routines list) k) by lia.
        exact IHk. }
    intros k r Hr. destruct (Hall k r Hr) as (r' & Hr' & Hid & Hname & Hd').
    destruct (Hform k r' Hr') as [Hs He].
    rewrite !Htot in Hs, He.
    rewrite Zplus_mod_idemp_l in Hs, He.
    rewrite Hr'. f_equal. destruct r' as [i n s du e'].
    cbn in *. by subst.
Qed.

Lemma recalculateTimesInList_closed_form_witness :
  ∃ rs',
    recalculateTimesInList europeBerlin2026 (λ _, 1793610000000)
      (RoutineList.mk "l1" "Morning"
         [Routine.mk "r1" "Wake" "23:50:00" 600 "";
          Routine.mk "r2" "Run" "" 900 "12:00:00"]) 0
    = Known (RoutineList.mk "l1" "Morning" rs')
    ∧ rs' !! 1%nat = Some (Routine.mk "r2" "Run" "00:00:00" 900 "00:15:00").
Proof.
  destruct (recalculateTimesInList_closed_form europeBerlin2026 3600000
              86400 (λ _, 1793610000000)
              (RoutineList.mk "l1" "Morning"
                 [Routine.mk "r1" "Wake" "23:50:00" 600 "";
                  Routine.mk "r2" "Run" "" 900 "12:00:00"])
              (Routine.mk "r1" "Wake" "23:50:00" 600 "") 1793659800000
              (λ _, quiet_europeBerlin2026 86400 1793610000000 eq_refl)
              eq_refl eq_refl eq_refl eq_refl)
    as (rs' & Hrun & _ & Hform).
  exists rs'. split; [exact Hrun |].
  exact (Hform 1%nat (Routine.mk "r2" "Run" "" 900 "12:00:00") eq_refl).
Defined.

(** * Adding to a settled schedule *)

Lemma settled_snoc (rs : list Routine.t) (new : Routine.t) (t : Z) :
  settled rs = true →
  0 ≤ t < secondsPerDay →
  Routine.startTime new = wallClock t →
  Routine.endTime new
  = wallClock (wallClockAdd t (Routine.durationSeconds new)) →
  (∀ l, last rs = Some l → Routine.endTime l = wallClock t) →
  settled (rs ++ [new]) = true.
Proof.
  intros Hset Ht Hstart Hend Hlast.
  pose proof (proj1 (settled_lookup rs) Hset) as Hat.
  apply settled_lookup. intros k r Hr.
  destruct (decide (k < length rs)%nat) as [Hk|Hk].
  - rewrite lookup_app_l in Hr by done.
    replace (endBefore (rs ++ [new]) k) with (endBefore rs k);
      [by apply Hat |].
    destruct k as [|k]; [done |]. cbn [endBefore].
    by rewrite lookup_app_l by lia.
  - pose proof (lookup_lt_Some _ _ _ Hr) as Hlt.
    rewrite length_app in Hlt. cbn [length] in Hlt.
    assert (k = length rs) as -> by lia.
    rewrite list_lookup_middle in Hr by done. injection Hr as <-.
    exists t. split; [done |]. split; [done |]. split; [done |].
    intros e He. destruct (length rs) as [|n] eqn:Hn; [done |].
    cbn [endBefore] in He. rewrite lookup_app_l in He by lia.
    rewrite last_lookup, Hn in Hlast. cbn [pred] in Hlast.
    destruct (rs !! n) as [l|]; [| done].
    injection He as <-. by apply Hlast.
Qed.

(** What the form adds to a settled schedule, on the list it belongs to. *)
Lemma submitted_routine_settled zone off horizon (now : Date)
    (Hq : quiet zone off horizon now)
    (newId : string) (list : RoutineList.t)
    (newRoutineName newRoutineDurationInput newRoutineStartTime : string)
    (listId name : string) (durationSeconds : Z)
    (startTimeStr : option string) (t : Z) :
  settled (RoutineList.routines list) = true →
  durationsInRange horizon (RoutineList.routines list) = true →
  handleSubmitNewRoutine list newRoutineName newRoutineDurationInput
    newRoutineStartTime
  = Known (Some (listId, name, durationSeconds, startTimeStr)) →
  durationInRange horizon durationSeconds = true →
  newRoutineStartTime = ""
  ∨ timeOfDay (newRoutineStartTime +:+ ":00") = Some t →
  ∃ new,
    addRoutineToList zone now newId list name durationSeconds startTimeStr
    = Known (RoutineList.mk (RoutineList.id list) (RoutineList.title list)
               (RoutineList.routines list ++ [new]))
    ∧ settled (RoutineList.routines list ++ [new]) = true
    ∧ durationsInRange horizon (RoutineList.routines list ++ [new]) = true
    ∧ listId = RoutineList.id list
    ∧ Routine.id new = newId
    ∧ Routine.name new = newRoutineName
    ∧ Routine.durationSeconds new = durationSeconds
    ∧ 0 < durationSeconds
    ∧ Routine.startTime new
      = match last (RoutineList.routines list) with
        | Some l => Routine.endTime l
        | None =>
            if String.eqb newRoutineStartTime "" then "08:00:00"
            else newRoutineStartTime +:+ ":00"
        end.
Proof.
  intros Hset Hdur Hsubmit Hd Hstart.
  unfold handleSubmitNewRoutine in Hsubmit.
  destruct (parseDurationToSeconds newRoutineDurationInput) as [[d|]|];
    cbn [mbind tracked_bind] in Hsubmit; try discriminate Hsubmit.
  destruct (String.eqb (JS.trim newRoutineName) "" || (d <=? 0)) eqn:Hguard;
    [discriminate Hsubmit |].
  apply orb_false_iff in Hguard as [_ Hpos]. apply Z.leb_gt in Hpos.
  injection Hsubmit as <- <- <- <-.
  set (start := newRoutineStartTimeStr list
                  (if Nat.eqb (length (RoutineList.routines list)) 0
                   then Some newRoutineStartTime else None)).
  assert (∃ u, 0 ≤ u < secondsPerDay ∧ start = wallClock u
               ∧ (∀ l, last (RoutineList.routines list) = Some l →
                       Routine.endTime l = wallClock u)
               ∧ start
                 = match last (RoutineList.routines list) with
                   | Some l => Routine.endTime l
                   | None =>
                       if String.eqb newRoutineStartTime "" then "08:00:00"
                       else newRoutineStartTime +:+ ":00"
                   end) as (u & Hu & Hstartu & Hlast & Hshape).
  { unfold start, newRoutineStartTimeStr, startTimeWithoutInput.
    destruct (RoutineList.routines list) as [|r0 rs] eqn:Hrs using rev_ind.
    - cbn [length Nat.eqb last].
      destruct (String.eqb_spec newRoutineStartTime "") as [-> | Hne].
      + exists 28800. cbn [negb]. split; [unfold secondsPerDay; lia |].
        split; [reflexivity |]. split; [done | reflexivity].
      + destruct Hstart as [-> | Htime]; [done |].
        apply timeOfDay_spec in Htime as [Ht Htime]. exists t. cbn [negb].
        split; [done |]. split; [done |]. split; done.
    - clear IHrs. rewrite length_app, Nat.add_comm. cbn [length Nat.add Nat.eqb].
      rewrite last_snoc.
      pose proof (proj1 (settled_lookup _) Hset (length rs) r0
                    (list_lookup_middle _ _ _ _ eq_refl))
        as (t1 & Ht1 & _ & Hend & _).
      exists (wallClockAdd t1 (Routine.durationSeconds r0)).
      split; [apply wallClockAdd_bounds |].
      split; [done |]. split; [| done]. by intros l [= <-]. }
  pose proof (addRoutineToList_appends zone off horizon now newId list
                newRoutineName d
                (if Nat.eqb (length (RoutineList.routines list)) 0
                 then Some newRoutineStartTime else None) Hq) as Happ.
  fold start in Happ. unfold appendsRoutineAt in Happ.
  specialize (Happ (dateAt zone now u)). rewrite Hstartu in Happ.
  specialize (Happ (parseTimeToDate_wallClock zone off horizon now u Hq Hu)
                (timeOfDay_in_range zone off horizon now u Hq Hu) Hd).
  rewrite (wallClockAdd_dateAt zone off horizon now u _ Hq) in Happ
    by (unfold secondsPerDay in *; lia).
  rewrite <- Hstartu in Happ.
  eexists. split; [exact Happ |].
  split; [| split; [| split; [done | split; [done | split; [done |
    split; [done | split; [done | exact Hshape]]]]]]].
  - by apply (settled_snoc _ _ u).
  - unfold durationsInRange in *. rewrite forallb_app, Hdur.
    cbn [forallb Routine.durationSeconds]. by rewrite Hd.
Qed.

(** X21. Where the host's clock is quiet, adding from the form keeps a
    settled schedule settled. When [handleSubmitNewRoutine] accepts the
    form, with a start field that is empty or a time of day in HH:MM, the
    routine [handleAddRoutineToList]
    appends has the generated id, the name as typed, and the parsed
    duration, which is positive; it starts when the last routine ends, or
    on an empty list at the time of the form, or at 08:00:00 when that is
    empty. *)
Theorem handleSubmitNewRoutine_keeps_settled (zone : TimeZone)
    (off horizon : Z) (clock : nat → Date) (generateId : nat → string)
    (pre post : list RoutineList.t) (list : RoutineList.t)
    (newRoutineName newRoutineDurationInput newRoutineStartTime : string)
    (listId name : string) (durationSeconds : Z)
    (startTimeStr : option string) (t : Z) :
  quietClock zone off horizon clock →
  forallb (λ l, negb (String.eqb (RoutineList.id l) (RoutineList.id list)))
    (pre ++ post) = true →
  settled (RoutineList.routines list) = true →
  durationsInRange horizon (RoutineList.routines list) = true →
  handleSubmitNewRoutine list newRoutineName newRoutineDurationInput
    newRoutineStartTime
  = Known (Some (listId, name, durationSeconds, startTimeStr)) →
  durationInRange horizon durationSeconds = true →
  newRoutineStartTime = ""
  ∨ timeOfDay (newRoutineStartTime +:+ ":00") = Some t →
  ∃ new,
    handleAddRoutineToList zone clock generateId listId name durationSeconds
      startTimeStr (pre ++ list :: post)
    = Known (pre ++ RoutineList.mk (RoutineList.id list)
                      (RoutineList.title list)
                      (RoutineList.routines list ++ [new]) :: post)
    ∧ settled (RoutineList.routines list ++ [new]) = true
    ∧ durationsInRange horizon (RoutineList.routines list ++ [new]) = true
    ∧ listId = RoutineList.id list
    ∧ Routine.id new = generateId (length pre)
    ∧ Routine.name new = newRoutineName
    ∧ Routine.durationSeconds new = durationSeconds
    ∧ 0 < durationSeconds
    ∧ Routine.startTime new
      = match last (RoutineList.routines list) with
        | Some l => Routine.endTime l
        | None =>
            if String.eqb newRoutineStartTime "" then "08:00:00"
            else newRoutineStartTime +:+ ":00"
        end.
Proof.
  intros Hq Hothers Hset Hdur Hsubmit Hd Hstart.
  destruct (submitted_routine_settled zone off horizon (clock (length pre))
              (Hq (length pre)) (generateId (length pre)) list
              newRoutineName newRoutineDurationInput newRoutineStartTime
              listId name durationSeconds startTimeStr t Hset Hdur Hsubmit
              Hd Hstart) as (new & Hadd & Hrest).
  exists new. split; [| exact Hrest].
  destruct Hrest as (_ & _ & -> & _).
  exact (handleAddRoutineToList_single zone clock generateId
           (RoutineList.id list)
           name durationSeconds startTimeStr pre post list _ eq_refl
           Hothers Hadd).
Qed.

Lemma handleSubmitNewRoutine_keeps_settled_witness :
  ∃ new,
    handleAddRoutineToList europeBerlin2026 (λ _, 1793610000000)
      (λ _, "r2") "l1" "Run" 1800 None
      [RoutineList.mk "l1" "Morning"
         [Routine.mk "r1" "Wake" "08:00:00" 1500 "08:25:00"]]
    = Known [RoutineList.mk "l1" "Morning"
               ([Routine.mk "r1" "Wake" "08:00:00" 1500 "08:25:00"]
                ++ [new])]
    ∧ settled ([Routine.mk "r1" "Wake" "08:00:00" 1500 "08:25:00"] ++ [new])
      = true
    ∧ Routine.startTime new = "08:25:00".
Proof.
  destruct (handleSubmitNewRoutine_keeps_settled europeBerlin2026 3600000
              86400 (λ _, 1793610000000) (λ _, "r2") [] []
              (RoutineList.mk "l1" "Morning"
                 [Routine.mk "r1" "Wake" "08:00:00" 1500 "08:25:00"])
              "Run" "30" "09:30" "l1" "Run" 1800 None 34200
              (λ _, quiet_europeBerlin2026 86400 1793610000000 eq_refl)
              eq_refl eq_refl eq_refl eq_refl eq_refl (or_intror eq_refl))
    as (new & Hadd & Hset & _ & _ & _ & _ & _ & _ & Hstart).
  exists new. split; [exact Hadd |]. split; [exact Hset | exact Hstart].
Defined.

(** * Emptying a list *)

Lemma find_single {A : Type} (p : A → bool) (pre post : list A) (x : A) :
  forallb (λ y, negb (p y)) pre = true → p x = true →
  List.find p (pre ++ x :: post) = Some x.
Proof.
  intros Hpre Hx. induction pre as [|y pre IH].
  - cbn [app List.find]. by rewrite Hx.
  - cbn [forallb] in Hpre. apply andb_prop in Hpre as [Hy Hpre].
    apply negb_true_iff in Hy. cbn [app List.find]. rewrite Hy. by apply IH.
Qed.

Lemma deleteAll_others (listId : string)
    (ars : option ActiveRoutineState.t) (ls : list RoutineList.t) :
  forallb (λ l, negb (String.eqb (RoutineList.id l) listId)) ls = true →
  (λ y : RoutineList.t,
     if String.eqb (RoutineList.id y) listId
     then
       (RoutineList.mk (RoutineList.id y) (RoutineList.title y) [],
        if timerOnList ars listId
        then ([SetNull], [StoppedAllDeleted (RoutineList.title y)])
        else ([], []))
     else (y, ([], []))) <$> ls
  = (λ y, (y, (([] : list timerUpdate), ([] : list notice)))) <$> ls.
Proof.
  intros H. induction ls as [|l ls IH]; [done |].
  cbn [forallb] in H. apply andb_prop in H as [Hl Hls].
  apply negb_true_iff in Hl. cbn [fmap list_fmap]. rewrite Hl.
  f_equal. by apply IH.
Qed.

Lemma deleteAll_kept (ls : list RoutineList.t) :
  fst <$> ((λ y : RoutineList.t,
              (y, (([] : list timerUpdate), ([] : list notice)))) <$> ls)
  = ls
  ∧ concat ((λ x : RoutineList.t * (list timerUpdate * list notice), x.2.1)
              <$> ((λ y, (y, ([], []))) <$> ls)) = []
  ∧ concat ((λ x : RoutineList.t * (list timerUpdate * list notice), x.2.2)
              <$> ((λ y, (y, ([], []))) <$> ls)) = [].
Proof.
  induction ls as [|l ls (IH1 & IH2 & IH3)]; [done |].
  cbn [fmap list_fmap concat fst snd app].
  split; [by f_equal |]. split; done.
Qed.

(** [handleDeleteAllRoutinesInList] on a collection in which one list has
    the id. *)
Lemma deleteAll_single (listId : string) (st : AppState)
    (pre post : list RoutineList.t) (list : RoutineList.t) :
  lists st = pre ++ list :: post →
  RoutineList.id list = listId →
  forallb (λ l, negb (String.eqb (RoutineList.id l) listId)) (pre ++ post)
  = true →
  handleDeleteAllRoutinesInList listId st
  = (mkApp (pre ++ RoutineList.mk (RoutineList.id list)
                     (RoutineList.title list) [] :: post)
       (if timerOnList (activeRoutineState st) listId then None
        else activeRoutineState st),
     if timerOnList (activeRoutineState st) listId
     then [StoppedAllDeleted (RoutineList.title list)] else []).
Proof.
  intros Hlists Hid Hothers.
  rewrite forallb_app in Hothers. apply andb_prop in Hothers as [Hpre Hpost].
  unfold handleDeleteAllRoutinesInList. cbv zeta. rewrite Hlists.
  rewrite !fmap_app, !fmap_cons.
  rewrite !(deleteAll_others listId _ pre Hpre),
    !(deleteAll_others listId _ post Hpost).
  rewrite (proj2 (String.eqb_eq _ _) Hid).
  rewrite !concat_app, !concat_cons.
  destruct (deleteAll_kept pre) as (-> & -> & ->).
  destruct (deleteAll_kept post) as (-> & -> & ->).
  destruct (timerOnList (activeRoutineState st) listId);
    cbn [fst snd app foldl applyTimerUpdate]; reflexivity.
Qed.

(** X22. Emptying a list and pressing Start on it. On the one list with
    the id, [handleDeleteAllRoutinesInList] removes every routine and keeps
    id, title and place; the other lists are untouched; a timer on that
    list is stopped and the stop announced with the title of the list, a
    timer elsewhere keeps running. Start on the emptied list then starts
    nothing: it announces that the list has no routines, and it stops a
    timer that runs on another list. *)
Theorem handleDeleteAllRoutinesInList_then_start (listId : string)
    (st : AppState) (pre post : list RoutineList.t) (list : RoutineList.t) :
  lists st = pre ++ list :: post →
  RoutineList.id list = listId →
  forallb (λ l, negb (String.eqb (RoutineList.id l) listId)) (pre ++ post)
  = true →
  ∃ emptied,
    emptied
    = mkApp (pre ++ RoutineList.mk (RoutineList.id list)
                      (RoutineList.title list) [] :: post)
        (if timerOnList (activeRoutineState st) listId then None
         else activeRoutineState st)
    ∧ handleDeleteAllRoutinesInList listId st
      = (emptied,
         if timerOnList (activeRoutineState st) listId
         then [StoppedAllDeleted (RoutineList.title list)] else [])
    ∧ handleToggleStartStopList listId emptied
      = (mkApp (lists emptied) None,
         [NothingToStart (RoutineList.title list)]).
Proof.
  intros Hlists Hid Hothers. eexists. split; [reflexivity |].
  split; [by apply deleteAll_single |].
  rewrite forallb_app in Hothers. apply andb_prop in Hothers as [Hpre Hpost].
  unfold handleToggleStartStopList. cbn [lists activeRoutineState].
  assert (timerOnList
            (if timerOnList (activeRoutineState st) listId then None
             else activeRoutineState st) listId = false) as ->.
  { by destruct (timerOnList (activeRoutineState st) listId) eqn:E. }
  rewrite (find_single _ pre post _ Hpre) by (by apply String.eqb_eq).
  reflexivity.
Qed.

Lemma handleDeleteAllRoutinesInList_then_start_witness :
  ∃ emptied,
    emptied
    = mkApp [RoutineList.mk "l1" "Morning" [];
             RoutineList.mk "l2" "Evening"
               [Routine.mk "r3" "Read" "21:00:00" 60 "21:01:00"]]
        (Some (ActiveRoutineState.mk "l2" "r3" 0 42 "Read"))
    ∧ handleDeleteAllRoutinesInList "l1"
        (mkApp [RoutineList.mk "l1" "Morning"
                  [Routine.mk "r1" "Wake" "08:00:00" 600 "08:10:00"];
                RoutineList.mk "l2" "Evening"
                  [Routine.mk "r3" "Read" "21:00:00" 60 "21:01:00"]]
           (Some (ActiveRoutineState.mk "l2" "r3" 0 42 "Read")))
      = (emptied, [])
    ∧ handleToggleStartStopList "l1" emptied
      = (mkApp (lists emptied) None, [NothingToStart "Morning"]).
Proof.
  exact (handleDeleteAllRoutinesInList_then_start "l1"
           (mkApp [RoutineList.mk "l1" "Morning"
                     [Routine.mk "r1" "Wake" "08:00:00" 600 "08:10:00"];
                   RoutineList.mk "l2" "Evening"
                     [Routine.mk "r3" "Read" "21:00:00" 60 "21:01:00"]]
              (Some (ActiveRoutineState.mk "l2" "r3" 0 42 "Read")))
           []
           [RoutineList.mk "l2" "Evening"
              [Routine.mk "r3" "Read" "21:00:00" 60 "21:01:00"]]
           (RoutineList.mk "l1" "Morning"
              [Routine.mk "r1" "Wake" "08:00:00" 600 "08:10:00"])
           eq_refl eq_refl eq_refl).
Defined.

(** * Saving the start time the editor was filled with *)

Lemma hhmm_time (h m : Z) :
  0 ≤ h < 24 → 0 ≤ m < 60 →
  (twoDigit h +:+ ":" +:+ twoDigit m) +:+ ":00"
  = wallClock (h * 3600 + m * 60).
Proof.
  intros Hh Hm. rewrite wallClock_fields.
  replace ((h * 3600 + m * 60) / 3600) with h
    by (Z.div_mod_to_equations; lia).
  replace ((h * 3600 + m * 60) mod 3600 / 60) with m
    by (Z.div_mod_to_equations; lia).
  replace ((h * 3600 + m * 60) mod 60) with 0
    by (Z.div_mod_to_equations; lia).
  reflexivity.
Qed.

Lemma initialStartTimeForEdit_settled (list : RoutineList.t)
    (first : Routine.t) (t : Z) :
  RoutineList.routines list !! 0%nat = Some first →
  0 ≤ t < secondsPerDay →
  Routine.startTime first = wallClock t →
  initialStartTimeForEdit list
  = twoDigit (t / 3600) +:+ ":" +:+ twoDigit (t mod 3600 / 60).
Proof.
  intros Hfirst Ht Hstart. unfold initialStartTimeForEdit.
  destruct (RoutineList.routines list) as [|r rs]; [done |].
  injection Hfirst as ->. rewrite Hstart. reflexivity.
Qed.

(** X23. Saving the start time the editor was filled with, where the
    host's clock is quiet. For a settled schedule the editor shows the first
    start time cut to HH:MM, and the save is accepted; the handler stops a timer on the list and announces
    it even though nothing was edited. When the first routine starts on a
    whole minute the schedule is kept as it is; otherwise the seconds are
    dropped and the schedule starts on the minute. *)
Theorem handleSaveListStartTime_of_prefill (zone : TimeZone)
    (off horizon : Z) (clock : nat → nat → Date)
    (st : AppState) (pre post : list RoutineList.t) (list : RoutineList.t)
    (first : Routine.t) (t : Z) :
  quietClock zone off horizon (clock (length pre)) →
  lists st = pre ++ list :: post →
  forallb (λ l, negb (String.eqb (RoutineList.id l) (RoutineList.id list)))
    (pre ++ post) = true →
  settled (RoutineList.routines list) = true →
  durationsInRange horizon (RoutineList.routines list) = true →
  RoutineList.routines list !! 0%nat = Some first →
  timeOfDay (Routine.startTime first) = Some t →
  ∃ rs',
    handleSaveListStartTime list (initialStartTimeForEdit list)
    = Some (RoutineList.id list, wallClock (t - t mod 60))
    ∧ handleUpdateListStartTime zone clock (RoutineList.id list)
        (wallClock (t - t mod 60)) st
      = Known (mkApp (pre ++ RoutineList.mk (RoutineList.id list)
                               (RoutineList.title list) rs' :: post)
                 (if timerOnList (activeRoutineState st) (RoutineList.id list)
                  then None else activeRoutineState st),
               if timerOnList (activeRoutineState st) (RoutineList.id list)
               then [StoppedByTimeChanges] else [])
    ∧ settled rs' = true
    ∧ Routine.startTime <$> rs' !! 0%nat = Some (wallClock (t - t mod 60))
    ∧ (t mod 60 = 0 → rs' = RoutineList.routines list).
Proof.
  intros Hq Hlists Hothers Hset Hdur Hfirst Htime.
  apply timeOfDay_spec in Htime as [Ht Hstart].
  unfold secondsPerDay in Ht.
  assert (0 ≤ t / 3600 < 24) as Hh by (Z.div_mod_to_equations; lia).
  pose proof (minutes_field_bounds t) as Hm.
  assert (t - t mod 60 = t / 3600 * 3600 + t mod 3600 / 60 * 60) as Hcut
    by (Z.div_mod_to_equations; lia).
  assert (0 ≤ t - t mod 60 < secondsPerDay) as Ht'
    by (unfold secondsPerDay; Z.div_mod_to_equations; lia).
  pose proof (initialStartTimeForEdit_settled list first t Hfirst Ht Hstart)
    as Hprefill.
  pose proof (hhmm_time _ _ Hh Hm) as Htext. rewrite <- Hcut in Htext.
  assert (RoutineList.routines list ≠ []) as Hne
    by (intros E; by rewrite E in Hfirst).
  destruct (updateStartTimeInList_nonempty zone off horizon
              (clock (length pre)) Hq
              (activeRoutineState st) (RoutineList.id list)
              (wallClock (t - t mod 60)) list _ Hne Hdur
              (parseTimeToDate_wallClock zone off horizon _ _ (Hq 0%nat) Ht')
              (timeOfDay_in_range zone off horizon _ _ (Hq 0%nat) Ht'))
    as (rs' & Hrun & Hset' & _ & Hstart' & Hall).
  exists rs'. split; [| split; [| split; [done | split]]].
  - unfold handleSaveListStartTime. rewrite Hprefill, Htext.
    destruct (twoDigit_padded (t / 3600)) as (HH & _); [lia |].
    destruct (twoDigit_padded (t mod 3600 / 60)) as (HM & _); [lia |].
    rewrite (isHHMM_fields _ _ _ _ HH eq_refl HM eq_refl).
    destruct (RoutineList.routines list); done.
  - unfold handleUpdateListStartTime.
    rewrite (updateMatchingLists_single _ (RoutineList.id list) st pre post
               list _ _ _ Hlists eq_refl Hothers Hrun).
    by rewrite timer_after.
  - rewrite Hstart'.
    by rewrite (formatTimeFromDate_timeOfDay zone off horizon _ _ (Hq 0%nat)
                  Ht').
  - intros Hwhole. rewrite Hwhole, Z.sub_0_r in Hrun.
    unfold updateStartTimeInList in Hrun.
    destruct (RoutineList.routines list) as [|r rs] eqn:Hrs; [done |].
    injection Hfirst as ->. cbn [length Nat.eqb] in Hrun.
    rewrite (imap_at (λ routine,
                        Routine.mk (Routine.id routine) (Routine.name routine)
                          (wallClock t) (Routine.durationSeconds routine)
                          (Routine.endTime routine)) (first :: rs) 0
               (λ index, Nat.eqb index 0) first) in Hrun;
      [| intros j; apply Nat.eqb_eq | done].
    rewrite <- Hstart, routine_eta in Hrun. cbn [insert list_insert] in Hrun.
    unfold recalculateTimesInList in Hrun.
    cbn [RoutineList.routines length Nat.eqb] in Hrun.
    rewrite (recalculate_loop_settled zone off horizon _ Hq) in Hrun by done.
    cbn [mbind tracked_bind] in Hrun.
    destruct (timerOnList (activeRoutineState st) (RoutineList.id list));
      congruence.
Qed.

Lemma handleSaveListStartTime_of_prefill_witness :
  ∃ rs',
    handleSaveListStartTime
      (RoutineList.mk "l2" "Morning"
         [Routine.mk "r1" "Wake" "08:00:30" 1500 "08:25:30";
          Routine.mk "r2" "Run" "08:25:30" 1800 "08:55:30"])
      (initialStartTimeForEdit
         (RoutineList.mk "l2" "Morning"
            [Routine.mk "r1" "Wake" "08:00:30" 1500 "08:25:30";
             Routine.mk "r2" "Run" "08:25:30" 1800 "08:55:30"]))
    = Some ("l2", "08:00:00")
    ∧ handleUpdateListStartTime europeBerlin2026 (λ _ _, 1793610000000)
        "l2" "08:00:00"
        (mkApp
           [RoutineList.mk "l2" "Morning"
              [Routine.mk "r1" "Wake" "08:00:30" 1500 "08:25:30";
               Routine.mk "r2" "Run" "08:25:30" 1800 "08:55:30"]]
           (Some (ActiveRoutineState.mk "l2" "r1" 0 77 "Wake")))
      = Known (mkApp [RoutineList.mk "l2" "Morning" rs'] None,
               [StoppedByTimeChanges])
    ∧ settled rs' = true
    ∧ Routine.startTime <$> rs' !! 0%nat = Some "08:00:00".
Proof.
  destruct (handleSaveListStartTime_of_prefill europeBerlin2026 3600000
              86400 (λ _ _, 1793610000000)
              (mkApp
                 [RoutineList.mk "l2" "Morning"
                    [Routine.mk "r1" "Wake" "08:00:30" 1500 "08:25:30";
                     Routine.mk "r2" "Run" "08:25:30" 1800 "08:55:30"]]
                 (Some (ActiveRoutineState.mk "l2" "r1" 0 77 "Wake")))
              [] []
              (RoutineList.mk "l2" "Morning"
                 [Routine.mk "r1" "Wake" "08:00:30" 1500 "08:25:30";
                  Routine.mk "r2" "Run" "08:25:30" 1800 "08:55:30"])
              (Routine.mk "r1" "Wake" "08:00:30" 1500 "08:25:30") 28830
              (λ _, quiet_europeBerlin2026 86400 1793610000000 eq_refl)
              eq_refl eq_refl eq_refl eq_refl eq_refl eq_refl)
    as (rs' & Hsave & Hrun & Hset & Hstart & _).
  exists rs'. split; [exact Hsave |]. split; [exact Hrun |].
  split; [exact Hset | exact Hstart].
Defined.

(** * The timer stays on a routine *)

Lemma pointsAt_replace (pre post : list RoutineList.t) (l l' : RoutineList.t)
    (a : ActiveRoutineState.t) :
  RoutineList.id l' = RoutineList.id l →
  (RoutineList.id l = ActiveRoutineState.listId a →
   ∀ r, RoutineList.routines l !! ActiveRoutineState.currentRoutineIndex a
        = Some r →
        ∃ r', RoutineList.routines l'
                !! ActiveRoutineState.currentRoutineIndex a = Some r'
              ∧ Routine.id r' = Routine.id r
              ∧ Routine.name r' = Routine.name r) →
  pointsAt (pre ++ l :: post) a = true →
  pointsAt (pre ++ l' :: post) a = true.
Proof.
  intros Hid Hkeep. unfold pointsAt.
  induction pre as [|y pre IH]; cbn [app List.find].
  - rewrite Hid.
    destruct (String.eqb_spec (RoutineList.id l) (ActiveRoutineState.listId a))
      as [E|E]; [| done].
    destruct (RoutineList.routines l
                !! ActiveRoutineState.currentRoutineIndex a) as [r|] eqn:Hr;
      [| done].
    destruct (Hkeep E r eq_refl) as (r' & -> & -> & ->). done.
  - destruct (String.eqb (RoutineList.id y) (ActiveRoutineState.listId a));
      [done | exact IH].
Qed.

(** With distinct ids, a list id is the id of no list or of one. *)
Lemma ids_split (listId : string) (ls : list RoutineList.t) :
  NoDup (RoutineList.id <$> ls) →
  forallb (λ l, negb (String.eqb (RoutineList.id l) listId)) ls = true
  ∨ ∃ pre l post,
      ls = pre ++ l :: post ∧ RoutineList.id l = listId
      ∧ forallb (λ l, negb (String.eqb (RoutineList.id l) listId))
          (pre ++ post) = true.
Proof.
  induction ls as [|a ls IH]; intros Hnd; [by left |].
  cbn [fmap list_fmap] in Hnd. apply NoDup_cons in Hnd as [Hnotin Hnd].
  destruct (String.eqb_spec (RoutineList.id a) listId) as [E|E].
  - right. exists [], a, ls. split; [done |]. split; [done |].
    cbn [app]. apply forallb_forall. intros l Hl.
    apply negb_true_iff, String.eqb_neq. intros E'. apply Hnotin.
    rewrite E, <- E'. apply list_elem_of_fmap. exists l.
    split; [done | by apply list_elem_of_In].
  - destruct (IH Hnd) as [Hall | (pre & l & post & -> & Hid & Hothers)].
    + left. cbn [forallb]. by rewrite (proj2 (String.eqb_neq _ _) E), Hall.
    + right. exists (a :: pre), l, post. split; [done |]. split; [done |].
      cbn [app forallb]. by rewrite (proj2 (String.eqb_neq _ _) E), Hothers.
Qed.

Lemma mapM_imap_known {X : Type} (ls : list RoutineList.t) :
  ∀ (g : nat → RoutineList.t → tracked X) (results : list X),
    mapM (λ y, y) (imap g ls) = Known results →
    ∀ i l, ls !! i = Some l → ∃ x, g i l = Known x.
Proof.
  induction ls as [|a ls IH]; intros g results H i l Hl; [done |].
  cbn [imap mapM] in H.
  destruct (g 0%nat a) as [x0|] eqn:E0; cbn [mbind tracked_bind] in H;
    [| done].
  destruct (mapM (λ y, y) (imap (g ∘ S) ls)) as [rest|] eqn:Erest;
    cbn [mbind tracked_bind] in H; [| done].
  destruct i as [|i].
  - injection Hl as <-. eauto.
  - exact (IH (g ∘ S) rest Erest i l Hl).
Qed.

Lemma collect_all {X : Type} (dflt : RoutineList.t → X)
    (ls : list RoutineList.t) :
  ∀ g : nat → RoutineList.t → tracked X,
    (∀ k l, l ∈ ls → g k l = Known (dflt l)) →
    mapM (λ y, y) (imap g ls) = Known (dflt <$> ls).
Proof.
  induction ls as [|a ls IH]; intros g Hg; [done |].
  cbn [imap mapM fmap list_fmap].
  rewrite (Hg 0%nat a) by apply list_elem_of_here.
  cbn [mbind tracked_bind].
  rewrite (IH (g ∘ S)) by (intros; apply Hg; by apply list_elem_of_further).
  reflexivity.
Qed.

(** What a run of [updateMatchingLists] that the model follows did, when
    one list has the id. *)
Lemma updateMatchingLists_single_inv {N : Type}
    (onList : nat → RoutineList.t →
              tracked (RoutineList.t * list timerUpdate * list N))
    (listId : string) (st st' : AppState) (pre post : list RoutineList.t)
    (l : RoutineList.t) (notices : Datatypes.list N) :
  lists st = pre ++ l :: post →
  RoutineList.id l = listId →
  forallb (λ y, negb (String.eqb (RoutineList.id y) listId)) (pre ++ post)
  = true →
  updateMatchingLists onList listId st = Known (st', notices) →
  ∃ l' updates,
    onList (length pre) l = Known (l', updates, notices)
    ∧ st' = mkApp (pre ++ l' :: post)
              (foldl applyTimerUpdate (activeRoutineState st) updates).
Proof.
  intros Hlists Hid Hothers Hrun.
  assert (∃ x, onList (length pre) l = Known x) as [[[l' u] n] Hx].
  { unfold updateMatchingLists in Hrun.
    destruct (mapM _ _) as [results|] eqn:E in Hrun; [| done].
    destruct (mapM_imap_known _ _ _ E (length pre) l) as [x Hx].
    - rewrite Hlists. by apply list_lookup_middle.
    - rewrite (proj2 (String.eqb_eq _ _) Hid) in Hx. eauto. }
  rewrite (updateMatchingLists_single onList listId st pre post l l' u n
             Hlists Hid Hothers Hx) in Hrun.
  injection Hrun as <- <-. eauto.
Qed.

Lemma recalculate_known_id zone clock (l l' : RoutineList.t) (startIndex : nat) :
  recalculateTimesInList zone clock l startIndex = Known l' →
  RoutineList.id l' = RoutineList.id l.
Proof.
  unfold recalculateTimesInList.
  destruct (Nat.eqb _ 0); [by intros [= <-] |].
  destruct (forEachIndex _ _ _); cbn [mbind tracked_bind]; [| done].
  by intros [= <-].
Qed.

(** A recalculation keeps ids and names, place by place. *)
Lemma recalculate_loop_names zone clock (indices : list nat) :
  ∀ rs rs' : list Routine.t,
    forEachIndex (recalculateStep zone clock) rs indices = Known rs' →
    ∀ k r, rs !! k = Some r →
      ∃ r', rs' !! k = Some r' ∧ Routine.id r' = Routine.id r
            ∧ Routine.name r' = Routine.name r.
Proof.
  induction indices as [|i rest IH]; intros rs rs' Hrun k r Hr;
    cbn [forEachIndex] in Hrun.
  - injection Hrun as <-. eauto.
  - destruct (recalculateStep zone clock rs i) as [rs1|] eqn:Hstep;
      cbn [mbind tracked_bind] in Hrun; [| done].
    apply recalculateStep_inv in Hstep.
    assert (∃ r1, rs1 !! k = Some r1 ∧ Routine.id r1 = Routine.id r
                  ∧ Routine.name r1 = Routine.name r) as (r1 & Hr1 & E1 & E2).
    { destruct (rs !! i) as [x|] eqn:Hx; [| subst; eauto].
      destruct Hstep as (d & e & _ & _ & ->).
      destruct (decide (k = i)) as [-> | Hne].
      - rewrite list_lookup_insert_eq by (by eapply lookup_lt_Some).
        assert (x = r) as -> by congruence. eauto.
      - rewrite list_lookup_insert_ne by done. eauto. }
    destruct (IH rs1 rs' Hrun k r1 Hr1) as (r' & Hr' & E3 & E4).
    exists r'. split; [done |]. split; congruence.
Qed.

Lemma recalculate_known_names zone clock (l l' : RoutineList.t) (startIndex : nat) :
  recalculateTimesInList zone clock l startIndex = Known l' →
  ∀ k r, RoutineList.routines l !! k = Some r →
    ∃ r', RoutineList.routines l' !! k = Some r'
          ∧ Routine.id r' = Routine.id r ∧ Routine.name r' = Routine.name r.
Proof.
  unfold recalculateTimesInList. intros Hrun k r Hr.
  destruct (Nat.eqb_spec (length (RoutineList.routines l)) 0) as [Hz|Hnz].
  - apply nil_length_inv in Hz. by rewrite Hz in Hr.
  - destruct (forEachIndex _ _ _) as [rs'|] eqn:Hloop;
      cbn [mbind tracked_bind] in Hrun; [| done].
    injection Hrun as <-. cbn [RoutineList.routines].
    exact (recalculate_loop_names zone clock _ _ _ Hloop k r Hr).
Qed.

Lemma coherent_spec (st : AppState) :
  coherent st = true ↔
  NoDup (RoutineList.id <$> lists st) ∧ timerConsistent st = true.
Proof.
  unfold coherent, distinctIds. rewrite andb_true_iff.
  by rewrite bool_decide_eq_true.
Qed.

(** Replacing one list by a list with its id, with the timer stopped, or
    kept while the routine it points at stays where it is. *)
Lemma coherent_replace (st : AppState) (pre post : list RoutineList.t)
    (l l' : RoutineList.t) (timer' : option ActiveRoutineState.t) :
  lists st = pre ++ l :: post →
  coherent st = true →
  RoutineList.id l' = RoutineList.id l →
  timer' = None
  ∨ (timer' = activeRoutineState st
     ∧ ∀ a, activeRoutineState st = Some a →
         RoutineList.id l = ActiveRoutineState.listId a →
         ∀ r, RoutineList.routines l
                !! ActiveRoutineState.currentRoutineIndex a = Some r →
              ∃ r', RoutineList.routines l'
                      !! ActiveRoutineState.currentRoutineIndex a = Some r'
                    ∧ Routine.id r' = Routine.id r
                    ∧ Routine.name r' = Routine.name r) →
  coherent (mkApp (pre ++ l' :: post) timer') = true.
Proof.
  intros Hlists [Hnd Htimer]%coherent_spec Hid Hcases.
  apply coherent_spec. cbn [lists]. split.
  - rewrite Hlists in Hnd. rewrite fmap_app, fmap_cons in Hnd |- *.
    by rewrite Hid.
  - destruct Hcases as [-> | [-> Hkeep]]; [done |].
    unfold timerConsistent in *. cbn [lists activeRoutineState].
    destruct (activeRoutineState st) as [a|]; [| done].
    rewrite Hlists in Htimer.
    apply (pointsAt_replace pre post l l' a Hid); [| done].
    by apply Hkeep.
Qed.

Lemma timerOnList_other (st : AppState) (listId : string)
    (l l' : RoutineList.t) :
  timerOnList (activeRoutineState st) listId = false →
  RoutineList.id l = listId →
  ∀ a, activeRoutineState st = Some a →
    RoutineList.id l = ActiveRoutineState.listId a →
    ∀ r, RoutineList.routines l
           !! ActiveRoutineState.currentRoutineIndex a = Some r →
         ∃ r', RoutineList.routines l'
                 !! ActiveRoutineState.currentRoutineIndex a = Some r'
               ∧ Routine.id r' = Routine.id r
               ∧ Routine.name r' = Routine.name r.
Proof.
  intros Hoff Hid a Ha Hla. rewrite Ha in Hoff. cbn [timerOnList] in Hoff.
  apply String.eqb_neq in Hoff. congruence.
Qed.

Lemma no_list_unchanged {N : Type}
    (onList : nat → RoutineList.t →
              tracked (RoutineList.t * list timerUpdate * list N))
    (listId : string) (st : AppState) :
  forallb (λ l, negb (String.eqb (RoutineList.id l) listId)) (lists st)
  = true →
  updateMatchingLists onList listId st = Known (st, []).
Proof.
  intros Hall. apply updateMatchingLists_unchanged. intros k l Hl Hid.
  rewrite forallb_forall in Hall. apply list_elem_of_In, Hall in Hl.
  by rewrite (proj2 (String.eqb_eq _ _) Hid) in Hl.
Qed.

Lemma step_update_duration_coherent zone (clock : nat → nat → Date)
    (listId routineId : string) (d : Z) (st st' : AppState)
    (notices : list notice) :
  coherent st = true →
  handleUpdateRoutineDurationInList zone clock listId routineId d st
  = Known (st', notices) →
  coherent st' = true.
Proof.
  intros Hco Hrun. pose proof (proj1 (coherent_spec st) Hco) as [Hnd _].
  unfold handleUpdateRoutineDurationInList in Hrun.
  destruct (ids_split listId _ Hnd)
    as [Hnone | (pre & l & post & Hlists & Hid & Hothers)].
  - rewrite (no_list_unchanged _ listId st Hnone) in Hrun. congruence.
  - destruct (updateMatchingLists_single_inv _ listId st st' pre post l
                notices Hlists Hid Hothers Hrun) as (l' & u & Hon & ->).
    unfold updateDurationInList in Hon.
    destruct (findIndex _ _ =? -1).
    + injection Hon as <- <- _. cbn [foldl]. rewrite <- Hlists.
      by rewrite state_eta.
    + destruct (recalculateTimesInList _ _ _) as [l1|] eqn:Hrec;
        cbn [mbind tracked_bind] in Hon; [| done].
      apply recalculate_known_id in Hrec. cbn [RoutineList.id] in Hrec.
      destruct (timerOnList (activeRoutineState st) listId) eqn:Hon';
        injection Hon as <- <- _; cbn [foldl applyTimerUpdate].
      * apply (coherent_replace st pre post l l1 None Hlists Hco Hrec).
        by left.
      * apply (coherent_replace st pre post l l1 _ Hlists Hco Hrec).
        right. split; [done |]. by apply (timerOnList_other st listId).
Qed.

Lemma step_update_start_coherent zone (clock : nat → nat → Date)
    (listId s : string) (st st' : AppState) (notices : list notice) :
  coherent st = true →
  handleUpdateListStartTime zone clock listId s st = Known (st', notices) →
  coherent st' = true.
Proof.
  intros Hco Hrun. pose proof (proj1 (coherent_spec st) Hco) as [Hnd _].
  unfold handleUpdateListStartTime in Hrun.
  destruct (ids_split listId _ Hnd)
    as [Hnone | (pre & l & post & Hlists & Hid & Hothers)].
  - rewrite (no_list_unchanged _ listId st Hnone) in Hrun. congruence.
  - destruct (updateMatchingLists_single_inv _ listId st st' pre post l
                notices Hlists Hid Hothers Hrun) as (l' & u & Hon & ->).
    unfold updateStartTimeInList in Hon.
    destruct (Nat.eqb _ 0).
    + injection Hon as <- <- _. cbn [foldl]. rewrite <- Hlists.
      by rewrite state_eta.
    + destruct (recalculateTimesInList _ _ _) as [l1|] eqn:Hrec;
        cbn [mbind tracked_bind] in Hon; [| done].
      apply recalculate_known_id in Hrec. cbn [RoutineList.id] in Hrec.
      destruct (timerOnList (activeRoutineState st) listId) eqn:Hon';
        injection Hon as <- <- _; cbn [foldl applyTimerUpdate].
      * apply (coherent_replace st pre post l l1 None Hlists Hco Hrec).
        by left.
      * apply (coherent_replace st pre post l l1 _ Hlists Hco Hrec).
        right. split; [done |]. by apply (timerOnList_other st listId).
Qed.

Lemma step_delete_routine_coherent zone (clock : nat → nat → Date)
    (listId routineId : string) (st st' : AppState)
    (requests : list request) :
  coherent st = true →
  handleDeleteRoutine zone clock listId routineId st = Known (st', requests) →
  coherent st' = true.
Proof.
  intros Hco Hrun. pose proof (proj1 (coherent_spec st) Hco) as [Hnd _].
  change (handleDeleteRoutine zone clock listId routineId st)
    with (updateMatchingLists
            (λ k, deleteRoutineFromList zone (clock k) (activeRoutineState st)
                    listId routineId) listId st) in Hrun.
  destruct (ids_split listId _ Hnd)
    as [Hnone | (pre & l & post & Hlists & Hid & Hothers)].
  { rewrite (no_list_unchanged _ listId st Hnone) in Hrun. congruence. }
  destruct (updateMatchingLists_single_inv _ listId st st' pre post l
              requests Hlists Hid Hothers Hrun) as (l' & u & Hon & ->).
  unfold deleteRoutineFromList in Hon.
  set (filtered := List.filter _ (RoutineList.routines l)) in Hon.
  destruct (recalculateTimesInList _ _ _) as [l1|] eqn:Hrec;
    cbn [mbind tracked_bind] in Hon; [| done].
  pose proof (recalculate_known_id _ _ _ _ _ Hrec) as Hid1.
  pose proof (recalculate_known_names _ _ _ _ _ Hrec) as Hnames.
  cbn [RoutineList.id RoutineList.routines] in Hid1, Hnames.
  destruct (timerEffectsOfDelete _ listId routineId filtered)
    as [u0 n0] eqn:Heff.
  injection Hon as <- <- _. unfold timerEffectsOfDelete in Heff.
  destruct (activeRoutineState st) as [a|] eqn:Ha.
  2:{ injection Heff as <- _. cbn [foldl].
      apply (coherent_replace st pre post l l1 None Hlists Hco Hid1).
      by left. }
  destruct (String.eqb_spec (ActiveRoutineState.listId a) listId) as [Ea|Ea].
  2:{ injection Heff as <- _. cbn [foldl].
      apply (coherent_replace st pre post l l1 _ Hlists Hco Hid1).
      right. split; [done |]. intros a0 Ha0. congruence. }
  destruct (Nat.eqb (length filtered) 0
            || String.eqb (ActiveRoutineState.routineId a) routineId).
  { injection Heff as <- _. cbn [foldl applyTimerUpdate].
    apply (coherent_replace st pre post l l1 None Hlists Hco Hid1). by left. }
  destruct (filtered !! ActiveRoutineState.currentRoutineIndex a)
    as [r|] eqn:Hr.
  2:{ rewrite orb_true_r in Heff. injection Heff as <- _.
      cbn [foldl applyTimerUpdate].
      apply (coherent_replace st pre post l l1 None Hlists Hco Hid1).
      by left. }
  destruct (String.eqb_spec (Routine.id r) (ActiveRoutineState.routineId a))
    as [Er|Er].
  2:{ cbn [negb] in Heff. rewrite orb_true_r in Heff. injection Heff as <- _.
      cbn [foldl applyTimerUpdate].
      apply (coherent_replace st pre post l l1 None Hlists Hco Hid1).
      by left. }
  cbn [negb] in Heff. rewrite orb_false_r in Heff.
  destruct (negb _) in Heff.
  { injection Heff as <- _. cbn [foldl applyTimerUpdate].
    apply (coherent_replace st pre post l l1 None Hlists Hco Hid1). by left. }
  injection Heff as <- _. cbn [foldl applyTimerUpdate]. rewrite Hr.
  destruct (Hnames _ r Hr) as (r' & Hr' & Eid & Ename).
  apply coherent_spec. cbn [lists activeRoutineState]. split.
  - rewrite Hlists in Hnd. rewrite fmap_app, fmap_cons in Hnd |- *.
    by rewrite Hid1.
  - unfold timerConsistent, pointsAt.
    cbn [lists activeRoutineState ActiveRoutineState.listId
           ActiveRoutineState.currentRoutineIndex
           ActiveRoutineState.routineId ActiveRoutineState.routineName].
    rewrite forallb_app in Hothers.
    apply andb_prop in Hothers as [Hpre _]. rewrite <- Ea in Hpre.
    rewrite (find_single _ pre post l1 Hpre)
      by (apply String.eqb_eq; congruence).
    rewrite Hr', Eid, Ename, Er. by rewrite !String.eqb_refl.
Qed.

Lemma step_delete_all_coherent (listId : string) (st : AppState) :
  coherent st = true →
  coherent (handleDeleteAllRoutinesInList listId st).1 = true.
Proof.
  intros Hco. pose proof (proj1 (coherent_spec st) Hco) as [Hnd _].
  destruct (ids_split listId _ Hnd)
    as [Hnone | (pre & l & post & Hlists & Hid & Hothers)].
  - unfold handleDeleteAllRoutinesInList. cbv zeta. cbn [fst].
    rewrite !(deleteAll_others listId _ _ Hnone).
    destruct (deleteAll_kept (lists st)) as (-> & -> & _).
    cbn [foldl]. by rewrite state_eta.
  - rewrite (deleteAll_single listId st pre post l Hlists Hid Hothers).
    cbn [fst].
    destruct (timerOnList (activeRoutineState st) listId) eqn:Hon.
    + apply (coherent_replace st pre post l
               (RoutineList.mk (RoutineList.id l) (RoutineList.title l) [])
               None Hlists Hco eq_refl).
      by left.
    + apply (coherent_replace st pre post l
               (RoutineList.mk (RoutineList.id l) (RoutineList.title l) [])
               _ Hlists Hco eq_refl).
      right. split; [done |]. by apply (timerOnList_other st listId).
Qed.

Lemma step_add_routine_coherent zone (clock : nat → Date)
    (generateId : nat → string)
    (listId name : string) (d : Z) (startTimeStr : option string)
    (st : AppState) (newLists : list RoutineList.t) :
  coherent st = true →
  handleAddRoutineToList zone clock generateId listId name d startTimeStr
    (lists st)
  = Known newLists →
  coherent (mkApp newLists (activeRoutineState st)) = true.
Proof.
  intros Hco Hrun. pose proof (proj1 (coherent_spec st) Hco) as [Hnd _].
  destruct (ids_split listId _ Hnd)
    as [Hnone | (pre & l & post & Hlists & Hid & Hothers)].
  - unfold handleAddRoutineToList in Hrun.
    rewrite (collect_all (λ y, y)) in Hrun.
    + rewrite list_fmap_id in Hrun. injection Hrun as <-.
      by rewrite state_eta.
    + intros k y Hy.
      exact (others_untouched (λ y, y) listId
               (λ k y, addRoutineToList zone (clock k) (generateId k) y name
                         d startTimeStr)
               (lists st) Hnone k y Hy).
  - assert (∃ l', addRoutineToList zone (clock (length pre))
                    (generateId (length pre)) l name d
                    startTimeStr = Known l') as [l' Hadd].
    { unfold handleAddRoutineToList in Hrun.
      destruct (mapM_imap_known _ _ _ Hrun (length pre) l) as [x Hx].
      - rewrite Hlists. by apply list_lookup_middle.
      - rewrite (proj2 (String.eqb_eq _ _) Hid) in Hx. eauto. }
    rewrite Hlists in Hrun.
    rewrite (handleAddRoutineToList_single zone clock generateId listId name
               d startTimeStr pre post l l' Hid Hothers Hadd) in Hrun.
    injection Hrun as <-.
    unfold addRoutineToList in Hadd.
    destruct (parseTimeToDate _) as [startDate|];
      cbn [mbind tracked_bind] in Hadd; [| done].
    destruct (addSecondsToDate _ _) as [endDate|];
      cbn [mbind tracked_bind] in Hadd; [| done].
    injection Hadd as <-.
    apply (coherent_replace st pre post l
             (RoutineList.mk (RoutineList.id l) (RoutineList.title l) _)
             _ Hlists Hco eq_refl).
    right. split; [done |]. intros a _ _ r Hr. exists r.
    cbn [RoutineList.routines]. split; [| done].
    by apply lookup_app_l_Some.
Qed.

Lemma pointsAt_app (ls more : list RoutineList.t)
    (a : ActiveRoutineState.t) :
  pointsAt ls a = true → pointsAt (ls ++ more) a = true.
Proof.
  unfold pointsAt. induction ls as [|y ls IH]; [done |].
  cbn [app List.find].
  destruct (String.eqb (RoutineList.id y) (ActiveRoutineState.listId a));
    [done | exact IH].
Qed.

Lemma step_add_list_coherent (newId newListName : string) (st : AppState) :
  coherent st = true →
  forallb (λ l, negb (String.eqb (RoutineList.id l) newId)) (lists st)
  = true →
  coherent (handleAddList newId newListName st) = true.
Proof.
  intros Hco Hfresh.
  assert (newId ∉ RoutineList.id <$> lists st) as Hnotin.
  { intros (l & Hid & Hl)%list_elem_of_fmap. rewrite forallb_forall in Hfresh.
    apply list_elem_of_In, Hfresh in Hl.
    apply negb_true_iff, String.eqb_neq in Hl. congruence. }
  clear Hfresh. rename Hnotin into Hfresh. unfold handleAddList.
  destruct (String.eqb (JS.trim newListName) ""); [done |].
  apply coherent_spec in Hco as [Hnd Htimer].
  apply coherent_spec. cbn [lists]. split.
  - rewrite fmap_app. apply NoDup_app. split; [done |]. split.
    + intros x Hx Hin. cbn [fmap list_fmap RoutineList.id] in Hin.
      apply list_elem_of_singleton in Hin. congruence.
    + apply NoDup_singleton.
  - unfold timerConsistent in *. cbn [lists activeRoutineState].
    destruct (activeRoutineState st) as [a|]; [| done].
    by apply pointsAt_app.
Qed.

Lemma step_toggle_coherent (listId : string) (st : AppState) :
  coherent st = true →
  coherent (handleToggleStartStopList listId st).1 = true.
Proof.
  intros [Hnd Htimer]%coherent_spec. apply coherent_spec.
  unfold handleToggleStartStopList.
  destruct (timerOnList (activeRoutineState st) listId); [by split |].
  destruct (List.find _ (lists st)) as [targetList|] eqn:Hfind; [| by split].
  destruct (RoutineList.routines targetList) as [|firstRoutine rest] eqn:Hrs;
    cbn [fst lists]; (split; [done |]); [done |].
  unfold timerConsistent, pointsAt.
  cbn [lists activeRoutineState ActiveRoutineState.listId
         ActiveRoutineState.currentRoutineIndex ActiveRoutineState.routineId
         ActiveRoutineState.routineName].
  rewrite Hfind, Hrs. cbn [lookup list_lookup]. by rewrite !String.eqb_refl.
Qed.

Lemma step_tick_coherent (st : AppState) :
  coherent st = true →
  coherent (mkApp (lists st) (tick (lists st) (activeRoutineState st)).1)
  = true.
Proof.
  intros [Hnd Htimer]%coherent_spec. apply coherent_spec.
  cbn [lists]. split; [done |].
  unfold timerConsistent in *. cbn [lists activeRoutineState].
  destruct (activeRoutineState st) as [a|]; [| done]. unfold tick.
  destruct (ActiveRoutineState.timeLeftInSeconds a <=? 1).
  - destruct (List.find _ (lists st)) as [currentList|] eqn:Hfind; [| done].
    destruct (RoutineList.routines currentList !! _) as [nextRoutine|]
      eqn:Hnext; cbn [fst]; [| done].
    unfold pointsAt.
    cbn [ActiveRoutineState.listId ActiveRoutineState.currentRoutineIndex
           ActiveRoutineState.routineId ActiveRoutineState.routineName].
    rewrite Hfind, Hnext. by rewrite !String.eqb_refl.
  - cbn [fst]. exact Htimer.
Qed.

(** With distinct ids, the first list with an id is the list with the id. *)
Lemma find_unique (x : string) (ls : list RoutineList.t) (l : RoutineList.t) :
  NoDup (RoutineList.id <$> ls) → l ∈ ls → RoutineList.id l = x →
  List.find (λ y, String.eqb (RoutineList.id y) x) ls = Some l.
Proof.
  induction ls as [|a ls IH]; intros Hnd Hl Hid.
  - by apply elem_of_nil in Hl.
  - cbn [fmap list_fmap] in Hnd. apply NoDup_cons in Hnd as [Hnotin Hnd].
    cbn [List.find].
    destruct (String.eqb_spec (RoutineList.id a) x) as [E|E].
    + apply elem_of_cons in Hl as [-> | Hl]; [done |].
      exfalso. apply Hnotin. rewrite E, <- Hid.
      apply list_elem_of_fmap. by exists l.
    + apply elem_of_cons in Hl as [-> | Hl]; [done |]. by apply IH.
Qed.

(** A timer that points at a routine still does when the lists are
    rearranged or rewritten, as long as its list is among them. *)
Lemma pointsAt_elem (ls ls' : list RoutineList.t) (a : ActiveRoutineState.t) :
  NoDup (RoutineList.id <$> ls') →
  (∀ l, l ∈ ls → RoutineList.id l = ActiveRoutineState.listId a → l ∈ ls') →
  pointsAt ls a = true → pointsAt ls' a = true.
Proof.
  intros Hnd Hsub. unfold pointsAt.
  destruct (List.find _ ls) as [l|] eqn:Hfind; [| done].
  apply find_some in Hfind as [Hin Hid].
  apply list_elem_of_In in Hin. apply String.eqb_eq in Hid.
  by rewrite (find_unique _ ls' l Hnd (Hsub l Hin Hid) Hid).
Qed.

Lemma handleMoveList_perm (sourceIndex targetIndexInContainer : Z)
    (st : AppState) :
  lists (handleMoveList sourceIndex targetIndexInContainer st) ≡ₚ lists st
  ∧ activeRoutineState (handleMoveList sourceIndex targetIndexInContainer st)
    = activeRoutineState st.
Proof.
  unfold handleMoveList.
  pose proof (splice_remove_perm (lists st) sourceIndex) as H.
  destruct (splice (lists st) sourceIndex 1 []) as [newLists [|x r]];
    cbn [fst snd lists activeRoutineState] in *.
  - by rewrite H.
  - by rewrite splice_insert_perm, H.
Qed.

Lemma step_move_list_coherent (sourceIndex targetIndexInContainer : Z)
    (st : AppState) :
  coherent st = true →
  coherent (handleMoveList sourceIndex targetIndexInContainer st) = true.
Proof.
  intros [Hnd Htimer]%coherent_spec. apply coherent_spec.
  destruct (handleMoveList_perm sourceIndex targetIndexInContainer st)
    as [Hperm Hsame].
  assert (NoDup (RoutineList.id
                   <$> lists (handleMoveList sourceIndex
                                targetIndexInContainer st))) as Hnd'.
  { by rewrite Hperm. }
  split; [done |]. unfold timerConsistent in *. rewrite Hsame.
  destruct (activeRoutineState st) as [a|]; [| done].
  apply (pointsAt_elem (lists st)); [done | | done].
  intros l Hl _. by rewrite Hperm.
Qed.

(** What a run of [handleMoveRoutine] that the model follows did: nothing,
    or it kept the ids of the lists, left every list in place that has
    neither the source id nor the target id, and stopped a timer on the
    source or the target list. *)
Lemma handleMoveRoutine_known zone (clock : nat → nat → Date)
    (cardId sourceListId targetListId : string) (targetIndex : Z)
    (st st' : AppState) (notices : list notice) :
  handleMoveRoutine zone clock cardId sourceListId targetListId targetIndex st
  = Known (st', notices) →
  st' = st
  ∨ (RoutineList.id <$> lists st' = RoutineList.id <$> lists st
     ∧ (∀ j l, lists st !! j = Some l →
          RoutineList.id l ≠ sourceListId →
          RoutineList.id l ≠ targetListId →
          lists st' !! j = Some l)
     ∧ activeRoutineState st'
       = if timerOnList (activeRoutineState st) sourceListId
            || timerOnList (activeRoutineState st) targetListId
         then None else activeRoutineState st).
Proof.
  unfold handleMoveRoutine. intros H.
  destruct (findIndex _ (lists st) =? -1) eqn:E1; [left; congruence |].
  apply Z.eqb_neq in E1.
  destruct (findIndex_found
              (λ l, String.eqb (RoutineList.id l) sourceListId) (lists st))
    as (source & Hsrc & Hpsrc & _).
  { pose proof (findIndex_range
                  (λ l, String.eqb (RoutineList.id l) sourceListId)
                  (lists st)). lia. }
  apply String.eqb_eq in Hpsrc.
  remember (Z.to_nat (findIndex _ (lists st))) as si eqn:Esi in H, Hsrc.
  clear Esi. rewrite Hsrc in H.
  destruct (if -1 <? _ then _ else _) as [remaining [|card removed]] in H;
    [left; congruence |].
  remember (<[si := RoutineList.mk (RoutineList.id source)
                      (RoutineList.title source) remaining]> (lists st))
    as ls1 eqn:Els1.
  assert (RoutineList.id <$> ls1 = RoutineList.id <$> lists st) as Hids1.
  { rewrite Els1. by apply (insert_same_id _ _ source). }
  destruct (findIndex _ ls1 =? -1) eqn:E2; [left; congruence |].
  apply Z.eqb_neq in E2.
  destruct (findIndex_found
              (λ l, String.eqb (RoutineList.id l) targetListId) ls1)
    as (target & Htgt & Hptgt & _).
  { pose proof (findIndex_range
                  (λ l, String.eqb (RoutineList.id l) targetListId) ls1).
    lia. }
  apply String.eqb_eq in Hptgt.
  remember (Z.to_nat (findIndex _ ls1)) as ti eqn:Eti in H, Htgt.
  clear Eti. rewrite Htgt in H.
  remember (<[ti := RoutineList.mk (RoutineList.id target)
                      (RoutineList.title target)
                      (splice (RoutineList.routines target) targetIndex 0
                         [card]).1]> ls1) as ls2 eqn:Els2.
  assert (RoutineList.id <$> ls2 = RoutineList.id <$> lists st) as Hids2.
  { rewrite <- Hids1, Els2. by apply (insert_same_id _ _ target). }
  assert (∀ (ls : list RoutineList.t) (i : nat) (c : nat → Date)
            (guard : RoutineList.t → bool) (ls' : list RoutineList.t),
            match ls !! i with
            | Some s =>
                if guard s
                then r ← recalculateTimesInList zone c s 0;
                     Known (<[i := r]> ls)
                else Known ls
            | None => Known ls
            end = Known ls' →
            RoutineList.id <$> ls' = RoutineList.id <$> ls
            ∧ ∀ j, j ≠ i → ls' !! j = ls !! j) as Hslot.
  { intros ls i c guard ls' Hrun.
    destruct (ls !! i) as [s|] eqn:Hs; [| by injection Hrun as <-].
    destruct (guard s); [| by injection Hrun as <-].
    destruct (recalculateTimesInList zone c s 0) as [r|] eqn:Hrec;
      cbn [mbind tracked_bind] in Hrun; [| done].
    injection Hrun as <-. apply recalculate_known_id in Hrec. split.
    - by apply (insert_same_id _ _ s).
    - intros j Hj. by apply list_lookup_insert_ne. }
  destruct (match ls2 !! si with Some _ => _ | None => _ end)
    as [ls3|] eqn:Hs3 in H; cbn [mbind tracked_bind] in H; [| done].
  apply (Hslot ls2 si (clock 0%nat)
           (λ s, (0 <? length (RoutineList.routines s))%nat)) in Hs3
    as [Hids3 Hout3].
  destruct (match ls3 !! ti with Some _ => _ | None => _ end)
    as [ls4|] eqn:Hs4 in H; cbn [mbind tracked_bind] in H; [| done].
  apply (Hslot ls3 ti (clock 1%nat) (λ _, true)) in Hs4 as [Hids4 Hout4].
  right.
  assert (∀ j l, lists st !! j = Some l →
            RoutineList.id l ≠ sourceListId →
            RoutineList.id l ≠ targetListId → ls4 !! j = Some l) as Hkept.
  { intros j l Hl Hns Hnt.
    assert (j ≠ si) as Hjs by (intros ->; congruence).
    assert (ls1 !! j = Some l) as Hl1
      by (rewrite Els1; by rewrite list_lookup_insert_ne).
    assert (j ≠ ti) as Hjt by (intros ->; congruence).
    rewrite Hout4, Hout3 by done. rewrite Els2.
    by rewrite list_lookup_insert_ne. }
  destruct (timerOnList (activeRoutineState st) sourceListId
            || timerOnList (activeRoutineState st) targetListId);
    injection H as <- _; cbn [lists activeRoutineState];
    (split; [congruence | split; [exact Hkept | done]]).
Qed.

Lemma step_move_routine_coherent zone (clock : nat → nat → Date)
    (cardId sourceListId targetListId : string) (targetIndex : Z)
    (st st' : AppState) (notices : list notice) :
  coherent st = true →
  handleMoveRoutine zone clock cardId sourceListId targetListId targetIndex st
  = Known (st', notices) →
  coherent st' = true.
Proof.
  intros Hco Hrun.
  destruct (handleMoveRoutine_known _ _ _ _ _ _ _ _ _ Hrun)
    as [-> | (Hids & Hkept & Htimer')]; [done |].
  apply coherent_spec in Hco as [Hnd Htimer].
  apply coherent_spec. split; [by rewrite Hids |].
  unfold timerConsistent in *. rewrite Htimer'.
  destruct (activeRoutineState st) as [a|]; [| done].
  cbn [timerOnList].
  destruct (String.eqb_spec (ActiveRoutineState.listId a) sourceListId)
    as [Es|Es]; [done |].
  destruct (String.eqb_spec (ActiveRoutineState.listId a) targetListId)
    as [Et|Et]; [done |].
  cbn [orb]. apply (pointsAt_elem (lists st)); [by rewrite Hids | | done].
  intros l Hl Hid. apply list_elem_of_lookup in Hl as [j Hj].
  apply list_elem_of_lookup. exists j. apply Hkept; congruence.
Qed.

Lemma step_coherent zone (st st' : AppState) :
  coherent st = true → step zone st st' → coherent st' = true.
Proof.
  intros Hco Hstep. destruct Hstep.
  - by apply step_add_list_coherent.
  - by eapply step_add_routine_coherent.
  - by eapply step_update_duration_coherent.
  - by eapply step_update_start_coherent.
  - by eapply step_delete_routine_coherent.
  - by apply step_delete_all_coherent.
  - by eapply step_move_routine_coherent.
  - by apply step_move_list_coherent.
  - by apply step_toggle_coherent.
  - by apply step_tick_coherent.
Qed.

(** X24. The timer stays on a routine. In every state the app reaches
    from its initial state by calls of its handlers and runs of the
    interval's updater, no two lists have the same id, and a running timer
    points at a routine: the first list with the timer's list id holds, at
    the timer's index, a routine with the timer's routine id and the name
    the timer announces. Whatever is added, edited, deleted or moved, the
    timer is stopped or still on its routine. *)
Theorem reachable_timer_on_routine zone (st : AppState) :
  reachable zone st →
  distinctIds (lists st) = true ∧ timerConsistent st = true.
Proof.
  intros Hreach. apply andb_prop. fold (coherent st).
  induction Hreach as [|st st' Hreach IH Hstep]; [reflexivity |].
  by apply (step_coherent zone st).
Qed.

Lemma reachable_timer_on_routine_witness :
  distinctIds
    [RoutineList.mk "l1" "Morning"
       [Routine.mk "r1" "Wake" "08:00:00" 600 "08:10:00"]] = true
  ∧ timerConsistent
      (mkApp
         [RoutineList.mk "l1" "Morning"
            [Routine.mk "r1" "Wake" "08:00:00" 600 "08:10:00"]]
         (Some (ActiveRoutineState.mk "l1" "r1" 0 600 "Wake"))) = true.
Proof.
  apply (reachable_timer_on_routine europeBerlin2026
           (mkApp
              [RoutineList.mk "l1" "Morning"
                 [Routine.mk "r1" "Wake" "08:00:00" 600 "08:10:00"]]
              (Some (ActiveRoutineState.mk "l1" "r1" 0 600 "Wake")))).
  apply (reachable_step europeBerlin2026
           (mkApp
              [RoutineList.mk "l1" "Morning"
                 [Routine.mk "r1" "Wake" "08:00:00" 600 "08:10:00"]]
              None)
           _
           (reachable_step europeBerlin2026
              (mkApp [RoutineList.mk "l1" "Morning" []] None)
              _
              (reachable_step europeBerlin2026 (mkApp [] None) _
                 (reachable_initial europeBerlin2026)
                 (step_add_list europeBerlin2026 (mkApp [] None) "l1"
                    "Morning" eq_refl))
              (step_add_routine europeBerlin2026
                 (mkApp [RoutineList.mk "l1" "Morning" []] None)
                 (λ _, 1793610000000)
                 (λ _, "r1") "l1" "Wake" 600 (Some "08:00")
                 [RoutineList.mk "l1" "Morning"
                    [Routine.mk "r1" "Wake" "08:00:00" 600 "08:10:00"]]
                 eq_refl))
           (step_toggle europeBerlin2026
              (mkApp
                 [RoutineList.mk "l1" "Morning"
                    [Routine.mk "r1" "Wake" "08:00:00" 600 "08:10:00"]]
                 None)
              "l1")).
Defined.

(** * Every schedule stays settled *)

Lemma wellScheduled_replace {horizon : Z} (pre post : list RoutineList.t)
    (l l' : RoutineList.t) :
  wellScheduled horizon (pre ++ l :: post) = true →
  settled (RoutineList.routines l') = true →
  durationsInRange horizon (RoutineList.routines l') = true →
  wellScheduled horizon (pre ++ l' :: post) = true.
Proof.
  unfold wellScheduled. rewrite !forallb_app. cbn [forallb].
  intros [Hp [_ Hq]%andb_prop]%andb_prop Hs Hd. by rewrite Hp, Hs, Hd, Hq.
Qed.

Lemma wellScheduled_at {horizon : Z} (pre post : list RoutineList.t)
    (l : RoutineList.t) :
  wellScheduled horizon (pre ++ l :: post) = true →
  settled (RoutineList.routines l) = true
  ∧ durationsInRange horizon (RoutineList.routines l) = true.
Proof.
  unfold wellScheduled. rewrite !forallb_app. cbn [forallb].
  intros [_ [H _]%andb_prop]%andb_prop. by apply andb_prop in H.
Qed.

Lemma save_duration_settled zone off horizon (clock : nat → nat → Date)
    (Hq : ∀ j, quietClock zone off horizon (clock j))
    (listId routineId : string) (d : Z) (st st' : AppState)
    (notices : list notice) :
  NoDup (RoutineList.id <$> lists st) →
  wellScheduled horizon (lists st) = true →
  durationInRange horizon d = true →
  handleUpdateRoutineDurationInList zone clock listId routineId d st
  = Known (st', notices) →
  wellScheduled horizon (lists st') = true.
Proof.
  intros Hnd Hws Hd Hrun. unfold handleUpdateRoutineDurationInList in Hrun.
  destruct (ids_split listId _ Hnd)
    as [Hnone | (pre & l & post & Hlists & Hid & Hothers)].
  { rewrite (no_list_unchanged _ listId st Hnone) in Hrun. congruence. }
  destruct (updateMatchingLists_single_inv _ listId st st' pre post l
              notices Hlists Hid Hothers Hrun) as (l' & u & Hon & ->).
  cbn [lists]. rewrite Hlists in Hws.
  destruct (wellScheduled_at _ _ _ Hws) as [Hset Hdur].
  destruct (Z.eq_dec (findIndex (λ x, String.eqb (Routine.id x) routineId)
                        (RoutineList.routines l)) (-1)) as [E|E].
  - unfold updateDurationInList in Hon. rewrite E in Hon.
    cbn [Z.eqb Z.opp Pos.eqb] in Hon. by injection Hon as <- _ _.
  - destruct (findIndex_found (λ x, String.eqb (Routine.id x) routineId)
                (RoutineList.routines l)) as (r & Hr & Hp & Hfirst).
    { pose proof (findIndex_range
                    (λ x, String.eqb (Routine.id x) routineId)
                    (RoutineList.routines l)). lia. }
    destruct (settled_start _ _ r Hset Hr) as (t & Ht & Hstart).
    destruct (updateDurationInList_found zone off horizon
                (clock (length pre)) (Hq (length pre))
                (activeRoutineState st) listId routineId d l _ r t Hset Hdur
                Hd Hr Hp Hfirst (proj2 (timeOfDay_spec _ t) (conj Ht Hstart)))
      as (rs' & Hrun' & Hset' & Hdur' & _).
    rewrite Hrun' in Hon. injection Hon as <- _ _.
    by apply (wellScheduled_replace pre post l).
Qed.

Lemma two_digits_value (a b : ascii) :
  JS.isDigit a = true → JS.isDigit b = true →
  ∃ v, digitsValue (String a (String b "")) = Some v ∧ 0 ≤ v ≤ 99.
Proof.
  intros Ha Hb.
  destruct a as [[|] [|] [|] [|] [|] [|] [|] [|]]; vm_compute in Ha;
    try discriminate Ha; clear Ha;
    destruct b as [[|] [|] [|] [|] [|] [|] [|] [|]]; vm_compute in Hb;
    try discriminate Hb; clear Hb;
    (eexists; split; [vm_compute; reflexivity | lia]).
Qed.

(** A text the start-time editor accepts reads, with ":00" behind it, as a
    date in range. *)
Lemma isHHMM_parse zone off horizon now (text : string) :
  quiet zone off horizon now →
  isHHMM text = true →
  ∃ d, parseTimeToDate zone now (text +:+ ":00") = Known d
       ∧ startDateInRange now (Known d) = true.
Proof.
  intros Hq.
  destruct text as [|h1 [|h2 [|c [|m1 [|m2 [|x rest]]]]]]; try done.
  cbn [isHHMM].
  intros [[[[Hh1 Hh2]%andb_prop Hc]%andb_prop Hm1]%andb_prop Hm2]%andb_prop.
  apply Ascii.eqb_eq in Hc as ->.
  destruct (two_digits_value h1 h2 Hh1 Hh2) as (h & Hh & Hhb).
  destruct (two_digits_value m1 m2 Hm1 Hm2) as (m & Hm & Hmb).
  assert (0 ≤ h * 3600 + m * 60 + 0 ≤ 5 * secondsPerDay) as Hsum
    by (unfold secondsPerDay; lia).
  exists (dateAt zone now (h * 3600 + m * 60 + 0)). split.
  - exact (parseTimeToDate_fields zone off horizon now
             (String h1 (String h2 "")) (String m1 (String m2 "")) "00"
             h m 0 Hq Hh Hm eq_refl (proj2 Hsum)).
  - unfold startDateInRange. apply Z.leb_le.
    by apply (dateAt_near zone off horizon).
Qed.

Lemma save_start_settled zone off horizon (clock : nat → nat → Date)
    (Hq : ∀ j, quietClock zone off horizon (clock j)) (list : RoutineList.t)
    (text lid s : string) (st st' : AppState)
    (notices : Datatypes.list notice) :
  NoDup (RoutineList.id <$> lists st) →
  wellScheduled horizon (lists st) = true →
  handleSaveListStartTime list text = Some (lid, s) →
  handleUpdateListStartTime zone clock lid s st = Known (st', notices) →
  wellScheduled horizon (lists st') = true.
Proof.
  intros Hnd Hws Hsave Hrun. unfold handleSaveListStartTime in Hsave.
  destruct (Nat.eqb _ 0); [done |].
  destruct (isHHMM text) eqn:Htext; [| done].
  injection Hsave as <- <-.
  unfold handleUpdateListStartTime in Hrun.
  destruct (ids_split (RoutineList.id list) _ Hnd)
    as [Hnone | (pre & l & post & Hlists & Hid & Hothers)].
  { rewrite (no_list_unchanged _ _ st Hnone) in Hrun. congruence. }
  destruct (updateMatchingLists_single_inv _ _ st st' pre post l
              notices Hlists Hid Hothers Hrun) as (l' & u & Hon & ->).
  cbn [lists]. rewrite Hlists in Hws.
  destruct (wellScheduled_at _ _ _ Hws) as [Hset Hdur].
  destruct (RoutineList.routines l) as [|r0 rs] eqn:Hrs.
  - unfold updateStartTimeInList in Hon. rewrite Hrs in Hon.
    cbn [length Nat.eqb] in Hon. by injection Hon as <- _ _.
  - destruct (isHHMM_parse zone off horizon (clock (length pre) 0%nat) text
                (Hq (length pre) 0%nat) Htext) as (d & Hparse & Hrange).
    destruct (updateStartTimeInList_nonempty zone off horizon
                (clock (length pre)) (Hq (length pre))
                (activeRoutineState st) (RoutineList.id list)
                (text +:+ ":00") l d) as (rs' & Hrun' & Hset' & Hdur' & _);
      [by rewrite Hrs | by rewrite Hrs | done | done |].
    rewrite Hrun' in Hon. injection Hon as <- _ _.
    by apply (wellScheduled_replace pre post l).
Qed.

Lemma filter_prefix {A : Type} (p : A → bool) (l : list A) (k : nat) :
  (∀ j y, (j < k)%nat → l !! j = Some y → p y = true) →
  take k (List.filter p l) = take k l.
Proof.
  revert k. induction l as [|a l IH]; intros [|k] H; try done.
  cbn [List.filter]. rewrite (H 0%nat a) by (lia || done).
  cbn [take]. f_equal. apply IH.
  intros j y Hj Hy. apply (H (S j) y); [lia | done].
Qed.

(** Deleting from a settled schedule leaves a settled schedule, whatever
    routines have the id. *)
Lemma deleteRoutineFromList_keeps zone off horizon clock
    (Hq : quietClock zone off horizon clock)
    (ars : option ActiveRoutineState.t)
    (listId routineId : string) (l : RoutineList.t) :
  settled (RoutineList.routines l) = true →
  durationsInRange horizon (RoutineList.routines l) = true →
  ∃ rs' updates requests,
    deleteRoutineFromList zone clock ars listId routineId l
    = Known (RoutineList.mk (RoutineList.id l) (RoutineList.title l) rs',
             updates, requests)
    ∧ settled rs' = true ∧ durationsInRange horizon rs' = true.
Proof.
  intros Hset Hdur. unfold deleteRoutineFromList.
  remember (RoutineList.routines l) as rs eqn:Ers. clear Ers.
  remember (List.filter (λ r, negb (String.eqb (Routine.id r) routineId)) rs)
    as filtered eqn:Ef.
  remember (findIndex (λ r, String.eqb (Routine.id r) routineId) rs)
    as routineIndex eqn:Ei.
  remember (Z.to_nat (Z.max 0 (routineIndex - 1))) as s eqn:Es.
  assert (∀ r, r ∈ filtered → r ∈ rs) as Hsub.
  { intros r Hr. rewrite Ef in Hr. apply list_elem_of_In in Hr.
    apply filter_In in Hr as [Hr _]. by apply list_elem_of_In. }
  assert (take s filtered = take s rs) as Htake.
  { destruct (Z_lt_le_dec routineIndex 0) as [Hneg|Hpos].
    - assert (s = 0%nat) as -> by lia. by rewrite !take_0.
    - destruct (findIndex_found
                  (λ r, String.eqb (Routine.id r) routineId) rs)
        as (x & _ & _ & Hbefore); [lia |].
      rewrite <- Ei in Hbefore.
      assert (take (Z.to_nat routineIndex) filtered
              = take (Z.to_nat routineIndex) rs) as Hk.
      { rewrite Ef. apply filter_prefix. intros j y Hj Hy.
        by rewrite (Hbefore j y Hj Hy). }
      replace s with (Nat.min s (Z.to_nat routineIndex)) by lia.
      by rewrite <- !take_take, Hk. }
  destruct (recalculate_settles zone off horizon clock Hq
              (RoutineList.mk (RoutineList.id l) (RoutineList.title l)
                 filtered) s)
    as (rs' & Hrun & Hset' & Hdur' & _).
  - cbn [RoutineList.routines]. rewrite Htake. by apply settled_take.
  - cbn [RoutineList.routines]. apply durationsInRange_lookup.
    intros k r Hr. apply list_elem_of_lookup_2, Hsub in Hr.
    apply list_elem_of_lookup in Hr as [j Hj].
    rewrite durationsInRange_lookup in Hdur. eauto.
  - intros _. cbn [RoutineList.routines].
    destruct (filtered !! 0%nat) as [r|] eqn:Hr;
      [| unfold anchorInRange; by rewrite Hr].
    pose proof Hr as Hin. apply list_elem_of_lookup_2, Hsub in Hin.
    apply list_elem_of_lookup in Hin as [j Hj].
    destruct (settled_start rs j r Hset Hj) as (t & Ht & Hstart).
    by apply (anchor_of_time_of_day zone off horizon clock Hq _ r t).
  - cbn [RoutineList.id RoutineList.title] in Hrun. rewrite Hrun.
    cbn [mbind tracked_bind].
    destruct (timerEffectsOfDelete ars listId routineId filtered)
      as [updates requests].
    by exists rs', updates, requests.
Qed.

Lemma delete_routine_settled zone off horizon (clock : nat → nat → Date)
    (Hq : ∀ j, quietClock zone off horizon (clock j))
    (listId routineId : string) (st st' : AppState)
    (requests : list request) :
  NoDup (RoutineList.id <$> lists st) →
  wellScheduled horizon (lists st) = true →
  handleDeleteRoutine zone clock listId routineId st = Known (st', requests) →
  wellScheduled horizon (lists st') = true.
Proof.
  intros Hnd Hws Hrun.
  change (handleDeleteRoutine zone clock listId routineId st)
    with (updateMatchingLists
            (λ k, deleteRoutineFromList zone (clock k) (activeRoutineState st)
                    listId routineId) listId st) in Hrun.
  destruct (ids_split listId _ Hnd)
    as [Hnone | (pre & l & post & Hlists & Hid & Hothers)].
  { rewrite (no_list_unchanged _ listId st Hnone) in Hrun. congruence. }
  destruct (updateMatchingLists_single_inv _ listId st st' pre post l
              requests Hlists Hid Hothers Hrun) as (l' & u & Hon & ->).
  cbn [lists]. rewrite Hlists in Hws.
  destruct (wellScheduled_at _ _ _ Hws) as [Hset Hdur].
  destruct (deleteRoutineFromList_keeps zone off horizon
              (clock (length pre)) (Hq (length pre))
              (activeRoutineState st) listId routineId l Hset Hdur)
    as (rs' & u' & n' & Hrun' & Hset' & Hdur').
  rewrite Hrun' in Hon. injection Hon as <- _ _.
  by apply (wellScheduled_replace pre post l).
Qed.

Lemma delete_all_settled {horizon : Z} (listId : string) (st : AppState) :
  NoDup (RoutineList.id <$> lists st) →
  wellScheduled horizon (lists st) = true →
  wellScheduled horizon (lists (handleDeleteAllRoutinesInList listId st).1)
  = true.
Proof.
  intros Hnd Hws.
  destruct (ids_split listId _ Hnd)
    as [Hnone | (pre & l & post & Hlists & Hid & Hothers)].
  - unfold handleDeleteAllRoutinesInList. cbv zeta. cbn [fst lists].
    rewrite !(deleteAll_others listId _ _ Hnone).
    by destruct (deleteAll_kept (lists st)) as (-> & _ & _).
  - rewrite (deleteAll_single listId st pre post l Hlists Hid Hothers).
    cbn [fst lists]. rewrite Hlists in Hws.
    by apply (wellScheduled_replace pre post l).
Qed.

Lemma distinct_others (pre post : list RoutineList.t) (l : RoutineList.t) :
  NoDup (RoutineList.id <$> (pre ++ l :: post)) →
  forallb (λ y, negb (String.eqb (RoutineList.id y) (RoutineList.id l)))
    (pre ++ post) = true.
Proof.
  rewrite fmap_app, fmap_cons. intros (_ & Hdisj & Hpost)%NoDup_app.
  apply NoDup_cons in Hpost as [Hnotin _].
  apply forallb_forall. intros y Hy.
  apply negb_true_iff, String.eqb_neq. intros E.
  apply list_elem_of_In, elem_of_app in Hy as [Hy | Hy].
  - apply (Hdisj (RoutineList.id y)).
    + apply list_elem_of_fmap. by exists y.
    + rewrite E. apply list_elem_of_here.
  - apply Hnotin. rewrite <- E. apply list_elem_of_fmap. by exists y.
Qed.

Lemma submit_new_routine_settled zone off horizon (clock : nat → Date)
    (Hq : quietClock zone off horizon clock)
    (generateId : nat → string) (k : nat)
    (list : RoutineList.t)
    (newRoutineName newRoutineDurationInput newRoutineStartTime : string)
    (listId name : string) (d : Z) (startTimeStr : option string) (t : Z)
    (st : AppState) (newLists : Datatypes.list RoutineList.t) :
  NoDup (RoutineList.id <$> lists st) →
  wellScheduled horizon (lists st) = true →
  lists st !! k = Some list →
  handleSubmitNewRoutine list newRoutineName newRoutineDurationInput
    newRoutineStartTime
  = Known (Some (listId, name, d, startTimeStr)) →
  durationInRange horizon d = true →
  newRoutineStartTime = ""
  ∨ timeOfDay (newRoutineStartTime +:+ ":00") = Some t →
  handleAddRoutineToList zone clock generateId listId name d startTimeStr
    (lists st)
  = Known newLists →
  wellScheduled horizon newLists = true.
Proof.
  intros Hnd Hws Hk Hsubmit Hd Hstart Hrun.
  pose proof (take_drop_middle _ _ _ Hk) as Hlists. symmetry in Hlists.
  remember (take k (lists st)) as pre eqn:Epre. clear Epre.
  remember (drop (S k) (lists st)) as post eqn:Epost. clear Epost.
  rewrite Hlists in Hnd, Hws, Hrun.
  pose proof (distinct_others pre post list Hnd) as Hothers.
  destruct (wellScheduled_at _ _ _ Hws) as [Hset Hdur].
  destruct (submitted_routine_settled zone off horizon (clock (length pre))
              (Hq (length pre)) (generateId (length pre)) list
              newRoutineName newRoutineDurationInput newRoutineStartTime
              listId name d startTimeStr t Hset Hdur Hsubmit Hd Hstart)
    as (new & Hadd & Hset' & Hdur' & -> & _).
  rewrite (handleAddRoutineToList_single zone clock generateId
             (RoutineList.id list)
             name d startTimeStr pre post list _ eq_refl Hothers Hadd)
    in Hrun.
  injection Hrun as <-. by apply (wellScheduled_replace pre post list).
Qed.

Lemma add_list_settled {horizon : Z} (newId newListName : string)
    (st : AppState) :
  wellScheduled horizon (lists st) = true →
  wellScheduled horizon (lists (handleAddList newId newListName st)) = true.
Proof.
  intros Hws. unfold handleAddList.
  destruct (String.eqb (JS.trim newListName) ""); [done |].
  cbn [lists]. unfold wellScheduled in *. rewrite forallb_app, Hws. done.
Qed.

Lemma move_list_settled {horizon : Z}
    (sourceIndex targetIndexInContainer : Z) (st : AppState) :
  wellScheduled horizon (lists st) = true →
  wellScheduled horizon
    (lists (handleMoveList sourceIndex targetIndexInContainer st))
  = true.
Proof.
  destruct (handleMoveList_perm sourceIndex targetIndexInContainer st)
    as [Hperm _].
  unfold wellScheduled. rewrite !forallb_forall. intros H l Hl. apply H.
  apply list_elem_of_In. rewrite <- Hperm. by apply list_elem_of_In.
Qed.

(** [handleMoveRoutine] returns the state as it is, or finds the source
    list, the card in it and the target list. *)
Lemma handleMoveRoutine_cases zone (clock : nat → nat → Date)
    (cardId sourceListId targetListId : string) (targetIndex : Z)
    (st : AppState) :
  handleMoveRoutine zone clock cardId sourceListId targetListId targetIndex st
  = Known (st, [])
  ∨ ∃ (si ci ti : nat) (source target : RoutineList.t) (card : Routine.t),
      findIndex (λ l, String.eqb (RoutineList.id l) sourceListId) (lists st)
      = Z.of_nat si
      ∧ lists st !! si = Some source
      ∧ findIndex (λ r, String.eqb (Routine.id r) cardId)
          (RoutineList.routines source) = Z.of_nat ci
      ∧ RoutineList.routines source !! ci = Some card
      ∧ findIndex (λ l, String.eqb (RoutineList.id l) targetListId)
          (lists st) = Z.of_nat ti
      ∧ <[si := RoutineList.mk (RoutineList.id source)
                  (RoutineList.title source)
                  (delete ci (RoutineList.routines source))]> (lists st)
          !! ti = Some target.
Proof.
  pose proof (findIndex_range
                (λ l, String.eqb (RoutineList.id l) sourceListId) (lists st))
    as R1.
  destruct (Z.eq_dec (findIndex
                        (λ l, String.eqb (RoutineList.id l) sourceListId)
                        (lists st)) (-1)) as [E1|E1].
  { left. unfold handleMoveRoutine. by rewrite E1. }
  destruct (findIndex_found
              (λ l, String.eqb (RoutineList.id l) sourceListId) (lists st))
    as (source & Hsrc & _ & _); [lia |].
  assert (∃ si, findIndex (λ l, String.eqb (RoutineList.id l) sourceListId)
                  (lists st) = Z.of_nat si) as [si Hsi]
    by (exists (Z.to_nat (findIndex
                            (λ l, String.eqb (RoutineList.id l) sourceListId)
                            (lists st))); lia).
  rewrite Hsi, Nat2Z.id in Hsrc.
  pose proof (findIndex_range (λ r, String.eqb (Routine.id r) cardId)
                (RoutineList.routines source)) as R2.
  destruct (Z.eq_dec (findIndex (λ r, String.eqb (Routine.id r) cardId)
                        (RoutineList.routines source)) (-1)) as [E2|E2].
  { left. unfold handleMoveRoutine. rewrite Hsi.
    rewrite (proj2 (Z.eqb_neq _ _)) by lia.
    rewrite Nat2Z.id, Hsrc, E2. reflexivity. }
  destruct (findIndex_found (λ r, String.eqb (Routine.id r) cardId)
              (RoutineList.routines source)) as (card & Hcard & _ & _);
    [lia |].
  assert (∃ ci, findIndex (λ r, String.eqb (Routine.id r) cardId)
                  (RoutineList.routines source) = Z.of_nat ci) as [ci Hci]
    by (exists (Z.to_nat (findIndex (λ r, String.eqb (Routine.id r) cardId)
                            (RoutineList.routines source))); lia).
  rewrite Hci, Nat2Z.id in Hcard.
  pose proof (findIndex_range
                (λ l, String.eqb (RoutineList.id l) targetListId) (lists st))
    as R3.
  destruct (Z.eq_dec (findIndex
                        (λ l, String.eqb (RoutineList.id l) targetListId)
                        (lists st)) (-1)) as [E3|E3].
  { left. unfold handleMoveRoutine. rewrite Hsi.
    rewrite (proj2 (Z.eqb_neq _ _)) by lia.
    rewrite Nat2Z.id, Hsrc, Hci.
    rewrite (proj2 (Z.ltb_lt _ _)) by lia.
    rewrite (splice_remove_at _ _ _ Hcard).
    rewrite (findIndex_same_ids targetListId _ (lists st))
      by (by apply (insert_same_id _ _ source)).
    by rewrite E3. }
  assert (∃ ti, findIndex (λ l, String.eqb (RoutineList.id l) targetListId)
                  (lists st) = Z.of_nat ti) as [ti Hti]
    by (exists (Z.to_nat (findIndex
                            (λ l, String.eqb (RoutineList.id l) targetListId)
                            (lists st))); lia).
  destruct (lookup_lt_is_Some_2
              (<[si := RoutineList.mk (RoutineList.id source)
                         (RoutineList.title source)
                         (delete ci (RoutineList.routines source))]>
                 (lists st)) ti) as [target Htgt].
  { rewrite length_insert. lia. }
  right. by exists si, ci, ti, source, target, card.
Qed.

Lemma move_routine_settled zone off horizon (clock : nat → nat → Date)
    (Hq : ∀ j, quietClock zone off horizon (clock j))
    (cardId sourceListId targetListId : string) (targetIndex : Z)
    (st st' : AppState) (notices : list notice) :
  wellScheduled horizon (lists st) = true →
  handleMoveRoutine zone clock cardId sourceListId targetListId targetIndex st
  = Known (st', notices) →
  wellScheduled horizon (lists st') = true.
Proof.
  intros Hws Hrun.
  destruct (handleMoveRoutine_cases zone clock cardId sourceListId targetListId
              targetIndex st)
    as [Hsame | (si & ci & ti & source & target & card & Hsi & Hsrc & Hci
                 & Hcard & Hti & Htgt)].
  - rewrite Hsame in Hrun. congruence.
  - destruct (handleMoveRoutine_settled zone off horizon clock Hq cardId sourceListId
                targetListId targetIndex st si ci ti source target card
                Hws Hsi Hsrc Hci Hcard Hti Htgt)
      as (newLists & Hrun' & Hws' & _).
    rewrite Hrun' in Hrun. by injection Hrun as <- _.
Qed.

Lemma toggle_lists (listId : string) (st : AppState) :
  lists (handleToggleStartStopList listId st).1 = lists st.
Proof.
  unfold handleToggleStartStopList.
  destruct (timerOnList (activeRoutineState st) listId); [done |].
  destruct (List.find _ (lists st)) as [targetList|]; [| done].
  by destruct (RoutineList.routines targetList).
Qed.

Lemma uiStep_step zone off horizon (st st' : AppState) :
  uiStep zone off horizon st st' → step zone st st'.
Proof.
  intros H. destruct H.
  - by apply step_add_list.
  - by eapply step_add_routine.
  - by eapply step_update_duration.
  - by eapply step_update_start.
  - by eapply step_delete_routine.
  - apply step_delete_all.
  - by eapply step_move_routine.
  - apply step_move_list.
  - apply step_toggle.
  - apply step_tick.
Qed.

Lemma uiStep_settled zone off horizon (st st' : AppState) :
  NoDup (RoutineList.id <$> lists st) →
  wellScheduled horizon (lists st) = true →
  uiStep zone off horizon st st' →
  wellScheduled horizon (lists st') = true.
Proof.
  intros Hnd Hws Hstep. destruct Hstep.
  - by apply add_list_settled.
  - by eapply (submit_new_routine_settled zone off horizon clock).
  - by eapply (save_duration_settled zone off horizon clock).
  - by eapply (save_start_settled zone off horizon clock).
  - by eapply (delete_routine_settled zone off horizon clock).
  - by apply delete_all_settled.
  - by eapply (move_routine_settled zone off horizon clock).
  - by apply move_list_settled.
  - by rewrite toggle_lists.
  - done.
Qed.

Lemma uiReachable_invariant zone off horizon (st : AppState) :
  uiReachable zone off horizon st →
  NoDup (RoutineList.id <$> lists st)
  ∧ timerConsistent st = true
  ∧ wellScheduled horizon (lists st) = true.
Proof.
  intros Hreach.
  assert (coherent st = true ∧ wellScheduled horizon (lists st) = true) as [Hco H].
  { induction Hreach as [|st st' Hreach [Hco Hws] Hstep]; [by split |].
    split.
    - apply (step_coherent zone st); [done |].
      by apply (uiStep_step zone off horizon).
    - apply coherent_spec in Hco as [Hnd _].
      by apply (uiStep_settled zone off horizon st). }
  apply coherent_spec in Hco as [Hnd Htimer]. done.
Qed.

(** X25. Every schedule stays settled. In every state the app reaches
    from its initial state through its components, with the forms' checks,
    a start field that is empty or a time of day, durations up to a
    longest one, and every handler run where the host's UTC offset does not
    change within five days and that longest duration of the clock's
    readings, every list holds a settled schedule: each
    routine starts at a time of day in HH:MM:SS, ends at its start plus its
    duration on the wall clock, and starts when the routine before it
    ends. Adding, editing, deleting and moving never leave a gap or an
    overlap. *)
Theorem uiReachable_settled zone off horizon (st : AppState) :
  uiReachable zone off horizon st → wellScheduled horizon (lists st) = true.
Proof.
  intros Hreach.
  by destruct (uiReachable_invariant zone off horizon st Hreach)
    as (_ & _ & H).
Qed.

Lemma uiReachable_settled_witness :
  wellScheduled 86400
    [RoutineList.mk "l1" "Morning"
       [Routine.mk "r1" "Wake" "23:55:00" 600 "00:05:00";
        Routine.mk "r2" "Run" "00:05:00" 330 "00:10:30"]] = true.
Proof.
  apply (uiReachable_settled europeBerlin2026 3600000 86400
           (mkApp
              [RoutineList.mk "l1" "Morning"
                 [Routine.mk "r1" "Wake" "23:55:00" 600 "00:05:00";
                  Routine.mk "r2" "Run" "00:05:00" 330 "00:10:30"]]
              None)).
  apply (uiReachable_step europeBerlin2026 3600000 86400
           (mkApp
              [RoutineList.mk "l1" "Morning"
                 [Routine.mk "r1" "Wake" "23:55:00" 600 "00:05:00"]]
              None)
           _
           (uiReachable_step europeBerlin2026 3600000 86400
              (mkApp [RoutineList.mk "l1" "Morning" []] None)
              _
              (uiReachable_step europeBerlin2026 3600000 86400
                 (mkApp [] None) _
                 (uiReachable_initial europeBerlin2026 3600000 86400)
                 (ui_add_list europeBerlin2026 3600000 86400 (mkApp [] None)
                    "l1" "Morning" eq_refl))
              (ui_submit_new_routine europeBerlin2026 3600000 86400
                 (mkApp [RoutineList.mk "l1" "Morning" []] None)
                 (λ _, 1793610000000)
                 (λ _, "r1") 0 (RoutineList.mk "l1" "Morning" [])
                 "Wake" "10" "23:55" "l1" "Wake" 600 (Some "23:55") 86100
                 [RoutineList.mk "l1" "Morning"
                    [Routine.mk "r1" "Wake" "23:55:00" 600 "00:05:00"]]
                 (λ _, quiet_europeBerlin2026 86400 1793610000000 eq_refl)
                 eq_refl eq_refl eq_refl (or_intror eq_refl) eq_refl))
           (ui_submit_new_routine europeBerlin2026 3600000 86400
              (mkApp
                 [RoutineList.mk "l1" "Morning"
                    [Routine.mk "r1" "Wake" "23:55:00" 600 "00:05:00"]]
                 None)
              (λ _, 1793610000000)
              (λ _, "r2") 0
              (RoutineList.mk "l1" "Morning"
                 [Routine.mk "r1" "Wake" "23:55:00" 600 "00:05:00"])
              "Run" "0:05:30" "08:00" "l1" "Run" 330 None 28800
              [RoutineList.mk "l1" "Morning"
                 [Routine.mk "r1" "Wake" "23:55:00" 600 "00:05:00";
                  Routine.mk "r2" "Run" "00:05:00" 330 "00:10:30"]]
              (λ _, quiet_europeBerlin2026 86400 1793610000000 eq_refl)
              eq_refl eq_refl eq_refl (or_intror eq_refl) eq_refl)).
Defined.
